(** * Core state at branch event exporter: a shallow embedding

    Source: [scripts/analysis_data_export.py].

    The script has two classes.  [CoreStateAnalyzer] is the tracker of one
    core: it opens a record at every branch event, appends one sample to
    every open record at every periodic tick and closes a record once
    its observation window has elapsed.  [CoreStateAtBranchEventAnalyzer]
    owns one tracker per core, routes the callbacks and, at the end of the
    simulation, writes the two CSV files.

    Python integers are unbounded and are embedded as [Z].  A [str] is
    embedded as a [string], one character per code point, for text whose
    code points are below 256.  A Python [dict]
    keeps its keys in insertion order and that order is visible in both
    output files, so a dict is embedded as an association list without
    repeated keys.  Exceptions are embedded in a small error monad.  The
    [sim] package of the simulator is not part of the script: what the
    script reads from it is passed in ([Sim], [Probe]).  The [print] calls
    and the registration of the callbacks have no effect on the state or
    on the files and are left out. *)

From Stdlib Require Import ZArith List String Ascii Bool Lia.
From Stdlib Require Import Permutation Sorted QArith HexString DecimalString Floats.
Import ListNotations.

Local Open Scope Z_scope.


(** ** Python values and built-ins used by the script *)

Module Py.

Inductive exn : Type :=
| KeyError
| ValueError
| ZeroDivisionError
| OverflowError.

Inductive result (A : Type) : Type :=
| Ok (a : A)
| Raise (e : exn).

Arguments Ok {A} a.
Arguments Raise {A} e.

Definition bind {A B : Type} (m : result A) (k : A -> result B) : result B :=
  match m with
  | Ok a => k a
  | Raise e => Raise e
  end.

(** A loop whose body may raise: the first exception ends the loop. *)
Fixpoint for_each {S A : Type} (body : S -> A -> result S)
         (xs : list A) (s : S) : result S :=
  match xs with
  | [] => Ok s
  | x :: xs' => bind (body s x) (for_each body xs')
  end.

(** *** dict, in insertion order *)

(** Keys are compared with [==]; the script uses [int] and [str] keys. *)
Class EqKey (K : Type) : Type := {
  key_eqb : K -> K -> bool;
  key_eqb_eq : forall a b : K, key_eqb a b = true <-> a = b
}.

#[global] Instance EqKey_int : EqKey Z :=
  {| key_eqb := Z.eqb; key_eqb_eq := Z.eqb_eq |}.

#[global] Instance EqKey_str : EqKey string :=
  {| key_eqb := String.eqb; key_eqb_eq := String.eqb_eq |}.

Definition dict (K V : Type) : Type := list (K * V).

Section Dict.

Context {K V : Type} `{EqKey K}.

Definition keys (d : dict K V) : list K := map fst d.

Definition values (d : dict K V) : list V := map snd d.

Definition items (d : dict K V) : list (K * V) := d.

(** [d.get(k)]: the value, if any. *)
Fixpoint get (d : dict K V) (k : K) : option V :=
  match d with
  | [] => None
  | (k', v) :: d' => if key_eqb k' k then Some v else get d' k
  end.

(** [k in d] *)
Definition contains (d : dict K V) (k : K) : bool :=
  match get d k with
  | Some _ => true
  | None => false
  end.

(** [d[k]]: raises [KeyError] on a missing key. *)
Definition getitem (d : dict K V) (k : K) : result V :=
  match get d k with
  | Some v => Ok v
  | None => Raise KeyError
  end.

(** [d[k] = v]: an existing key keeps its position, a new key goes last. *)
Fixpoint setitem (d : dict K V) (k : K) (v : V) : dict K V :=
  match d with
  | [] => [(k, v)]
  | (k', v') :: d' =>
      if key_eqb k' k then (k', v) :: d' else (k', v') :: setitem d' k v
  end.

Fixpoint remove (d : dict K V) (k : K) : dict K V :=
  match d with
  | [] => []
  | (k', v) :: d' => if key_eqb k' k then d' else (k', v) :: remove d' k
  end.

(** [del d[k]]: raises [KeyError] on a missing key. *)
Definition delitem (d : dict K V) (k : K) : result (dict K V) :=
  if contains d k then Ok (remove d k) else Raise KeyError.

End Dict.

(** *** str and int *)

(** [s.split(sep)] for a one-character separator: one more field than
    there are separators, empty fields included. *)
Fixpoint split (sep : ascii) (s : string) : list string :=
  match s with
  | EmptyString => [EmptyString]
  | String c s' =>
      if Ascii.eqb c sep then EmptyString :: split sep s'
      else match split sep s' with
           | [] => [String c EmptyString]
           | field :: fields => String c field :: fields
           end
  end.

(** [dict(enumerate(xs))] *)
Fixpoint enumerate_from {A : Type} (i : Z) (xs : list A) : dict Z A :=
  match xs with
  | [] => []
  | x :: xs' => (i, x) :: enumerate_from (i + 1) xs'
  end.

Definition enumerate {A : Type} (xs : list A) : dict Z A := enumerate_from 0 xs.

(** White space skipped by [int(text)] around the literal: tab, line
    feed, vertical tab, form feed, carriage return and space and, beyond
    ASCII, next line (U+0085) and no-break space (U+00A0).  The separators
    U+001C to U+001F are white space for [str.isspace] but not for
    [int]. *)
Definition is_space (c : ascii) : bool :=
  let n := Z.of_nat (nat_of_ascii c) in
  ((9 <=? n) && (n <=? 13)) || (n =? 32) || (n =? 133) || (n =? 160).

Definition digit_of (c : ascii) : option Z :=
  let n := Z.of_nat (nat_of_ascii c) in
  if (48 <=? n) && (n <=? 57) then Some (n - 48) else None.

Fixpoint lstrip (s : string) : string :=
  match s with
  | String c s' => if is_space c then lstrip s' else s
  | EmptyString => EmptyString
  end.

(** The digits of a decimal literal, read left to right.  [prev] tells
    whether the previous character was a digit: an underscore is allowed
    only between two digits, and only trailing white space may follow
    the last digit. *)
Fixpoint int_digits (acc : Z) (prev : bool) (s : string) : option Z :=
  match s with
  | EmptyString => if prev then Some acc else None
  | String c s' =>
      match digit_of c with
      | Some d => int_digits (10 * acc + d) true s'
      | None =>
          if Ascii.eqb c "_" then
            if prev then
              match s' with
              | String c' _ =>
                  match digit_of c' with
                  | Some _ => int_digits acc false s'
                  | None => None
                  end
              | EmptyString => None
              end
            else None
          else if prev && is_space c then
            match lstrip s' with
            | EmptyString => Some acc
            | String _ _ => None
            end
          else None
      end
  end.

(** [sys.int_info.default_max_str_digits]: since CPython 3.11 [int(text)]
    refuses a literal of more digits, unless the interpreter is started
    with another limit. *)
Definition int_max_str_digits : Z := 4300.

(** The number of decimal digits in a text. *)
Definition count_digits (s : string) : Z :=
  Z.of_nat
    (List.length
       (filter (fun c => match digit_of c with Some _ => true | None => false end)
               (list_ascii_of_string s))).

(** [int(text)] in base 10: optional white space, an optional sign,
    decimal digits; anything else is a [ValueError], and so is a literal
    of more than [int_max_str_digits] digits. *)
Definition int_of_str (s : string) : result Z :=
  let body := lstrip s in
  let '(negative, digits) :=
    match body with
    | String "-" s' => (true, s')
    | String "+" s' => (false, s')
    | _ => (false, body)
    end in
  match int_digits 0 false digits with
  | Some n =>
      if int_max_str_digits <? count_digits digits then Raise ValueError
      else Ok (if negative then - n else n)
  | None => Raise ValueError
  end.

(** [str(n)] and ["%d" % n] *)
Definition str_of_int (n : Z) : string := NilZero.string_of_int (Z.to_int n).

(** [str(b)] and ["%s" % b] *)
Definition str_of_bool (b : bool) : string :=
  if b then "True"%string else "False"%string.

(** [hex(n)] *)
Definition hex (n : Z) : string := HexString.of_Z n.

(** [range(n)] *)
Definition range (n : Z) : list Z := map Z.of_nat (seq 0 (Z.to_nat n)).

(** The line feed written at the end of every line. *)
Definition LF : string := String (ascii_of_nat 10) EmptyString.

(** [sep.join(xs)] *)
Fixpoint join (sep : string) (xs : list string) : string :=
  match xs with
  | [] => EmptyString
  | [x] => x
  | x :: xs' => (x ++ sep ++ join sep xs')%string
  end.

(** [sum(xs)] *)
Definition sum (xs : list Z) : Z := fold_left Z.add xs 0.

(** [len(xs)] *)
Definition len {A : Type} (xs : list A) : Z := Z.of_nat (List.length xs).

(** [[i for i, x in enumerate(xs) if p(x)]] *)
Fixpoint positions_from {A : Type} (p : A -> bool) (i : Z) (xs : list A) : list Z :=
  match xs with
  | [] => []
  | x :: xs' =>
      if p x then i :: positions_from p (i + 1) xs' else positions_from p (i + 1) xs'
  end.

Fixpoint last_char (s : string) : option ascii :=
  match s with
  | EmptyString => None
  | String c EmptyString => Some c
  | String _ s' => last_char s'
  end.

(** [os.path.join(folder, name)] on a POSIX system, [name] being relative. *)
Definition path_join (folder name : string) : string :=
  match last_char folder with
  | None => name
  | Some "/"%char => (folder ++ name)%string
  | Some _ => (folder ++ "/" ++ name)%string
  end.

End Py.

Notation "x <- m ;; k" := (Py.bind m (fun x => k))
  (at level 61, m at next level, right associativity).

(** ** Python floats

    The summary is computed with [float] divisions and printed with
    ["%.2f"].  The script is embedded over an interface of the operations
    it uses; its instance is IEEE 754 binary64, which is what the
    interpreter computes: every conversion of an [int] and every division
    and multiplication is rounded to the nearest double. *)

Module PyFloat.

Class Ops (F : Type) : Type := {
  (** [float(n)], also applied silently to the [int] operand of [/] and [*] *)
  of_int : Z -> Py.result F;
  is_zero : F -> bool;
  div : F -> F -> F;
  mul : F -> F -> F;
  (** ["%.2f" % x] *)
  format_2f : F -> string
}.

(** [x / y] on floats: a zero divisor raises. *)
Definition truediv {F : Type} `{Ops F} (x y : F) : Py.result F :=
  if is_zero y then Py.Raise Py.ZeroDivisionError else Py.Ok (div x y).

(** Round a non-negative rational to the nearest integer, ties to even. *)
Definition round_half_even (q : Q) : Z :=
  let n := Qnum q in
  let d := Zpos (Qden q) in
  let fl := n / d in
  match 2 * (n mod d) ?= d with
  | Lt => fl
  | Gt => fl + 1
  | Eq => if Z.even fl then fl else fl + 1
  end.

(** Two decimals of a magnitude, correctly rounded, after the sign. *)
Definition format_2f_exact (negative : bool) (magnitude : Q) : string :=
  let n := round_half_even (magnitude * 100) in
  ((if negative then "-" else "")
     ++ Py.str_of_int (n / 100) ++ "."
     ++ Py.str_of_int ((n mod 100) / 10) ++ Py.str_of_int (n mod 10))%string.

(** *** binary64 *)

(** [float(n)]: the nearest double, ties to even; an integer beyond the
    range of the doubles raises [OverflowError]. *)
Definition binary64_of_int (n : Z) : Py.result float :=
  match binary_normalize prec emax n 0 false with
  | S754_infinity _ => Py.Raise Py.OverflowError
  | x => Py.Ok (SF2Prim x)
  end.

(** The rational number a finite double stands for. *)
Definition magnitude_of (m : positive) (e : Z) : Q :=
  match e with
  | Zneg p => Qmake (Zpos m) (2 ^ p)%positive
  | _ => inject_Z (Zpos m * 2 ^ e)
  end.

Definition binary64_format_2f (x : float) : string :=
  match Prim2SF x with
  | S754_zero s => format_2f_exact s 0
  | S754_finite s m e => format_2f_exact s (magnitude_of m e)
  | S754_infinity s => if s then "-inf"%string else "inf"%string
  | S754_nan => "nan"%string
  end.

#[global] Instance binary64 : Ops float := {|
  of_int := binary64_of_int;
  is_zero := PrimFloat.is_zero;
  div := PrimFloat.div;
  mul := PrimFloat.mul;
  format_2f := binary64_format_2f
|}.

(** The integers that have no double: the largest double is
    [2^1024 - 2^971], and rounding to nearest takes every integer from
    [2^1024 - 2^970] on to infinity. *)
Definition too_large (n : Z) : bool := 2 ^ 1024 - 2 ^ 970 <=? Z.abs n.

(** The double nearest to an integer that has one. *)
Definition nearest (n : Z) : float :=
  SF2Prim (binary_normalize prec emax n 0 false).

End PyFloat.

(** ** The simulator, as far as the script reads it *)

(** Constants of a run: [sim.util.Time.US] (simulator time units in one
    microsecond), [sim.config.ncores] and [sim.config.output_dir].  The
    [sim] package is not part of the sources, so they are parameters. *)
Record Sim : Type := {
  Time_US : Z;
  ncores : Z;
  output_dir : string
}.

(** What the simulator answers during one callback: [sim.stats.time()],
    [sim.stats.get('performance_model', core, 'instruction_count')] and
    [sim.dvfs.get_core_state(core)]. *)
Record Probe : Type := {
  stats_time : Z;
  stats_instruction_count : Z -> Z;
  dvfs_get_core_state : Z -> Z
}.

(** Core state values (module docstring). *)
Definition RUNNING : Z := 0.
Definition INITIALIZING : Z := 1.
Definition STALLED : Z := 2.
Definition SLEEPING : Z := 3.
Definition WAKING_UP : Z := 4.
Definition IDLE : Z := 5.
Definition BROKEN : Z := 6.

(** ** The record dict built by [record_branch_event] *)

Module BranchRecord.

Record t : Type := {
  event_id : Z;
  core_id : Z;
  ip : Z;
  branch_taken : bool;
  start_time : Z;
  instruction_count : Z;
  states : list (Z * Z)
}.

(** [record['states'].append(sample)] *)
Definition states_append (r : t) (sample : Z * Z) : t :=
  {| event_id := event_id r;
     core_id := core_id r;
     ip := ip r;
     branch_taken := branch_taken r;
     start_time := start_time r;
     instruction_count := instruction_count r;
     states := states r ++ [sample] |}.

End BranchRecord.

(** ** class CoreStateAnalyzer *)

Module CoreStateAnalyzer.

Record t : Type := {
  core_id : Z;
  results_folder : string;
  observation_window : Z;
  sampling_period : Z;
  active_records : Py.dict Z BranchRecord.t;
  completed_records : list BranchRecord.t;
  next_event_id : Z
}.

Definition __init__ (core_id : Z) (results_folder : string)
           (observation_window sampling_period : Z) : t :=
  {| core_id := core_id;
     results_folder := results_folder;
     observation_window := observation_window;
     sampling_period := sampling_period;
     active_records := [];
     completed_records := [];
     next_event_id := 1 |}.

Definition with_records (self : t) (active : Py.dict Z BranchRecord.t)
           (completed : list BranchRecord.t) : t :=
  {| core_id := core_id self;
     results_folder := results_folder self;
     observation_window := observation_window self;
     sampling_period := sampling_period self;
     active_records := active;
     completed_records := completed;
     next_event_id := next_event_id self |}.

(** The record that [record_branch_event] builds; its [event_id] is the
    value of [next_event_id] read before the increment. *)
Definition new_record (now : Probe) (self : t) (ip : Z) (actual : bool)
  : BranchRecord.t :=
  {| BranchRecord.event_id := next_event_id self;
     BranchRecord.core_id := core_id self;
     BranchRecord.ip := ip;
     BranchRecord.branch_taken := actual;
     BranchRecord.start_time := stats_time now;
     BranchRecord.instruction_count :=
       stats_instruction_count now (core_id self);
     BranchRecord.states := [] |}.

Definition record_branch_event (now : Probe) (self : t)
           (ip : Z) (predicted actual indirect : bool) : t :=
  let event_id := next_event_id self in
  let record := new_record now self ip actual in
  {| core_id := core_id self;
     results_folder := results_folder self;
     observation_window := observation_window self;
     sampling_period := sampling_period self;
     active_records := Py.setitem (active_records self) event_id record;
     completed_records := completed_records self;
     next_event_id := event_id + 1 |}.

(** Body of the loop of [collect_state_sample] over the snapshot
    [list(self.active_records.keys())].  The record object is changed in
    place, so the dict entry holds the new sample before the window test
    decides whether the record moves to [completed_records]. *)
Definition sample_record (sim : Sim) (time current_state : Z)
           (self : t) (event_id : Z) : Py.result t :=
  record <- Py.getitem (active_records self) event_id ;;
  let elapsed_time := time - BranchRecord.start_time record in
  let record := BranchRecord.states_append record (elapsed_time, current_state) in
  let active := Py.setitem (active_records self) event_id record in
  if elapsed_time >? observation_window self * Time_US sim then
    active <- Py.delitem active event_id ;;
    Py.Ok (with_records self active (completed_records self ++ [record]))
  else
    Py.Ok (with_records self active (completed_records self)).

Definition collect_state_sample (sim : Sim) (now : Probe) (self : t)
           (time time_delta : Z) : Py.result t :=
  if time_delta =? 0 then Py.Ok self
  else
    let current_state := dvfs_get_core_state now (core_id self) in
    Py.for_each (sample_record sim time current_state)
                (Py.keys (active_records self)) self.

End CoreStateAnalyzer.

(** ** The entries of [pattern_stats] in [generate_analysis_summary] *)

Module PatternStats.

Record t : Type := {
  count : Z;
  idle_positions : list Z;
  branch_taken_count : Z
}.

End PatternStats.

(** ** The rows of [state_pattern_summary.csv] *)

Module SummaryRow.

Record t (F : Type) : Type := {
  Branch_IP : string;
  Count : Z;
  Avg_Idle_Position : F;
  Idle_Time_Percent : F;
  Branch_Taken_Ratio : F
}.

Arguments Branch_IP {F} _.
Arguments Count {F} _.
Arguments Avg_Idle_Position {F} _.
Arguments Idle_Time_Percent {F} _.
Arguments Branch_Taken_Ratio {F} _.

End SummaryRow.

(** ** class CoreStateAtBranchEventAnalyzer *)

Module CoreStateAtBranchEventAnalyzer.

(** The object from [setup] on: the hooks run only after [setup], which
    gives the fields that [__init__] leaves at [None] their values.
    [periodic_hook] is the interval handed to [sim.util.Every]. *)
Record t : Type := {
  results_folder : string;
  state_patterns_file : string;
  analysis_summary_file : string;
  observation_window : Z;
  sampling_period : Z;
  total_branches : Z;
  core_analyzers : Py.dict Z CoreStateAnalyzer.t;
  periodic_hook : Z
}.

(** [int(text or default)]: a missing or empty field takes the default. *)
Definition int_or (field : option string) (default : Z) : Py.result Z :=
  match field with
  | None | Some EmptyString => Py.Ok default
  | Some text => Py.int_of_str text
  end.

Definition setup (sim : Sim) (args : option string) : Py.result t :=
  let args :=
    Py.enumerate
      (Py.split ":" (match args with Some text => text | None => EmptyString end)) in
  observation_window <- int_or (Py.get args 0) 100 ;;
  sampling_period <- int_or (Py.get args 1) 1 ;;
  let results_folder := output_dir sim in
  let num_cores := ncores sim in
  Py.Ok
    {| results_folder := results_folder;
       state_patterns_file := Py.path_join results_folder "core_state_patterns.csv";
       analysis_summary_file := Py.path_join results_folder "state_pattern_summary.csv";
       observation_window := observation_window;
       sampling_period := sampling_period;
       total_branches := 0;
       core_analyzers :=
         fold_left
           (fun analyzers core_id =>
              Py.setitem analyzers core_id
                (CoreStateAnalyzer.__init__
                   core_id results_folder observation_window sampling_period))
           (Py.range num_cores) [];
       periodic_hook := sampling_period * Time_US sim |}.

Definition with_analyzers (self : t) (branches : Z)
           (analyzers : Py.dict Z CoreStateAnalyzer.t) : t :=
  {| results_folder := results_folder self;
     state_patterns_file := state_patterns_file self;
     analysis_summary_file := analysis_summary_file self;
     observation_window := observation_window self;
     sampling_period := sampling_period self;
     total_branches := branches;
     core_analyzers := analyzers;
     periodic_hook := periodic_hook self |}.

(** The loop of [hook_periodic] over [self.core_analyzers.values()];
    every analyzer is changed in place. *)
Fixpoint collect_all (sim : Sim) (now : Probe) (time time_delta : Z)
         (analyzers : Py.dict Z CoreStateAnalyzer.t)
  : Py.result (Py.dict Z CoreStateAnalyzer.t) :=
  match analyzers with
  | [] => Py.Ok []
  | (core_id, analyzer) :: rest =>
      analyzer <- CoreStateAnalyzer.collect_state_sample sim now analyzer time time_delta ;;
      rest <- collect_all sim now time time_delta rest ;;
      Py.Ok ((core_id, analyzer) :: rest)
  end.

(** [time_delta] defaults to 0 when the caller leaves it out. *)
Definition hook_periodic (sim : Sim) (now : Probe) (self : t)
           (time time_delta : Z) : Py.result t :=
  analyzers <- collect_all sim now time time_delta (core_analyzers self) ;;
  Py.Ok (with_analyzers self (total_branches self) analyzers).

Definition hook_branch_predictor (now : Probe) (self : t) (core_id ip : Z)
           (predicted actual indirect : bool) : t :=
  let total_branches := total_branches self + 1 in
  match Py.get (core_analyzers self) core_id with
  | Some analyzer =>
      with_analyzers self total_branches
        (Py.setitem (core_analyzers self) core_id
           (CoreStateAnalyzer.record_branch_event
              now analyzer ip predicted actual indirect))
  | None => with_analyzers self total_branches (core_analyzers self)
  end.

(** The first loop of [hook_sim_end]: per analyzer, its completed records
    and then its active records. *)
Definition all_completed_records (self : t) : list BranchRecord.t :=
  flat_map
    (fun analyzer =>
       CoreStateAnalyzer.completed_records analyzer
         ++ Py.values (CoreStateAnalyzer.active_records analyzer))
    (Py.values (core_analyzers self)).

(** One line of [core_state_patterns.csv]. *)
Definition record_line (record : BranchRecord.t) : string :=
  let states_str :=
    Py.join "," (map (fun sample => Py.str_of_int (snd sample))
                     (BranchRecord.states record)) in
  (Py.str_of_int (BranchRecord.event_id record) ++ ","
     ++ Py.str_of_int (BranchRecord.instruction_count record) ++ ","
     ++ Py.str_of_int (BranchRecord.start_time record) ++ ","
     ++ Py.str_of_int (BranchRecord.core_id record) ++ ","
     ++ Py.hex (BranchRecord.ip record) ++ ","
     ++ Py.str_of_bool (BranchRecord.branch_taken record) ++ ","
     ++ states_str ++ Py.LF)%string.

Definition state_patterns_header : string :=
  ("Event_ID,Instruction_Count,Start_Time,Core_ID,Branch_IP,Branch_Taken,States"
     ++ Py.LF)%string.

Definition analysis_summary_header : string :=
  ("Branch_IP,Count,Avg_Idle_Position,Idle_Time_Percent,Branch_Taken_Ratio"
     ++ Py.LF)%string.

(** [[i for i, state in enumerate(states) if state == 5]] *)
Definition idle_positions_of (record : BranchRecord.t) : list Z :=
  let states := map snd (BranchRecord.states record) in
  Py.positions_from (fun state => state =? 5) 0 states.

(** Body of the first loop of [generate_analysis_summary]. *)
Definition count_record (pattern_stats : Py.dict string PatternStats.t)
           (record : BranchRecord.t) : Py.dict string PatternStats.t :=
  let ip := Py.hex (BranchRecord.ip record) in
  let branch_taken := BranchRecord.branch_taken record in
  let idle_positions := idle_positions_of record in
  match idle_positions with
  | [] => pattern_stats
  | _ :: _ =>
      match Py.get pattern_stats ip with
      | None =>
          Py.setitem pattern_stats ip
            {| PatternStats.count := 1;
               PatternStats.idle_positions := idle_positions;
               PatternStats.branch_taken_count := if branch_taken then 1 else 0 |}
      | Some stats =>
          Py.setitem pattern_stats ip
            {| PatternStats.count := PatternStats.count stats + 1;
               PatternStats.idle_positions :=
                 PatternStats.idle_positions stats ++ idle_positions;
               PatternStats.branch_taken_count :=
                 if branch_taken then PatternStats.branch_taken_count stats + 1
                 else PatternStats.branch_taken_count stats |}
      end
  end.

Definition pattern_stats_of (all_records : list BranchRecord.t)
  : Py.dict string PatternStats.t :=
  fold_left count_record all_records [].

Section Summary.

Context {F : Type} `{PyFloat.Ops F}.

(** Body of the second loop of [generate_analysis_summary]: the values
    that are formatted into one line.  An [int] operand of [/] or [*] is
    converted with [float] first. *)
Definition summary_row (self : t) (ip : string) (stats : PatternStats.t)
  : Py.result (SummaryRow.t F) :=
  let count := PatternStats.count stats in
  let idle_positions := PatternStats.idle_positions stats in
  total <- PyFloat.of_int (Py.sum idle_positions) ;;
  size <- PyFloat.of_int (Py.len idle_positions) ;;
  avg_position <- PyFloat.truediv total size ;;
  let total_samples_per_record := observation_window self in
  size <- PyFloat.of_int (Py.len idle_positions) ;;
  samples <- PyFloat.of_int (count * total_samples_per_record) ;;
  fraction <- PyFloat.truediv size samples ;;
  hundred <- PyFloat.of_int 100 ;;
  let idle_percentage := PyFloat.mul fraction hundred in
  taken <- PyFloat.of_int (PatternStats.branch_taken_count stats) ;;
  records <- PyFloat.of_int count ;;
  branch_taken_ratio <- PyFloat.truediv taken records ;;
  Py.Ok {| SummaryRow.Branch_IP := ip;
           SummaryRow.Count := count;
           SummaryRow.Avg_Idle_Position := avg_position;
           SummaryRow.Idle_Time_Percent := idle_percentage;
           SummaryRow.Branch_Taken_Ratio := branch_taken_ratio |}.

(** The second loop: the rows written before the loop ends, and the
    exception that ended it, if any. *)
Fixpoint write_rows (self : t) (entries : list (string * PatternStats.t))
  : list (SummaryRow.t F) * option Py.exn :=
  match entries with
  | [] => ([], None)
  | (ip, stats) :: rest =>
      match summary_row self ip stats with
      | Py.Raise e => ([], Some e)
      | Py.Ok row =>
          let '(rows, e) := write_rows self rest in (row :: rows, e)
      end
  end.

Definition generate_analysis_summary (self : t) (all_records : list BranchRecord.t)
  : list (SummaryRow.t F) * option Py.exn :=
  let pattern_stats := pattern_stats_of all_records in
  write_rows self (Py.items pattern_stats).

(** One line of [state_pattern_summary.csv]. *)
Definition summary_line (row : SummaryRow.t F) : string :=
  (SummaryRow.Branch_IP row ++ ","
     ++ Py.str_of_int (SummaryRow.Count row) ++ ","
     ++ PyFloat.format_2f (SummaryRow.Avg_Idle_Position row) ++ ","
     ++ PyFloat.format_2f (SummaryRow.Idle_Time_Percent row) ++ ","
     ++ PyFloat.format_2f (SummaryRow.Branch_Taken_Ratio row) ++ Py.LF)%string.

(** [hook_sim_end] on a file system that maps a path to its text: both
    files are opened with mode ['w'].  When the summary raises, the lines
    written so far stay in the file and the exception leaves the hook.
    The [print] calls are left out. *)
Definition hook_sim_end (self : t) (files : Py.dict string string)
  : Py.dict string string * option Py.exn :=
  let all_completed_records := all_completed_records self in
  let files :=
    Py.setitem files (state_patterns_file self)
      (String.concat EmptyString
         (state_patterns_header :: map record_line all_completed_records)) in
  let '(rows, e) := generate_analysis_summary self all_completed_records in
  let files :=
    Py.setitem files (analysis_summary_file self)
      (String.concat EmptyString
         (analysis_summary_header :: map summary_line rows)) in
  (files, e).

End Summary.

End CoreStateAtBranchEventAnalyzer.

(** ** Call sequences on one tracker

    The callbacks that reach one [CoreStateAnalyzer], in delivery order,
    each with what the simulator answers while it runs. *)

Module Calls.

Inductive call : Type :=
| Branch (now : Probe) (ip : Z) (predicted actual indirect : bool)
| Tick (now : Probe) (time time_delta : Z).

Definition deliver (sim : Sim) (self : CoreStateAnalyzer.t) (c : call)
  : Py.result CoreStateAnalyzer.t :=
  match c with
  | Branch now ip predicted actual indirect =>
      Py.Ok (CoreStateAnalyzer.record_branch_event now self ip predicted actual indirect)
  | Tick now time time_delta =>
      CoreStateAnalyzer.collect_state_sample sim now self time time_delta
  end.

Definition run (sim : Sim) (calls : list call) (self : CoreStateAnalyzer.t)
  : Py.result CoreStateAnalyzer.t :=
  Py.for_each (deliver sim) calls self.

Definition is_branch (c : call) : bool :=
  match c with
  | Branch _ _ _ _ _ => true
  | Tick _ _ _ => false
  end.

(** The [event_id] of the record that each branch event of the sequence
    creates, in delivery order. *)
Fixpoint event_ids (sim : Sim) (calls : list call) (self : CoreStateAnalyzer.t)
  : list Z :=
  match calls with
  | [] => []
  | c :: calls' =>
      let created :=
        match c with
        | Branch now ip _ actual _ =>
            [BranchRecord.event_id (CoreStateAnalyzer.new_record now self ip actual)]
        | Tick _ _ _ => []
        end in
      match deliver sim self c with
      | Py.Ok self' => created ++ event_ids sim calls' self'
      | Py.Raise _ => created
      end
  end.

End Calls.

(** ** What one tick does to one record

    The two expressions of the loop body of [collect_state_sample], named:
    the record with the sample of this tick appended, and the window test. *)

Definition sampled (time current_state : Z) (r : BranchRecord.t) : BranchRecord.t :=
  BranchRecord.states_append r (time - BranchRecord.start_time r, current_state).

Definition expired (sim : Sim) (self : CoreStateAnalyzer.t) (time : Z)
           (r : BranchRecord.t) : bool :=
  time - BranchRecord.start_time r
  >? CoreStateAnalyzer.observation_window self * Time_US sim.

Definition sampled_entry (time current_state : Z) (kr : Z * BranchRecord.t)
  : Z * BranchRecord.t :=
  (fst kr, sampled time current_state (snd kr)).

(** [count_from n k] is [n; n + 1; ...], [k] numbers. *)
Fixpoint count_from (n : Z) (k : nat) : list Z :=
  match k with
  | O => []
  | S k' => n :: count_from (n + 1) k'
  end.

(** ** The invariant of a tracker

    [record_ids] lists the [event_id] of every record the tracker holds.
    A tracker that was built by [__init__] and then only received
    callbacks keeps the following: the ids held are exactly
    [1 .. next_event_id - 1], each once; an active record sits under its
    own id and none of its samples is past the window; a completed record
    ends with the one sample that is past the window. *)

Definition record_ids (self : CoreStateAnalyzer.t) : list Z :=
  map BranchRecord.event_id (CoreStateAnalyzer.completed_records self)
    ++ Py.keys (CoreStateAnalyzer.active_records self).

Definition within_window (sim : Sim) (self : CoreStateAnalyzer.t)
           (sample : Z * Z) : Prop :=
  fst sample <= CoreStateAnalyzer.observation_window self * Time_US sim.

Record well_formed (sim : Sim) (self : CoreStateAnalyzer.t) : Prop := {
  wf_next : 1 <= CoreStateAnalyzer.next_event_id self;
  wf_nodup : NoDup (record_ids self);
  wf_ids : forall id : Z,
      In id (record_ids self) <-> 1 <= id < CoreStateAnalyzer.next_event_id self;
  wf_key : forall (k : Z) (r : BranchRecord.t),
      In (k, r) (CoreStateAnalyzer.active_records self) ->
      BranchRecord.event_id r = k;
  wf_open : forall (k : Z) (r : BranchRecord.t),
      In (k, r) (CoreStateAnalyzer.active_records self) ->
      Forall (within_window sim self) (BranchRecord.states r);
  wf_closed : forall r : BranchRecord.t,
      In r (CoreStateAnalyzer.completed_records self) ->
      exists samples elapsed state,
        BranchRecord.states r = samples ++ [(elapsed, state)]
        /\ CoreStateAnalyzer.observation_window self * Time_US sim < elapsed
        /\ Forall (within_window sim self) samples
}.

(** ** The summary, in the words of its description

    What [pattern_stats] is meant to hold for one [ip], written without
    the dict: the records with that [ip] that have at least one IDLE
    sample, the positions of their IDLE samples, and how many of them were
    taken branches. *)

Definition has_idle (record : BranchRecord.t) : bool :=
  existsb (fun sample => snd sample =? IDLE) (BranchRecord.states record).

Definition idle_records (ip : Z) (all_records : list BranchRecord.t)
  : list BranchRecord.t :=
  filter (fun record => (BranchRecord.ip record =? ip) && has_idle record)
         all_records.

(** The 0-based indices of the samples of a record whose state is IDLE. *)
Definition idle_indices (record : BranchRecord.t) : list Z :=
  map Z.of_nat
    (filter
       (fun i =>
          match nth_error (BranchRecord.states record) i with
          | Some sample => snd sample =? IDLE
          | None => false
          end)
       (seq 0 (List.length (BranchRecord.states record)))).

Definition expected_stats (records : list BranchRecord.t) : PatternStats.t :=
  {| PatternStats.count := Py.len records;
     PatternStats.idle_positions := flat_map idle_indices records;
     PatternStats.branch_taken_count :=
       Py.len (filter BranchRecord.branch_taken records) |}.

Definition expected_entry (ip : Z) (all_records : list BranchRecord.t)
  : option PatternStats.t :=
  match idle_records ip all_records with
  | [] => None
  | first :: rest => Some (expected_stats (first :: rest))
  end.

(** What the first loop of [generate_analysis_summary] has built after
    the records [seen]: one entry per [ip] that has a record with an IDLE
    sample, holding what the description says. *)
Definition stats_agree (seen : list BranchRecord.t)
           (pattern_stats : Py.dict string PatternStats.t) : Prop :=
  NoDup (Py.keys pattern_stats)
  /\ (forall key, In key (Py.keys pattern_stats) -> exists ip, key = Py.hex ip)
  /\ forall ip, Py.get pattern_stats (Py.hex ip) = expected_entry ip seen.

(** ** The rows of the summary, entry by entry

    [converts] tells whether the five integers that the second loop of
    [generate_analysis_summary] turns into floats for one entry all have a
    double.  [binary64_row] is the row of such an entry: every integer is
    rounded to the nearest double and so is the result of every division
    and of the multiplication by 100.  [convertible_prefix] is the part of
    the entries up to the first that does not convert. *)

Definition converts (self : CoreStateAtBranchEventAnalyzer.t)
           (stats : PatternStats.t) : bool :=
  let positions := PatternStats.idle_positions stats in
  negb (PyFloat.too_large (Py.sum positions))
  && negb (PyFloat.too_large (Py.len positions))
  && negb (PyFloat.too_large
             (PatternStats.count stats
              * CoreStateAtBranchEventAnalyzer.observation_window self))
  && negb (PyFloat.too_large (PatternStats.branch_taken_count stats))
  && negb (PyFloat.too_large (PatternStats.count stats)).

Definition binary64_row (self : CoreStateAtBranchEventAnalyzer.t)
           (entry : string * PatternStats.t) : SummaryRow.t float :=
  let stats := snd entry in
  let positions := PatternStats.idle_positions stats in
  {| SummaryRow.Branch_IP := fst entry;
     SummaryRow.Count := PatternStats.count stats;
     SummaryRow.Avg_Idle_Position :=
       (PyFloat.nearest (Py.sum positions) / PyFloat.nearest (Py.len positions))%float;
     SummaryRow.Idle_Time_Percent :=
       (PyFloat.nearest (Py.len positions)
        / PyFloat.nearest
            (PatternStats.count stats
             * CoreStateAtBranchEventAnalyzer.observation_window self)
        * PyFloat.nearest 100)%float;
     SummaryRow.Branch_Taken_Ratio :=
       (PyFloat.nearest (PatternStats.branch_taken_count stats)
        / PyFloat.nearest (PatternStats.count stats))%float |}.

Fixpoint convertible_prefix (self : CoreStateAtBranchEventAnalyzer.t)
         (entries : list (string * PatternStats.t))
  : list (string * PatternStats.t) :=
  match entries with
  | [] => []
  | entry :: rest =>
      if converts self (snd entry) then entry :: convertible_prefix self rest
      else []
  end.

(** ** A small run, used to exercise the statements below *)

Definition example_sim : Sim :=
  {| Time_US := 1000000000; ncores := 1; output_dir := "out" |}.

Definition example_probe (time state : Z) : Probe :=
  {| stats_time := time;
     stats_instruction_count := fun _ => 1000;
     dvfs_get_core_state := fun _ => state |}.

(** Core 0 with a window of 100 us after two branch events, at time 0 and
    at 50 us. *)
Definition example_tracker : CoreStateAnalyzer.t :=
  CoreStateAnalyzer.record_branch_event (example_probe 50000000000 RUNNING)
    (CoreStateAnalyzer.record_branch_event (example_probe 0 RUNNING)
       (CoreStateAnalyzer.__init__ 0 "out" 100 1)
       4198400 true true false)
    4198416 false false false.

(** An aggregator for one core with the default window, and three
    records as [hook_sim_end] could collect them: two at the same branch
    with IDLE samples, one at another branch that never saw IDLE. *)
Definition example_analyzer : CoreStateAtBranchEventAnalyzer.t :=
  {| CoreStateAtBranchEventAnalyzer.results_folder := "out";
     CoreStateAtBranchEventAnalyzer.state_patterns_file := "out/core_state_patterns.csv";
     CoreStateAtBranchEventAnalyzer.analysis_summary_file := "out/state_pattern_summary.csv";
     CoreStateAtBranchEventAnalyzer.observation_window := 100;
     CoreStateAtBranchEventAnalyzer.sampling_period := 1;
     CoreStateAtBranchEventAnalyzer.total_branches := 3;
     CoreStateAtBranchEventAnalyzer.core_analyzers :=
       [(0, CoreStateAnalyzer.__init__ 0 "out" 100 1)];
     CoreStateAtBranchEventAnalyzer.periodic_hook := 1000000000 |}.

Definition example_record (event_id ip : Z) (taken : bool) (states : list Z)
  : BranchRecord.t :=
  {| BranchRecord.event_id := event_id;
     BranchRecord.core_id := 0;
     BranchRecord.ip := ip;
     BranchRecord.branch_taken := taken;
     BranchRecord.start_time := 0;
     BranchRecord.instruction_count := 1000;
     BranchRecord.states :=
       Py.enumerate_from 1 states |}.

Definition example_records : list BranchRecord.t :=
  [ example_record 1 4198400 true [RUNNING; IDLE; IDLE];
    example_record 2 4198416 false [RUNNING; STALLED];
    example_record 3 4198400 false [IDLE; RUNNING] ].

(** A run with [observation_window] 0, as the argument string ["0"]
    configures it: one taken branch on core 0 at time 0 and one tick a
    microsecond later that finds the core IDLE. *)
Definition zero_window_run : Py.result CoreStateAtBranchEventAnalyzer.t :=
  self <- CoreStateAtBranchEventAnalyzer.setup example_sim (Some "0"%string) ;;
  CoreStateAtBranchEventAnalyzer.hook_periodic
    example_sim (example_probe 1000000000 IDLE)
    (CoreStateAtBranchEventAnalyzer.hook_branch_predictor
       (example_probe 0 RUNNING) self 0 4198400 true true false)
    1000000000 1000000000.

(** The same run with [observation_window] [2^1024], given to [setup] in
    decimal: the window stays open and the record is still active at the
    end. *)
Definition large_window_run : Py.result CoreStateAtBranchEventAnalyzer.t :=
  self <- CoreStateAtBranchEventAnalyzer.setup
            example_sim (Some (Py.str_of_int (2 ^ 1024))) ;;
  CoreStateAtBranchEventAnalyzer.hook_periodic
    example_sim (example_probe 1000000000 IDLE)
    (CoreStateAtBranchEventAnalyzer.hook_branch_predictor
       (example_probe 0 RUNNING) self 0 4198400 true true false)
    1000000000 1000000000.

(** A field of the argument string: not empty and without a colon. *)
Definition plain_field (text : string) : bool :=
  negb (String.eqb text EmptyString)
  && forallb (fun c => negb (Ascii.eqb c ":")) (list_ascii_of_string text).

(** ** The scenario of one branch and 150 idle ticks

    One core, window 100 us, period 1 us; [US] is the number of simulator
    time units in a microsecond.  A branch event at time 0 on core 0, then
    150 ticks, the k-th at time [k * US] with [time_delta = US], the core
    being IDLE at every tick. *)

Definition scenario_sim (US : Z) : Sim :=
  {| Time_US := US; ncores := 1; output_dir := "out" |}.

Fixpoint idle_ticks (sim : Sim) (n : nat) (k : Z)
         (self : CoreStateAtBranchEventAnalyzer.t)
  : Py.result CoreStateAtBranchEventAnalyzer.t :=
  match n with
  | O => Py.Ok self
  | S n' =>
      self <- CoreStateAtBranchEventAnalyzer.hook_periodic
                sim (example_probe (k * Time_US sim) IDLE) self
                (k * Time_US sim) (Time_US sim) ;;
      idle_ticks sim n' (k + 1) self
  end.

Definition idle_scenario (US ip : Z) (predicted taken indirect : bool)
  : Py.result CoreStateAtBranchEventAnalyzer.t :=
  self <- CoreStateAtBranchEventAnalyzer.setup
            (scenario_sim US) (Some "100:1"%string) ;;
  idle_ticks (scenario_sim US) 150 1
    (CoreStateAtBranchEventAnalyzer.hook_branch_predictor
       (example_probe 0 IDLE) self 0 ip predicted taken indirect).

(** The record of the scenario after [j] samples. *)
Definition scenario_record (US ip : Z) (taken : bool) (j : nat) : BranchRecord.t :=
  {| BranchRecord.event_id := 1;
     BranchRecord.core_id := 0;
     BranchRecord.ip := ip;
     BranchRecord.branch_taken := taken;
     BranchRecord.start_time := 0;
     BranchRecord.instruction_count := 1000;
     BranchRecord.states := map (fun k => (Z.of_nat k * US, IDLE)) (seq 1 j) |}.

Definition scenario_tracker (active : Py.dict Z BranchRecord.t)
           (completed : list BranchRecord.t) : CoreStateAnalyzer.t :=
  {| CoreStateAnalyzer.core_id := 0;
     CoreStateAnalyzer.results_folder := "out";
     CoreStateAnalyzer.observation_window := 100;
     CoreStateAnalyzer.sampling_period := 1;
     CoreStateAnalyzer.active_records := active;
     CoreStateAnalyzer.completed_records := completed;
     CoreStateAnalyzer.next_event_id := 2 |}.

Definition scenario_state (US : Z) (tracker : CoreStateAnalyzer.t)
  : CoreStateAtBranchEventAnalyzer.t :=
  {| CoreStateAtBranchEventAnalyzer.results_folder := "out";
     CoreStateAtBranchEventAnalyzer.state_patterns_file := "out/core_state_patterns.csv";
     CoreStateAtBranchEventAnalyzer.analysis_summary_file := "out/state_pattern_summary.csv";
     CoreStateAtBranchEventAnalyzer.observation_window := 100;
     CoreStateAtBranchEventAnalyzer.sampling_period := 1;
     CoreStateAtBranchEventAnalyzer.total_branches := 1;
     CoreStateAtBranchEventAnalyzer.core_analyzers := [(0, tracker)];
     CoreStateAtBranchEventAnalyzer.periodic_hook := 1 * US |}.

(** ** The life of one record, read off the call sequence

    [with_samples r samples] is [r] after [samples] have been appended.
    [samples_after] lists the samples that the ticks of [calls] give to a
    record of core [core] that started at [start], as the loop body of
    [collect_state_sample] decides them one tick at a time: a tick with
    [time_delta == 0] gives nothing, any other tick gives one sample, and
    the sample that is past the window is the last one. *)

Definition with_samples (r : BranchRecord.t) (samples : list (Z * Z))
  : BranchRecord.t :=
  {| BranchRecord.event_id := BranchRecord.event_id r;
     BranchRecord.core_id := BranchRecord.core_id r;
     BranchRecord.ip := BranchRecord.ip r;
     BranchRecord.branch_taken := BranchRecord.branch_taken r;
     BranchRecord.start_time := BranchRecord.start_time r;
     BranchRecord.instruction_count := BranchRecord.instruction_count r;
     BranchRecord.states := BranchRecord.states r ++ samples |}.

Fixpoint samples_after (sim : Sim) (core window start : Z)
         (calls : list Calls.call) : list (Z * Z) :=
  match calls with
  | [] => []
  | Calls.Branch _ _ _ _ _ :: calls' => samples_after sim core window start calls'
  | Calls.Tick now time time_delta :: calls' =>
      if time_delta =? 0 then samples_after sim core window start calls'
      else
        let elapsed_time := time - start in
        (elapsed_time, dvfs_get_core_state now core)
          :: (if elapsed_time >? window * Time_US sim then []
              else samples_after sim core window start calls')
  end.

(** Whether one of the samples is past the window. *)
Definition past_window (sim : Sim) (window : Z) (samples : list (Z * Z)) : bool :=
  existsb (fun sample => fst sample >? window * Time_US sim) samples.

(** The ticks of [calls] that take samples come at times that do not
    decrease, none before [earliest]. *)
Fixpoint ticks_in_order (earliest : Z) (calls : list Calls.call) : bool :=
  match calls with
  | [] => true
  | Calls.Branch _ _ _ _ _ :: calls' => ticks_in_order earliest calls'
  | Calls.Tick _ time time_delta :: calls' =>
      if time_delta =? 0 then ticks_in_order earliest calls'
      else (earliest <=? time) && ticks_in_order time calls'
  end.

(** The elapsed times of the samples of a record do not decrease. *)
Definition time_ordered (r : BranchRecord.t) : Prop :=
  Sorted Z.le (map fst (BranchRecord.states r)).

(** Every record a tracker holds, completed ones first. *)
Definition records_of (self : CoreStateAnalyzer.t) : list BranchRecord.t :=
  CoreStateAnalyzer.completed_records self
    ++ Py.values (CoreStateAnalyzer.active_records self).

(** Calls on one tracker, in time order: a branch, a tick, a second
    branch, a tick without [time_delta], and a tick past the first
    window. *)
Definition example_calls : list Calls.call :=
  [ Calls.Branch (example_probe 0 RUNNING) 4198400 true true false;
    Calls.Tick (example_probe 1000000000 IDLE) 1000000000 1000000000;
    Calls.Branch (example_probe 50000000000 RUNNING) 4198416 false false false;
    Calls.Tick (example_probe 60000000000 STALLED) 60000000000 0;
    Calls.Tick (example_probe 100000000001 IDLE) 100000000001 1000000000 ].

(** ** Hook sequences on the aggregator

    The callbacks that reach a [CoreStateAtBranchEventAnalyzer] between
    [setup] and [hook_sim_end], in delivery order. *)

Module Hooks.

Inductive hook : Type :=
| Branch (now : Probe) (core_id ip : Z) (predicted actual indirect : bool)
| Periodic (now : Probe) (time time_delta : Z).

Definition deliver (sim : Sim) (self : CoreStateAtBranchEventAnalyzer.t) (h : hook)
  : Py.result CoreStateAtBranchEventAnalyzer.t :=
  match h with
  | Branch now core_id ip predicted actual indirect =>
      Py.Ok (CoreStateAtBranchEventAnalyzer.hook_branch_predictor
               now self core_id ip predicted actual indirect)
  | Periodic now time time_delta =>
      CoreStateAtBranchEventAnalyzer.hook_periodic sim now self time time_delta
  end.

Definition run (sim : Sim) (hooks : list hook)
           (self : CoreStateAtBranchEventAnalyzer.t)
  : Py.result CoreStateAtBranchEventAnalyzer.t :=
  Py.for_each (deliver sim) hooks self.

Definition is_branch (h : hook) : bool :=
  match h with
  | Branch _ _ _ _ _ _ => true
  | Periodic _ _ _ => false
  end.

(** A branch event on core [core]. *)
Definition on_core (core : Z) (h : hook) : bool :=
  match h with
  | Branch _ core_id _ _ _ _ => core_id =? core
  | Periodic _ _ _ => false
  end.

(** A branch event on one of the cores [0 .. cores - 1]. *)
Definition on_known_core (cores : Z) (h : hook) : bool :=
  match h with
  | Branch _ core_id _ _ _ _ => (0 <=? core_id) && (core_id <? cores)
  | Periodic _ _ _ => false
  end.

End Hooks.

(** What the aggregator keeps for the tracker it holds under key [core]:
    the tracker is well formed, knows its core, and every record it holds
    carries that core. *)
Record tracker_ok (sim : Sim) (core : Z) (self : CoreStateAnalyzer.t) : Prop := {
  ok_wf : well_formed sim self;
  ok_core : CoreStateAnalyzer.core_id self = core;
  ok_owned : forall r, In r (records_of self) -> BranchRecord.core_id r = core
}.

Definition aggregator_ok (sim : Sim) (self : CoreStateAtBranchEventAnalyzer.t)
  : Prop :=
  NoDup (Py.keys (CoreStateAtBranchEventAnalyzer.core_analyzers self))
  /\ forall core tracker,
      In (core, tracker) (CoreStateAtBranchEventAnalyzer.core_analyzers self) ->
      tracker_ok sim core tracker.

(** Two hooks on a two-core run, the second on a core that does not
    exist. *)
Definition example_hooks : list Hooks.hook :=
  [ Hooks.Branch (example_probe 0 RUNNING) 1 4198400 true true false;
    Hooks.Branch (example_probe 10 RUNNING) 7 4198416 true false false;
    Hooks.Periodic (example_probe 1000000000 IDLE) 1000000000 1000000000;
    Hooks.Branch (example_probe 2000000000 RUNNING) 1 4198400 false false false ].

Definition two_core_sim : Sim :=
  {| Time_US := 1000000000; ncores := 2; output_dir := "out" |}.

(** A tracker with a window of 0 that has taken one branch event. *)
Definition zero_window_tracker : CoreStateAnalyzer.t :=
  CoreStateAnalyzer.record_branch_event (example_probe 0 RUNNING)
    (CoreStateAnalyzer.__init__ 0 "out" 0 1) 4198400 true true false.

(** What [setup] fixes for the whole run. *)
Definition configuration (self : CoreStateAtBranchEventAnalyzer.t)
  : string * string * string * Z * Z * Z :=
  (CoreStateAtBranchEventAnalyzer.results_folder self,
   CoreStateAtBranchEventAnalyzer.state_patterns_file self,
   CoreStateAtBranchEventAnalyzer.analysis_summary_file self,
   CoreStateAtBranchEventAnalyzer.observation_window self,
   CoreStateAtBranchEventAnalyzer.sampling_period self,
   CoreStateAtBranchEventAnalyzer.periodic_hook self).

(** Records of a run in which the cores were never IDLE. *)
Definition busy_records : list BranchRecord.t :=
  [ example_record 1 4198400 true [RUNNING; STALLED];
    example_record 2 4198416 false [RUNNING] ].

(** A text without a colon: one field of the argument string, possibly
    empty. *)
Definition no_colon (text : string) : bool :=
  forallb (fun c => negb (Ascii.eqb c ":")) (list_ascii_of_string text).

(** ** Integer literals

    What [int] accepts, as the language reference describes it: white
    space, an optional sign, groups of decimal digits with single
    underscores between them, white space; at most 4300 digits in all.
    [int_literal text n] says that [text] is such a literal and that [n]
    is the number it denotes.  The description is written on its own,
    not with the functions of [Py.int_of_str]. *)

(** Tab, line feed, vertical tab, form feed, carriage return, space,
    next line and no-break space. *)
Definition white_space : list ascii :=
  map ascii_of_nat [9; 10; 11; 12; 13; 32; 133; 160]%nat.

Definition decimal_digits : list ascii := list_ascii_of_string "0123456789".

Definition all_space (text : string) : bool :=
  forallb (fun c => existsb (Ascii.eqb c) white_space) (list_ascii_of_string text).

Definition is_digit (c : ascii) : bool := existsb (Ascii.eqb c) decimal_digits.

(** A group of digits: at least one character, digits only. *)
Definition digit_run (text : string) : bool :=
  negb (String.eqb text EmptyString)
  && forallb is_digit (list_ascii_of_string text).

(** The number that a string of digits denotes, read after [acc]. *)
Definition decimal_from (acc : Z) (digits : string) : Z :=
  fold_left (fun value c => 10 * value + (Z.of_nat (nat_of_ascii c) - 48))
            (list_ascii_of_string digits) acc.

Definition decimal_value (digits : string) : Z := decimal_from 0 digits.

Definition int_literal (text : string) (n : Z) : Prop :=
  exists (lead sign : string) (groups : list string) (trail : string),
    text = (lead ++ sign ++ String.concat "_" groups ++ trail)%string
    /\ all_space lead = true
    /\ all_space trail = true
    /\ (sign = EmptyString \/ sign = "+"%string \/ sign = "-"%string)
    /\ groups <> []
    /\ Forall (fun group => digit_run group = true) groups
    /\ Z.of_nat (String.length (String.concat EmptyString groups)) <= 4300
    /\ n = if String.eqb sign "-"
           then - decimal_value (String.concat EmptyString groups)
           else decimal_value (String.concat EmptyString groups).

(** The value of a field of the argument string: the default when the
    field is empty, the number it denotes when it is a literal. *)
Definition field_value (text : string) (default n : Z) : Prop :=
  (text = EmptyString /\ n = default) \/ int_literal text n.

(** The distinct elements of a list, in the order of their first
    occurrence. *)
Definition first_seen (l : list string) : list string :=
  fold_left
    (fun seen x => if existsb (String.eqb x) seen then seen else seen ++ [x])
    l [].

(** The number of IDLE samples of a record. *)
Definition idle_samples (record : BranchRecord.t) : Z :=
  Py.len (filter (fun sample => snd sample =? IDLE) (BranchRecord.states record)).

(** The aggregator that [setup] returns for [two_core_sim] without
    arguments. *)
Definition two_core_start : CoreStateAtBranchEventAnalyzer.t :=
  CoreStateAtBranchEventAnalyzer.with_analyzers example_analyzer 0
    [(0, CoreStateAnalyzer.__init__ 0 "out" 100 1);
     (1, CoreStateAnalyzer.__init__ 1 "out" 100 1)].

(** * Properties *)

(** ** The built-ins on small inputs *)

Example split_fields :
  Py.split ":" "100:10" = ["100"; "10"]%string
  /\ Py.split ":" "" = [""]%string
  /\ Py.split ":" ":5:" = [""; "5"; ""]%string.
Proof. repeat split; reflexivity. Qed.

Example int_literals :
  map Py.int_of_str [" -12 "; "+7"; "1_000"; "007"; "0"]%string
  = [Py.Ok (-12); Py.Ok 7; Py.Ok 1000; Py.Ok 7; Py.Ok 0]
  /\ map Py.int_of_str ["1__0"; "_1"; "1_"; ""; "-"; "12a"; "1 2"; "- 1"]%string
     = repeat (Py.Raise Py.ValueError) 8.
Proof. split; reflexivity. Qed.

(** The separators U+001C to U+001F are not white space for [int]; next
    line and no-break space are. *)
Example int_white_space :
  map (fun code => Py.int_of_str (String (ascii_of_nat code) "5"))
      [9; 13; 28; 31; 32; 133; 160]%nat
  = [Py.Ok 5; Py.Ok 5; Py.Raise Py.ValueError; Py.Raise Py.ValueError;
     Py.Ok 5; Py.Ok 5; Py.Ok 5].
Proof. reflexivity. Qed.

Example hex_and_str :
  map Py.hex [0; -255; 4198400] = ["0x0"; "-0xff"; "0x401000"]%string
  /\ map Py.str_of_int [0; -5; 1234] = ["0"; "-5"; "1234"]%string.
Proof. split; reflexivity. Qed.

(** ["%.2f"] rounds the double it is given, not the decimal one wrote:
    1.005 is printed as 1.00 and 0.025 as 0.03. *)
Example format_2f_binary64 :
  map (fun ab : Z * Z =>
         x <- PyFloat.of_int (fst ab) ;;
         y <- PyFloat.of_int (snd ab) ;;
         q <- PyFloat.truediv x y ;;
         Py.Ok (PyFloat.format_2f (F := float) q))
      [(5050, 101); (1, 3); (2, 3); (1005, 1000); (25, 1000); (-7, 2); (1, 0)]
  = [Py.Ok "50.00"; Py.Ok "0.33"; Py.Ok "0.67"; Py.Ok "1.00"; Py.Ok "0.03";
     Py.Ok "-3.50"; Py.Raise Py.ZeroDivisionError]%string.
Proof. vm_compute. reflexivity. Qed.

(** The summary of [example_records]. *)
Example example_summary_lines :
  map CoreStateAtBranchEventAnalyzer.summary_line
      (fst (CoreStateAtBranchEventAnalyzer.generate_analysis_summary
              (F := float) example_analyzer example_records))
  = ["0x401000,2,1.00,1.50,0.50" ++ Py.LF]%string.
Proof. vm_compute. reflexivity. Qed.

(** ** dict *)

Section DictFacts.

Context {K V : Type} `{Py.EqKey K}.

Lemma key_eqb_refl (k : K) : Py.key_eqb k k = true.
Proof. now apply Py.key_eqb_eq. Qed.

Lemma key_eqb_neq (k k' : K) : k <> k' -> Py.key_eqb k k' = false.
Proof.
  intros Hne. destruct (Py.key_eqb k k') eqn:E; [|reflexivity].
  apply Py.key_eqb_eq in E. contradiction.
Qed.

Lemma get_not_in (d : Py.dict K V) (k : K) :
  ~ In k (Py.keys d) -> Py.get d k = None.
Proof.
  induction d as [|[k' v] d IH]; simpl; intros Hn; [reflexivity|].
  rewrite key_eqb_neq by tauto. apply IH. tauto.
Qed.

Lemma get_in (d : Py.dict K V) (k : K) :
  In k (Py.keys d) -> exists v, Py.get d k = Some v /\ In (k, v) d.
Proof.
  induction d as [|[k' v] d IH]; simpl; intros Hin; [contradiction|].
  destruct (Py.key_eqb k' k) eqn:E.
  - apply Py.key_eqb_eq in E. subst. eauto.
  - destruct Hin as [->|Hin]; [rewrite key_eqb_refl in E; discriminate|].
    destruct (IH Hin) as (v' & Hg & Hi). eauto.
Qed.

Lemma get_some_in (d : Py.dict K V) (k : K) (v : V) :
  Py.get d k = Some v -> In (k, v) d.
Proof.
  induction d as [|[k' v'] d IH]; simpl; [discriminate|].
  destruct (Py.key_eqb k' k) eqn:E; intros Hg.
  - apply Py.key_eqb_eq in E. inversion Hg. subst. now left.
  - right. now apply IH.
Qed.

Lemma get_app_fresh (pre d : Py.dict K V) (k : K) :
  ~ In k (Py.keys pre) -> Py.get (pre ++ d) k = Py.get d k.
Proof.
  induction pre as [|[k' v] pre IH]; simpl; intros Hn; [reflexivity|].
  rewrite key_eqb_neq by tauto. apply IH. tauto.
Qed.

Lemma setitem_app_fresh (pre d : Py.dict K V) (k : K) (v : V) :
  ~ In k (Py.keys pre) -> Py.setitem (pre ++ d) k v = pre ++ Py.setitem d k v.
Proof.
  induction pre as [|[k' v'] pre IH]; simpl; intros Hn; [reflexivity|].
  rewrite key_eqb_neq by tauto. f_equal. apply IH. tauto.
Qed.

Lemma remove_app_fresh (pre d : Py.dict K V) (k : K) :
  ~ In k (Py.keys pre) -> Py.remove (pre ++ d) k = pre ++ Py.remove d k.
Proof.
  induction pre as [|[k' v'] pre IH]; simpl; intros Hn; [reflexivity|].
  rewrite key_eqb_neq by tauto. f_equal. apply IH. tauto.
Qed.

Lemma setitem_fresh (d : Py.dict K V) (k : K) (v : V) :
  ~ In k (Py.keys d) -> Py.setitem d k v = d ++ [(k, v)].
Proof.
  intros Hn. rewrite <- (app_nil_r d) at 1.
  now rewrite setitem_app_fresh.
Qed.

Lemma get_setitem_same (d : Py.dict K V) (k : K) (v : V) :
  Py.get (Py.setitem d k v) k = Some v.
Proof.
  induction d as [|[k' v'] d IH]; simpl.
  - now rewrite key_eqb_refl.
  - destruct (Py.key_eqb k' k) eqn:E; simpl; rewrite E; [reflexivity|exact IH].
Qed.

Lemma get_setitem_other (d : Py.dict K V) (k k' : K) (v : V) :
  k <> k' -> Py.get (Py.setitem d k v) k' = Py.get d k'.
Proof.
  intros Hne. induction d as [|[k0 v0] d IH]; simpl.
  - now rewrite key_eqb_neq.
  - destruct (Py.key_eqb k0 k) eqn:E; simpl.
    + apply Py.key_eqb_eq in E. subst k0. now rewrite key_eqb_neq.
    + now rewrite IH.
Qed.

Lemma setitem_same_value (d : Py.dict K V) (k : K) (v : V) :
  Py.get d k = Some v -> Py.setitem d k v = d.
Proof.
  induction d as [|[k' v'] d IH]; simpl; [discriminate|].
  destruct (Py.key_eqb k' k) eqn:E; intros Hg.
  - now inversion Hg.
  - f_equal. now apply IH.
Qed.

Lemma setitem_twice (d : Py.dict K V) (k : K) (v v' : V) :
  Py.setitem (Py.setitem d k v) k v' = Py.setitem d k v'.
Proof.
  induction d as [|[k0 v0] d IH]; simpl.
  - now rewrite key_eqb_refl.
  - destruct (Py.key_eqb k0 k) eqn:E; simpl; rewrite E; [reflexivity|].
    now rewrite IH.
Qed.

Lemma keys_setitem (d : Py.dict K V) (k : K) (v : V) :
  Py.keys (Py.setitem d k v)
  = if Py.contains d k then Py.keys d else Py.keys d ++ [k].
Proof.
  unfold Py.contains. induction d as [|[k0 v0] d IH]; simpl; [reflexivity|].
  destruct (Py.key_eqb k0 k) eqn:E; simpl; [reflexivity|].
  rewrite IH. now destruct (Py.get d k).
Qed.

End DictFacts.

(** ** One tick on one tracker *)

Section TickFacts.

Variable sim : Sim.
Variables time current_state : Z.

Lemma with_records_id (self : CoreStateAnalyzer.t) :
  CoreStateAnalyzer.with_records self
    (CoreStateAnalyzer.active_records self)
    (CoreStateAnalyzer.completed_records self) = self.
Proof. now destruct self. Qed.

Lemma sample_record_at (self : CoreStateAnalyzer.t)
      (pre todo : Py.dict Z BranchRecord.t) (comp : list BranchRecord.t)
      (k : Z) (r : BranchRecord.t) :
  ~ In k (Py.keys pre) ->
  CoreStateAnalyzer.sample_record sim time current_state
    (CoreStateAnalyzer.with_records self (pre ++ (k, r) :: todo) comp) k
  = Py.Ok
      (if expired sim self time r
       then CoreStateAnalyzer.with_records self (pre ++ todo)
              (comp ++ [sampled time current_state r])
       else CoreStateAnalyzer.with_records self
              (pre ++ (k, sampled time current_state r) :: todo) comp).
Proof.
  intros Hfresh. unfold CoreStateAnalyzer.sample_record, Py.getitem. simpl.
  rewrite get_app_fresh by assumption. simpl. rewrite Z.eqb_refl. simpl.
  rewrite setitem_app_fresh by assumption. simpl. rewrite Z.eqb_refl.
  unfold expired, sampled. simpl.
  destruct (time - BranchRecord.start_time r
            >? CoreStateAnalyzer.observation_window self * Time_US sim);
    [|reflexivity].
  unfold Py.delitem, Py.contains.
  rewrite get_app_fresh by assumption. simpl. rewrite Z.eqb_refl. simpl.
  rewrite remove_app_fresh by assumption. simpl. rewrite Z.eqb_refl.
  reflexivity.
Qed.

Lemma sample_loop (self : CoreStateAnalyzer.t) (todo : Py.dict Z BranchRecord.t) :
  forall (pre : Py.dict Z BranchRecord.t) (comp : list BranchRecord.t),
    NoDup (Py.keys (pre ++ todo)) ->
    Py.for_each (CoreStateAnalyzer.sample_record sim time current_state)
      (Py.keys todo)
      (CoreStateAnalyzer.with_records self (pre ++ todo) comp)
    = Py.Ok
        (CoreStateAnalyzer.with_records self
           (pre ++ map (sampled_entry time current_state)
                     (filter (fun kr => negb (expired sim self time (snd kr))) todo))
           (comp ++ map (sampled time current_state)
                      (filter (expired sim self time) (Py.values todo)))).
Proof.
  induction todo as [|[k r] todo IH]; intros pre comp Hnd; simpl.
  - now rewrite !app_nil_r.
  - assert (Hfresh : ~ In k (Py.keys pre)).
    { unfold Py.keys in *. rewrite map_app in Hnd. simpl in Hnd.
      apply NoDup_remove_2 in Hnd. rewrite in_app_iff in Hnd. tauto. }
    rewrite sample_record_at by assumption. simpl.
    destruct (expired sim self time r) eqn:E; simpl.
    + rewrite IH.
      * now rewrite <- app_assoc.
      * unfold Py.keys in *. rewrite map_app in *. simpl in Hnd.
        now apply NoDup_remove_1 in Hnd.
    + change (pre ++ (k, sampled time current_state r) :: todo)
        with (pre ++ [(k, sampled time current_state r)] ++ todo).
      rewrite app_assoc, IH.
      * now rewrite <- app_assoc.
      * unfold Py.keys in *. rewrite !map_app in *. simpl in *.
        now rewrite <- app_assoc.
Qed.

End TickFacts.

Lemma nodup_keys_unique {K V : Type} (d : Py.dict K V) (k : K) (v v' : V) :
  NoDup (Py.keys d) -> In (k, v) d -> In (k, v') d -> v = v'.
Proof.
  induction d as [|[k0 v0] d IH]; simpl; intros Hnd Hv Hv'; [contradiction|].
  inversion Hnd as [|? ? Hnotin Hnd']; subst.
  destruct Hv as [Hv|Hv], Hv' as [Hv'|Hv'].
  - congruence.
  - inversion Hv; subst. exfalso. apply Hnotin.
    unfold Py.keys. change k with (fst (k, v')). now apply in_map.
  - inversion Hv'; subst. exfalso. apply Hnotin.
    unfold Py.keys. change k with (fst (k, v)). now apply in_map.
  - now apply IH.
Qed.

(** The state after a tick with a non-zero [time_delta], in closed form:
    every active record is sampled once; those whose window has elapsed
    leave the dict, in dict order, for the end of [completed_records]. *)
Lemma tick_closed_form (sim : Sim) (now : Probe) (self : CoreStateAnalyzer.t)
      (time time_delta : Z) :
  NoDup (Py.keys (CoreStateAnalyzer.active_records self)) ->
  time_delta <> 0 ->
  let current_state := dvfs_get_core_state now (CoreStateAnalyzer.core_id self) in
  CoreStateAnalyzer.collect_state_sample sim now self time time_delta
  = Py.Ok
      (CoreStateAnalyzer.with_records self
         (map (sampled_entry time current_state)
              (filter (fun kr => negb (expired sim self time (snd kr)))
                      (CoreStateAnalyzer.active_records self)))
         (CoreStateAnalyzer.completed_records self
            ++ map (sampled time current_state)
                 (filter (expired sim self time)
                         (Py.values (CoreStateAnalyzer.active_records self))))).
Proof.
  intros Hnd Hdelta current_state. unfold CoreStateAnalyzer.collect_state_sample.
  apply Z.eqb_neq in Hdelta. rewrite Hdelta.
  pose proof (sample_loop sim time current_state self
                (CoreStateAnalyzer.active_records self) []
                (CoreStateAnalyzer.completed_records self) Hnd) as Hloop.
  simpl in Hloop. now rewrite with_records_id in Hloop.
Qed.

(** C6. A tick with [time_delta == 0] is a no-op and not an error: the
    tracker returns normally in the very state it was in, so no active
    record gains or loses a sample and none is moved to the completed
    records; the same holds for the aggregator's [hook_periodic] over all
    its trackers. *)
Theorem zero_delta_tick_is_noop :
  (forall sim now self time,
      CoreStateAnalyzer.collect_state_sample sim now self time 0 = Py.Ok self)
  /\ (forall sim now self time,
         CoreStateAtBranchEventAnalyzer.hook_periodic sim now self time 0
         = Py.Ok self).
Proof.
  split; [reflexivity|].
  intros sim now self time. unfold CoreStateAtBranchEventAnalyzer.hook_periodic.
  assert (Hall : forall analyzers,
             CoreStateAtBranchEventAnalyzer.collect_all sim now time 0 analyzers
             = Py.Ok analyzers).
  { induction analyzers as [|[core_id analyzer] rest IH]; simpl; [reflexivity|].
    now rewrite IH. }
  rewrite Hall. simpl. now destruct self.
Qed.

Lemma keys_sampled (time current_state : Z) (d : Py.dict Z BranchRecord.t) :
  Py.keys (map (sampled_entry time current_state) d) = Py.keys d.
Proof. unfold Py.keys. rewrite map_map. now apply map_ext. Qed.

(** C1. A tick with [time_delta != 0] on a tracker (the keys of its
    active dict being distinct, as in any dict) returns normally, and
    every record of the active dict gets exactly one sample appended,
    [(time - start_time, state)].  A record whose elapsed time exceeds
    [observation_window * Time.US] is in [completed_records] afterwards,
    with that closing sample as its last one, and its key is gone from
    the active dict; any other record stays active under its key.  The
    first two equations give the whole state after the tick. *)
Theorem tick_samples_every_active_record
        (sim : Sim) (now : Probe) (self : CoreStateAnalyzer.t)
        (time time_delta : Z) :
  NoDup (Py.keys (CoreStateAnalyzer.active_records self)) ->
  time_delta <> 0 ->
  let state := dvfs_get_core_state now (CoreStateAnalyzer.core_id self) in
  let window := CoreStateAnalyzer.observation_window self * Time_US sim in
  exists self',
    CoreStateAnalyzer.collect_state_sample sim now self time time_delta = Py.Ok self'
    /\ CoreStateAnalyzer.active_records self'
       = map (fun kr => (fst kr, sampled time state (snd kr)))
           (filter (fun kr => negb (time - BranchRecord.start_time (snd kr) >? window))
                   (CoreStateAnalyzer.active_records self))
    /\ CoreStateAnalyzer.completed_records self'
       = CoreStateAnalyzer.completed_records self
           ++ map (sampled time state)
                (filter (fun r => time - BranchRecord.start_time r >? window)
                        (Py.values (CoreStateAnalyzer.active_records self)))
    /\ forall (event_id : Z) (record : BranchRecord.t),
      In (event_id, record) (CoreStateAnalyzer.active_records self) ->
      let elapsed := time - BranchRecord.start_time record in
      let record' := sampled time state record in
      BranchRecord.states record' = BranchRecord.states record ++ [(elapsed, state)]
      /\ if elapsed >? window
         then In record' (CoreStateAnalyzer.completed_records self')
              /\ last (BranchRecord.states record') (0, 0) = (elapsed, state)
              /\ ~ In event_id (Py.keys (CoreStateAnalyzer.active_records self'))
         else In (event_id, record') (CoreStateAnalyzer.active_records self').
Proof.
  intros Hnd Hdelta state window.
  eexists. split; [now apply tick_closed_form|].
  simpl. split; [reflexivity|]. split; [reflexivity|].
  intros event_id record Hin.
  set (elapsed := time - BranchRecord.start_time record).
  set (record' := sampled time state record).
  split; [reflexivity|].
  fold (sampled_entry time state).
  change (fun r => time - BranchRecord.start_time r >? window)
    with (expired sim self time).
  change (elapsed >? window) with (expired sim self time record).
  destruct (expired sim self time record) eqn:E.
  - split; [|split].
    + apply in_or_app. right. apply in_map. apply filter_In. split; [|exact E].
      unfold Py.values. change record with (snd (event_id, record)).
      now apply in_map.
    + unfold record', sampled. simpl. now rewrite last_last.
    + rewrite keys_sampled. unfold Py.keys. intros Hk.
      apply in_map_iff in Hk. destruct Hk as ([k r] & Hfst & Hf).
      simpl in Hfst. subst k. apply filter_In in Hf. destruct Hf as [Hr Hne].
      assert (r = record) by (eapply nodup_keys_unique; eassumption).
      subst r. unfold expired in *. simpl in Hne. unfold window in Hne.
      rewrite E in Hne. discriminate.
  - apply in_map_iff. exists (event_id, record). split; [reflexivity|].
    apply filter_In. split; [assumption|].
    simpl. fold (expired sim self time record). now rewrite E.
Qed.

Lemma tick_samples_every_active_record_witness :
  NoDup (Py.keys (CoreStateAnalyzer.active_records example_tracker))
  /\ 1000000000 <> 0
  /\ exists self',
      CoreStateAnalyzer.collect_state_sample
        example_sim (example_probe 100000000001 IDLE) example_tracker
        100000000001 1000000000 = Py.Ok self'
      /\ map BranchRecord.event_id (CoreStateAnalyzer.completed_records self') = [1]
      /\ Py.keys (CoreStateAnalyzer.active_records self') = [2].
Proof.
  assert (Hnd : NoDup (Py.keys (CoreStateAnalyzer.active_records example_tracker))).
  { simpl. repeat constructor; simpl; intuition discriminate. }
  assert (Hdelta : 1000000000 <> 0) by discriminate.
  split; [exact Hnd|]. split; [exact Hdelta|].
  destruct (tick_samples_every_active_record
              example_sim (example_probe 100000000001 IDLE) example_tracker
              100000000001 1000000000 Hnd Hdelta)
    as (self' & Hrun & Hactive & Hcompleted & _).
  exists self'. split; [exact Hrun|].
  rewrite Hactive, Hcompleted. split; reflexivity.
Defined.

(** ** The invariant is kept by every callback *)

Lemma filter_split_perm {A : Type} (p : A -> bool) (l : list A) :
  Permutation (filter p l ++ filter (fun x => negb (p x)) l) l.
Proof.
  induction l as [|x l IH]; simpl; [constructor|].
  destruct (p x); simpl.
  - now constructor.
  - rewrite <- Permutation_middle. now constructor.
Qed.

Lemma filter_values {K V : Type} (p : V -> bool) (d : Py.dict K V) :
  filter p (Py.values d) = Py.values (filter (fun kr => p (snd kr)) d).
Proof.
  unfold Py.values. induction d as [|[k v] d IH]; simpl; [reflexivity|].
  destruct (p v); simpl; now rewrite IH.
Qed.

Lemma ids_of_entries (d : Py.dict Z BranchRecord.t) :
  (forall k r, In (k, r) d -> BranchRecord.event_id r = k) ->
  map BranchRecord.event_id (Py.values d) = Py.keys d.
Proof.
  unfold Py.values, Py.keys. induction d as [|[k r] d IH]; simpl; intros Hkey;
    [reflexivity|].
  rewrite (Hkey k r) by now left. f_equal. apply IH. intros; apply Hkey; now right.
Qed.

Lemma ids_of_sampled (time current_state : Z) (l : list BranchRecord.t) :
  map BranchRecord.event_id (map (sampled time current_state) l)
  = map BranchRecord.event_id l.
Proof. rewrite map_map. now apply map_ext. Qed.

Section Invariant.

Variable sim : Sim.

Lemma wf_init (core_id : Z) (results_folder : string)
      (observation_window sampling_period : Z) :
  well_formed sim
    (CoreStateAnalyzer.__init__ core_id results_folder
       observation_window sampling_period).
Proof.
  constructor; simpl; try contradiction.
  - lia.
  - constructor.
  - intros id. unfold record_ids. simpl. split; [contradiction|lia].
Qed.

Lemma next_id_fresh (self : CoreStateAnalyzer.t) :
  well_formed sim self ->
  ~ In (CoreStateAnalyzer.next_event_id self) (record_ids self).
Proof. intros Hwf Hin. apply (wf_ids _ _ Hwf) in Hin. lia. Qed.

Lemma record_ids_branch (now : Probe) (self : CoreStateAnalyzer.t)
      (ip : Z) (predicted actual indirect : bool) :
  well_formed sim self ->
  CoreStateAnalyzer.active_records
    (CoreStateAnalyzer.record_branch_event now self ip predicted actual indirect)
  = CoreStateAnalyzer.active_records self
      ++ [(CoreStateAnalyzer.next_event_id self,
           CoreStateAnalyzer.new_record now self ip actual)].
Proof.
  intros Hwf. simpl. apply setitem_fresh.
  intros Hin. apply (next_id_fresh self Hwf). unfold record_ids.
  apply in_or_app. now right.
Qed.

Lemma wf_branch (now : Probe) (self : CoreStateAnalyzer.t)
      (ip : Z) (predicted actual indirect : bool) :
  well_formed sim self ->
  well_formed sim
    (CoreStateAnalyzer.record_branch_event now self ip predicted actual indirect).
Proof.
  intros Hwf.
  pose proof (record_ids_branch now self ip predicted actual indirect Hwf) as Hact.
  pose proof (next_id_fresh self Hwf) as Hfresh.
  assert (Hids : record_ids
                   (CoreStateAnalyzer.record_branch_event
                      now self ip predicted actual indirect)
                 = record_ids self ++ [CoreStateAnalyzer.next_event_id self]).
  { unfold record_ids at 1. rewrite Hact. unfold Py.keys. rewrite map_app.
    simpl. unfold record_ids, Py.keys. now rewrite app_assoc. }
  constructor.
  - simpl. pose proof (wf_next _ _ Hwf). lia.
  - rewrite Hids. eapply Permutation_NoDup; [apply Permutation_cons_append|].
    constructor; [exact Hfresh|exact (wf_nodup _ _ Hwf)].
  - intros id. rewrite Hids, in_app_iff, (wf_ids _ _ Hwf). simpl.
    pose proof (wf_next _ _ Hwf). lia.
  - intros k r. rewrite Hact, in_app_iff. intros [Hin|[Heq|[]]].
    + now apply (wf_key _ _ Hwf).
    + now inversion Heq.
  - intros k r. rewrite Hact, in_app_iff. intros [Hin|[Heq|[]]].
    + exact (wf_open _ _ Hwf k r Hin).
    + inversion Heq. constructor.
  - intros r Hin. exact (wf_closed _ _ Hwf r Hin).
Qed.

Lemma wf_active_nodup (self : CoreStateAnalyzer.t) :
  well_formed sim self -> NoDup (Py.keys (CoreStateAnalyzer.active_records self)).
Proof.
  intros Hwf. pose proof (wf_nodup _ _ Hwf) as Hnd. unfold record_ids in Hnd.
  now apply NoDup_app_remove_l in Hnd.
Qed.

Lemma wf_tick (now : Probe) (self : CoreStateAnalyzer.t) (time time_delta : Z) :
  well_formed sim self ->
  exists self',
    CoreStateAnalyzer.collect_state_sample sim now self time time_delta = Py.Ok self'
    /\ well_formed sim self'
    /\ CoreStateAnalyzer.next_event_id self' = CoreStateAnalyzer.next_event_id self
    /\ CoreStateAnalyzer.observation_window self'
       = CoreStateAnalyzer.observation_window self
    /\ exists closed,
        CoreStateAnalyzer.completed_records self'
        = CoreStateAnalyzer.completed_records self ++ closed.
Proof.
  intros Hwf. destruct (Z.eq_dec time_delta 0) as [->|Hdelta].
  { exists self. split; [reflexivity|]. split; [assumption|].
    split; [reflexivity|]. split; [reflexivity|].
    exists []. now rewrite app_nil_r. }
  pose proof (wf_active_nodup self Hwf) as Hnd.
  eexists. split; [now apply tick_closed_form|].
  set (state := dvfs_get_core_state now (CoreStateAnalyzer.core_id self)).
  set (active := CoreStateAnalyzer.active_records self) in *.
  set (completed := CoreStateAnalyzer.completed_records self).
  split; [|split; [reflexivity|split; [reflexivity|eexists; reflexivity]]].
  assert (Hperm : Permutation
                    (record_ids
                       (CoreStateAnalyzer.with_records self
                          (map (sampled_entry time state)
                               (filter (fun kr => negb (expired sim self time (snd kr)))
                                       active))
                          (completed
                             ++ map (sampled time state)
                                  (filter (expired sim self time) (Py.values active)))))
                    (record_ids self)).
  { unfold record_ids. simpl. rewrite keys_sampled, map_app, ids_of_sampled.
    rewrite filter_values, ids_of_entries.
    - rewrite <- app_assoc. apply Permutation_app_head.
      fold active. unfold Py.keys.
      rewrite <- map_app. apply Permutation_map.
      apply (filter_split_perm (fun kr => expired sim self time (snd kr))).
    - intros k r Hin. apply filter_In in Hin. now apply (wf_key _ _ Hwf). }
  constructor.
  - exact (wf_next _ _ Hwf).
  - eapply Permutation_NoDup; [symmetry; exact Hperm|exact (wf_nodup _ _ Hwf)].
  - intros id. rewrite <- (wf_ids _ _ Hwf). split; intros Hin.
    + eapply Permutation_in; [exact Hperm|exact Hin].
    + eapply Permutation_in; [symmetry; exact Hperm|exact Hin].
  - simpl. intros k r Hin. apply in_map_iff in Hin.
    destruct Hin as ([k0 r0] & Heq & Hin). inversion Heq; subst.
    apply filter_In in Hin. simpl. now apply (wf_key _ _ Hwf).
  - simpl. intros k r Hin. apply in_map_iff in Hin.
    destruct Hin as ([k0 r0] & Heq & Hin). inversion Heq; subst.
    apply filter_In in Hin. destruct Hin as [Hin Hne]. simpl in *.
    apply Forall_app. split.
    + exact (wf_open _ _ Hwf k r0 Hin).
    + constructor; [|constructor]. unfold within_window, expired in *. simpl.
      destruct (time - BranchRecord.start_time r0
                >? CoreStateAnalyzer.observation_window self * Time_US sim) eqn:E;
        [discriminate|]. lia.
  - simpl. intros r Hin. apply in_app_or in Hin. destruct Hin as [Hin|Hin].
    + exact (wf_closed _ _ Hwf r Hin).
    + apply in_map_iff in Hin. destruct Hin as (r0 & <- & Hin).
      apply filter_In in Hin. destruct Hin as [Hin Hexp].
      unfold Py.values in Hin. apply in_map_iff in Hin.
      destruct Hin as ([k r1] & Heq & Hin). simpl in Heq. subst r1.
      exists (BranchRecord.states r0), (time - BranchRecord.start_time r0), state.
      split; [reflexivity|]. split.
      * unfold expired in Hexp. lia.
      * exact (wf_open _ _ Hwf k r0 Hin).
Qed.

End Invariant.

(** ** Call sequences *)

Lemma count_from_seq (start : nat) (k : nat) :
  count_from (Z.of_nat start) k = map Z.of_nat (seq start k).
Proof.
  revert start. induction k as [|k IH]; intros start; simpl; [reflexivity|].
  f_equal. rewrite <- IH. f_equal. lia.
Qed.

Lemma nodup_map_injective {A B : Type} (f : A -> B) (l : list A) (a b : A) :
  NoDup (map f l) -> In a l -> In b l -> f a = f b -> a = b.
Proof.
  induction l as [|x l IH]; simpl; intros Hnd Ha Hb Hf; [contradiction|].
  inversion Hnd as [|? ? Hnotin Hnd']; subst.
  destruct Ha as [->|Ha], Hb as [->|Hb].
  - reflexivity.
  - exfalso. apply Hnotin. rewrite Hf. now apply in_map.
  - exfalso. apply Hnotin. rewrite <- Hf. now apply in_map.
  - now apply IH.
Qed.

Lemma nodup_app_disjoint {A : Type} (l l' : list A) (a : A) :
  NoDup (l ++ l') -> In a l -> ~ In a l'.
Proof.
  induction l as [|x l IH]; simpl; intros Hnd Hin; [contradiction|].
  inversion Hnd as [|? ? Hnotin Hnd']; subst.
  destruct Hin as [->|Hin].
  - intros Hin'. apply Hnotin. apply in_or_app. now right.
  - now apply IH.
Qed.

Section Runs.

Variable sim : Sim.

(** Any call sequence on a well-formed tracker runs to the end without an
    exception and leaves a well-formed tracker; the completed records
    only grow at the end, and the ids handed out are consecutive. *)
Lemma run_well_formed (calls : list Calls.call) :
  forall self : CoreStateAnalyzer.t,
    well_formed sim self ->
    exists self',
      Calls.run sim calls self = Py.Ok self'
      /\ well_formed sim self'
      /\ CoreStateAnalyzer.next_event_id self'
         = CoreStateAnalyzer.next_event_id self
           + Z.of_nat (List.length (filter Calls.is_branch calls))
      /\ CoreStateAnalyzer.observation_window self'
         = CoreStateAnalyzer.observation_window self
      /\ (exists closed,
             CoreStateAnalyzer.completed_records self'
             = CoreStateAnalyzer.completed_records self ++ closed)
      /\ Calls.event_ids sim calls self
         = count_from (CoreStateAnalyzer.next_event_id self)
                      (List.length (filter Calls.is_branch calls)).
Proof.
  induction calls as [|c calls IH]; intros self Hwf.
  - exists self. simpl. split; [reflexivity|]. split; [assumption|].
    split; [lia|]. split; [reflexivity|]. split; [|reflexivity].
    exists []. now rewrite app_nil_r.
  - destruct c as [now ip predicted actual indirect|now time time_delta].
    + destruct (IH _ (wf_branch sim now self ip predicted actual indirect Hwf))
        as (self' & Hrun & Hwf' & Hnext & Hwin & [closed Hclosed] & Hids).
      exists self'. unfold Calls.run in *. simpl in *.
      split; [exact Hrun|]. split; [exact Hwf'|].
      split; [rewrite Hnext; lia|]. split; [exact Hwin|].
      split; [now exists closed|]. now rewrite Hids.
    + destruct (wf_tick sim now self time time_delta Hwf)
        as (self1 & Htick & Hwf1 & Hnext1 & Hwin1 & [closed1 Hclosed1]).
      destruct (IH _ Hwf1)
        as (self' & Hrun & Hwf' & Hnext & Hwin & [closed Hclosed] & Hids).
      exists self'. unfold Calls.run in *. simpl. rewrite Htick. simpl.
      split; [exact Hrun|]. split; [exact Hwf'|].
      split; [rewrite Hnext, Hnext1; lia|]. split; [congruence|].
      split.
      * exists (closed1 ++ closed). now rewrite Hclosed, Hclosed1, app_assoc.
      * now rewrite Hids, Hnext1.
Qed.

End Runs.

(** C3. The branch events delivered to one tracker, whatever ticks come
    between them, get the ids 1, 2, ..., N in delivery order.  After the
    run the next id is N + 1, and the ids on the records the tracker
    holds, completed or active, are 1 .. N, each on exactly one record:
    an id is not handed out again after its record has completed. *)
Theorem event_ids_are_consecutive
        (sim : Sim) (core_id : Z) (results_folder : string)
        (observation_window sampling_period : Z) (calls : list Calls.call) :
  let tracker :=
    CoreStateAnalyzer.__init__ core_id results_folder
      observation_window sampling_period in
  let N := List.length (filter Calls.is_branch calls) in
  Calls.event_ids sim calls tracker = map Z.of_nat (seq 1 N)
  /\ exists tracker',
      Calls.run sim calls tracker = Py.Ok tracker'
      /\ CoreStateAnalyzer.next_event_id tracker' = Z.of_nat N + 1
      /\ NoDup (record_ids tracker')
      /\ forall id : Z, In id (record_ids tracker') <-> 1 <= id <= Z.of_nat N.
Proof.
  intros tracker N.
  destruct (run_well_formed sim calls tracker
              (wf_init sim core_id results_folder observation_window sampling_period))
    as (tracker' & Hrun & Hwf & Hnext & _ & _ & Hids).
  change (CoreStateAnalyzer.next_event_id tracker) with (Z.of_nat 1) in Hnext, Hids.
  fold N in Hnext, Hids.
  split; [now rewrite Hids, count_from_seq|].
  exists tracker'. split; [exact Hrun|]. split; [lia|].
  split; [exact (wf_nodup _ _ Hwf)|].
  intros id. rewrite (wf_ids _ _ Hwf). lia.
Qed.


(** C4. At every point of a run a record is either active or completed,
    never both and never neither: every id handed out so far is a key of
    the active dict or the id of a completed record, not both, and no id
    occurs twice.  A completed record ends with the sample that exceeded
    the window, all earlier samples being within it; whatever calls
    follow, the very same record, with the same samples, is still among
    the completed records, it is the only one with its id, and its id is
    not a key of the active dict. *)
Theorem completed_records_are_final
        (sim : Sim) (core_id : Z) (results_folder : string)
        (observation_window sampling_period : Z) (calls : list Calls.call) :
  exists tracker,
    Calls.run sim calls
      (CoreStateAnalyzer.__init__ core_id results_folder
         observation_window sampling_period) = Py.Ok tracker
    /\ NoDup (Py.keys (CoreStateAnalyzer.active_records tracker))
    /\ NoDup (map BranchRecord.event_id (CoreStateAnalyzer.completed_records tracker))
    /\ (forall id : Z,
           1 <= id < CoreStateAnalyzer.next_event_id tracker ->
           (In id (Py.keys (CoreStateAnalyzer.active_records tracker))
            /\ ~ In id (map BranchRecord.event_id
                            (CoreStateAnalyzer.completed_records tracker)))
           \/ (~ In id (Py.keys (CoreStateAnalyzer.active_records tracker))
               /\ In id (map BranchRecord.event_id
                             (CoreStateAnalyzer.completed_records tracker))))
    /\ forall record : BranchRecord.t,
      In record (CoreStateAnalyzer.completed_records tracker) ->
      (exists samples elapsed state,
          BranchRecord.states record = samples ++ [(elapsed, state)]
          /\ observation_window * Time_US sim < elapsed
          /\ Forall (fun sample => fst sample <= observation_window * Time_US sim)
                    samples)
      /\ forall more : list Calls.call,
        exists tracker',
          Calls.run sim more tracker = Py.Ok tracker'
          /\ In record (CoreStateAnalyzer.completed_records tracker')
          /\ ~ In (BranchRecord.event_id record)
                  (Py.keys (CoreStateAnalyzer.active_records tracker'))
          /\ forall record',
              In record' (CoreStateAnalyzer.completed_records tracker') ->
              BranchRecord.event_id record' = BranchRecord.event_id record ->
              record' = record.
Proof.
  destruct (run_well_formed sim calls _
              (wf_init sim core_id results_folder observation_window sampling_period))
    as (tracker & Hrun & Hwf & _ & Hwin & _ & _).
  simpl in Hwin.
  exists tracker. split; [exact Hrun|].
  pose proof (wf_nodup _ _ Hwf) as Hnd. unfold record_ids in Hnd.
  split; [now apply NoDup_app_remove_l in Hnd|].
  split; [now apply NoDup_app_remove_r in Hnd|].
  split.
  - intros id Hid. apply (wf_ids _ _ Hwf) in Hid. unfold record_ids in Hid.
    apply in_app_or in Hid.
    destruct Hid as [Hid|Hid].
    + right. split; [|exact Hid]. exact (nodup_app_disjoint _ _ id Hnd Hid).
    + left. split; [exact Hid|].
      intros Hc. exact (nodup_app_disjoint _ _ id Hnd Hc Hid).
  - intros record Hin. split.
    + destruct (wf_closed _ _ Hwf record Hin) as (samples & elapsed & state & H1 & H2 & H3).
      exists samples, elapsed, state. unfold within_window in H3.
      rewrite Hwin in *. auto.
    + intros more.
      destruct (run_well_formed sim more tracker Hwf)
        as (tracker' & Hrun' & Hwf' & _ & _ & [closed Hclosed] & _).
      exists tracker'. split; [exact Hrun'|].
      assert (Hin' : In record (CoreStateAnalyzer.completed_records tracker')).
      { rewrite Hclosed. apply in_or_app. now left. }
      pose proof (wf_nodup _ _ Hwf') as Hnd'. unfold record_ids in Hnd'.
      split; [exact Hin'|]. split.
      * apply (nodup_app_disjoint _ _ _ Hnd'). now apply in_map.
      * intros record' Hr' Hid.
        apply NoDup_app_remove_r in Hnd'.
        eapply nodup_map_injective; eassumption.
Qed.

(** ** The aggregator *)

(** C7. [hook_branch_predictor] always counts the branch.  When
    [core_id] is not a key of [core_analyzers], nothing else changes:
    every tracker is as it was and the records of the run are the same,
    so none was created; the hook returns normally (it has no failing
    path).  When [core_id] names a tracker, that tracker becomes the
    result of its own [record_branch_event] on the event, and the other
    trackers are untouched. *)
Theorem branch_event_routing
        (now : Probe) (self : CoreStateAtBranchEventAnalyzer.t) (core_id ip : Z)
        (predicted actual indirect : bool) :
  let self' :=
    CoreStateAtBranchEventAnalyzer.hook_branch_predictor
      now self core_id ip predicted actual indirect in
  CoreStateAtBranchEventAnalyzer.total_branches self'
  = CoreStateAtBranchEventAnalyzer.total_branches self + 1
  /\ (forall other : Z,
         other <> core_id ->
         Py.get (CoreStateAtBranchEventAnalyzer.core_analyzers self') other
         = Py.get (CoreStateAtBranchEventAnalyzer.core_analyzers self) other)
  /\ Py.keys (CoreStateAtBranchEventAnalyzer.core_analyzers self')
     = Py.keys (CoreStateAtBranchEventAnalyzer.core_analyzers self)
  /\ match Py.get (CoreStateAtBranchEventAnalyzer.core_analyzers self) core_id with
     | None =>
         Py.contains (CoreStateAtBranchEventAnalyzer.core_analyzers self) core_id = false
         /\ CoreStateAtBranchEventAnalyzer.core_analyzers self'
            = CoreStateAtBranchEventAnalyzer.core_analyzers self
         /\ CoreStateAtBranchEventAnalyzer.all_completed_records self'
            = CoreStateAtBranchEventAnalyzer.all_completed_records self
     | Some analyzer =>
         Py.get (CoreStateAtBranchEventAnalyzer.core_analyzers self') core_id
         = Some (CoreStateAnalyzer.record_branch_event
                   now analyzer ip predicted actual indirect)
     end.
Proof.
  intros self'. subst self'.
  unfold CoreStateAtBranchEventAnalyzer.hook_branch_predictor, Py.contains.
  destruct (Py.get (CoreStateAtBranchEventAnalyzer.core_analyzers self) core_id)
    as [analyzer|] eqn:Hget; simpl.
  - split; [reflexivity|]. split; [|split].
    + intros other Hne. apply get_setitem_other. congruence.
    + rewrite keys_setitem. unfold Py.contains. now rewrite Hget.
    + apply get_setitem_same.
  - repeat split; reflexivity.
Qed.

(** Writing the same two files again leaves the file system as it is. *)
Lemma rewrite_two_files (files : Py.dict string string)
      (path1 path2 text1 text2 : string) :
  let written := Py.setitem (Py.setitem files path1 text1) path2 text2 in
  Py.setitem (Py.setitem written path1 text1) path2 text2 = written.
Proof.
  intros written. destruct (String.eqb path1 path2) eqn:E.
  - apply String.eqb_eq in E. subst path2. rewrite setitem_twice.
    apply setitem_same_value. apply get_setitem_same.
  - apply String.eqb_neq in E.
    rewrite (setitem_same_value written path1 text1).
    + apply setitem_same_value. apply get_setitem_same.
    + unfold written. rewrite get_setitem_other by congruence.
      apply get_setitem_same.
Qed.

(** C9. [hook_sim_end] only reads the aggregator: it takes the trackers'
    completed and active records as they are and returns no new
    aggregator.  Run a second time on the same aggregator, it ends the
    same way and leaves the two files with the same text as after the
    first run, whatever float arithmetic is used. *)
Theorem finalize_twice_is_identical
        (F : Type) (ops : PyFloat.Ops F)
        (self : CoreStateAtBranchEventAnalyzer.t) (files : Py.dict string string) :
  let first := CoreStateAtBranchEventAnalyzer.hook_sim_end self files in
  CoreStateAtBranchEventAnalyzer.hook_sim_end self (fst first) = first
  /\ Py.get (fst first) (CoreStateAtBranchEventAnalyzer.analysis_summary_file self)
     = Some (String.concat EmptyString
               (CoreStateAtBranchEventAnalyzer.analysis_summary_header
                  :: map CoreStateAtBranchEventAnalyzer.summary_line
                       (fst (CoreStateAtBranchEventAnalyzer.generate_analysis_summary
                               self
                               (CoreStateAtBranchEventAnalyzer.all_completed_records
                                  self))))).
Proof.
  unfold CoreStateAtBranchEventAnalyzer.hook_sim_end.
  destruct (CoreStateAtBranchEventAnalyzer.generate_analysis_summary
              self (CoreStateAtBranchEventAnalyzer.all_completed_records self))
    as [rows e].
  simpl. split.
  - f_equal. apply rewrite_two_files.
  - apply get_setitem_same.
Qed.

(** ** The summary *)

Lemma hex_injective (a b : Z) : Py.hex a = Py.hex b -> a = b.
Proof.
  unfold Py.hex. intros Heq.
  rewrite <- (HexString.to_Z_of_Z a), <- (HexString.to_Z_of_Z b). now rewrite Heq.
Qed.

Lemma positions_from_filter {A : Type} (p : A -> bool) (xs : list A) :
  forall i : Z,
    Py.positions_from p i xs
    = map (fun j => i + Z.of_nat j)
        (filter (fun j => match nth_error xs j with
                          | Some x => p x
                          | None => false
                          end)
                (seq 0 (List.length xs))).
Proof.
  induction xs as [|x xs IH]; intros i; simpl; [reflexivity|].
  rewrite <- seq_shift.
  assert (Hshift :
            filter (fun j => match nth_error (x :: xs) j with
                             | Some x0 => p x0
                             | None => false
                             end)
                   (map S (seq 0 (List.length xs)))
            = map S (filter (fun j => match nth_error xs j with
                                      | Some x0 => p x0
                                      | None => false
                                      end)
                            (seq 0 (List.length xs)))).
  { generalize (seq 0 (List.length xs)) as l.
    induction l as [|j l IHl]; simpl; [reflexivity|].
    destruct (nth_error xs j) as [x0|]; [destruct (p x0)|]; simpl; now rewrite IHl. }
  destruct (p x); simpl; rewrite Hshift, IH, map_map;
    [f_equal; [lia|]|]; apply map_ext; intros; lia.
Qed.

(** The list comprehension of the script computes the IDLE indices. *)
Lemma idle_positions_are_indices (record : BranchRecord.t) :
  CoreStateAtBranchEventAnalyzer.idle_positions_of record = idle_indices record.
Proof.
  unfold CoreStateAtBranchEventAnalyzer.idle_positions_of, idle_indices.
  rewrite positions_from_filter, length_map. simpl.
  f_equal. apply filter_ext. intros j. rewrite nth_error_map.
  now destruct (nth_error (BranchRecord.states record) j).
Qed.

Lemma has_idle_positions (record : BranchRecord.t) :
  has_idle record
  = match CoreStateAtBranchEventAnalyzer.idle_positions_of record with
    | [] => false
    | _ :: _ => true
    end.
Proof.
  unfold has_idle, CoreStateAtBranchEventAnalyzer.idle_positions_of.
  generalize 0 as i. induction (BranchRecord.states record) as [|[e s] l IH];
    intros i; simpl; [reflexivity|].
  unfold IDLE. destruct (s =? 5); simpl; [reflexivity|]. apply IH.
Qed.

Lemma has_idle_sample (record : BranchRecord.t) :
  has_idle record = true
  <-> exists elapsed, In (elapsed, IDLE) (BranchRecord.states record).
Proof.
  unfold has_idle. rewrite existsb_exists. split.
  - intros ([e s] & Hin & Hs). simpl in Hs. apply Z.eqb_eq in Hs. subst. eauto.
  - intros (e & Hin). exists (e, IDLE). split; [assumption|reflexivity].
Qed.

Lemma get_none_not_in {V : Type} (d : Py.dict string V) (k : string) :
  Py.get d k = None -> ~ In k (Py.keys d).
Proof.
  intros Hget Hin. destruct (get_in d k Hin) as (v & Hv & _). congruence.
Qed.

Lemma idle_records_app (ip : Z) (l l' : list BranchRecord.t) :
  idle_records ip (l ++ l') = idle_records ip l ++ idle_records ip l'.
Proof. apply filter_app. Qed.

Lemma len_app {A : Type} (l l' : list A) : Py.len (l ++ l') = Py.len l + Py.len l'.
Proof. unfold Py.len. rewrite length_app. lia. Qed.



Lemma idle_records_one (ip : Z) (record : BranchRecord.t) :
  idle_records ip [record]
  = if (BranchRecord.ip record =? ip) && has_idle record then [record] else [].
Proof. reflexivity. Qed.

Lemma nodup_snoc {A : Type} (l : list A) (x : A) :
  NoDup l -> ~ In x l -> NoDup (l ++ [x]).
Proof.
  intros Hnd Hnotin. eapply Permutation_NoDup; [apply Permutation_cons_append|].
  now constructor.
Qed.

Lemma count_record_agrees (seen : list BranchRecord.t)
      (pattern_stats : Py.dict string PatternStats.t) (record : BranchRecord.t) :
  stats_agree seen pattern_stats ->
  stats_agree (seen ++ [record])
              (CoreStateAtBranchEventAnalyzer.count_record pattern_stats record).
Proof.
  intros (Hnd & Hkeys & Hget).
  unfold CoreStateAtBranchEventAnalyzer.count_record.
  pose proof (has_idle_positions record) as Hidle.
  destruct (CoreStateAtBranchEventAnalyzer.idle_positions_of record)
    as [|z l] eqn:Hpos.
  { (* no IDLE sample: the record is skipped *)
    split; [assumption|]. split; [assumption|].
    intros ip. rewrite Hget. unfold expected_entry.
    rewrite idle_records_app, idle_records_one, Hidle, andb_false_r.
    now rewrite app_nil_r. }
  rewrite <- Hpos. clear z l Hpos.
  pose proof (Hget (BranchRecord.ip record)) as Hown.
  unfold expected_entry in Hown.
  assert (Hother : forall ip,
             ip <> BranchRecord.ip record ->
             expected_entry ip (seen ++ [record]) = expected_entry ip seen).
  { intros ip Hne. unfold expected_entry.
    rewrite idle_records_app, idle_records_one.
    replace (BranchRecord.ip record =? ip) with false
      by (symmetry; apply Z.eqb_neq; congruence).
    now rewrite app_nil_r. }
  assert (Hhex : forall ip,
             ip <> BranchRecord.ip record ->
             Py.hex (BranchRecord.ip record) <> Py.hex ip).
  { intros ip Hne Heq. apply hex_injective in Heq. congruence. }
  destruct (Py.get pattern_stats (Py.hex (BranchRecord.ip record)))
    as [stats|] eqn:Hfound.
  - (* the ip has an entry: it is updated in place *)
    split; [|split].
    + rewrite keys_setitem. unfold Py.contains. now rewrite Hfound.
    + intros key. rewrite keys_setitem. unfold Py.contains. rewrite Hfound.
      apply Hkeys.
    + intros ip. destruct (Z.eq_dec ip (BranchRecord.ip record)) as [->|Hne].
      * rewrite get_setitem_same. unfold expected_entry.
        rewrite idle_records_app, idle_records_one, Hidle, Z.eqb_refl. simpl.
        destruct (idle_records (BranchRecord.ip record) seen) as [|m ms];
          [discriminate|].
        inversion Hown; subst stats. simpl. f_equal. unfold expected_stats.
        rewrite idle_positions_are_indices.
        change (m :: ms ++ [record]) with ((m :: ms) ++ [record]).
        rewrite len_app, flat_map_app, filter_app, len_app. simpl.
        rewrite app_nil_r. f_equal.
        destruct (BranchRecord.branch_taken record); simpl.
        -- reflexivity.
        -- unfold Py.len at 3. simpl. lia.
      * rewrite get_setitem_other by now apply Hhex.
        rewrite Hget. symmetry. now apply Hother.
  - (* a new ip: the entry is created *)
    pose proof (get_none_not_in _ _ Hfound) as Hfresh.
    split; [|split].
    + rewrite keys_setitem. unfold Py.contains. rewrite Hfound.
      now apply nodup_snoc.
    + intros key. rewrite keys_setitem. unfold Py.contains. rewrite Hfound.
      rewrite in_app_iff. intros [Hin|[<-|[]]]; [now apply Hkeys|eauto].
    + intros ip. destruct (Z.eq_dec ip (BranchRecord.ip record)) as [->|Hne].
      * rewrite get_setitem_same. unfold expected_entry.
        rewrite idle_records_app, idle_records_one, Hidle, Z.eqb_refl. simpl.
        destruct (idle_records (BranchRecord.ip record) seen) as [|m ms];
          [|discriminate].
        simpl. f_equal. unfold expected_stats. simpl.
        rewrite idle_positions_are_indices, app_nil_r. f_equal.
        now destruct (BranchRecord.branch_taken record).
      * rewrite get_setitem_other by now apply Hhex.
        rewrite Hget. symmetry. now apply Hother.
Qed.

Lemma pattern_stats_agree (all_records : list BranchRecord.t) :
  stats_agree all_records
    (CoreStateAtBranchEventAnalyzer.pattern_stats_of all_records).
Proof.
  unfold CoreStateAtBranchEventAnalyzer.pattern_stats_of.
  assert (Hgen : forall rest seen pattern_stats,
             stats_agree seen pattern_stats ->
             stats_agree (seen ++ rest)
               (fold_left CoreStateAtBranchEventAnalyzer.count_record
                          rest pattern_stats)).
  { induction rest as [|record rest IH]; intros seen pattern_stats Hagree; simpl.
    - now rewrite app_nil_r.
    - change (record :: rest) with ([record] ++ rest). rewrite app_assoc.
      apply IH. now apply count_record_agrees. }
  apply (Hgen all_records [] []).
  split; [constructor|]. split; [intros key []|reflexivity].
Qed.

(** Every entry of [pattern_stats] stands for at least one record and at
    least one IDLE position. *)
Lemma pattern_stats_entries (all_records : list BranchRecord.t)
      (key : string) (stats : PatternStats.t) :
  In (key, stats) (CoreStateAtBranchEventAnalyzer.pattern_stats_of all_records) ->
  exists ip first rest,
    key = Py.hex ip
    /\ idle_records ip all_records = first :: rest
    /\ stats = expected_stats (first :: rest)
    /\ 1 <= PatternStats.count stats
    /\ PatternStats.idle_positions stats <> [].
Proof.
  intros Hin.
  destruct (pattern_stats_agree all_records) as (Hnd & Hkeys & Hget).
  assert (Hkey : In key (Py.keys
                           (CoreStateAtBranchEventAnalyzer.pattern_stats_of
                              all_records))).
  { unfold Py.keys. change key with (fst (key, stats)). now apply in_map. }
  destruct (Hkeys key Hkey) as [ip ->].
  destruct (get_in _ _ Hkey) as (stats' & Hfound & Hin').
  assert (stats' = stats) by (eapply nodup_keys_unique; eassumption).
  subst stats'. rewrite Hget in Hfound. unfold expected_entry in Hfound.
  destruct (idle_records ip all_records) as [|first rest] eqn:Hrecords;
    [discriminate|].
  inversion Hfound as [Hstats]. exists ip, first, rest.
  split; [reflexivity|]. split; [exact Hrecords|]. split; [reflexivity|].
  split.
  - simpl. unfold Py.len. simpl. lia.
  - simpl. assert (Hfirst : In first (idle_records ip all_records))
      by (rewrite Hrecords; now left).
    apply filter_In in Hfirst. destruct Hfirst as [_ Hfirst].
    apply andb_prop in Hfirst. destruct Hfirst as [_ Hidle].
    rewrite has_idle_positions, idle_positions_are_indices in Hidle.
    destruct (idle_indices first); [discriminate|]. discriminate.
Qed.

(** ** Integers as doubles

    [float(n)] is specified by [binary_normalize]: the integer is shifted
    to 53 significant bits and rounded to nearest, ties to even.  The
    lemmas below follow the shifts. *)

Lemma digits2_pos_size (p : positive) : digits2_pos p = Pos.size p.
Proof. induction p; simpl; congruence. Qed.

Lemma digits2_log2 (p : positive) : Zpos (digits2_pos p) = Z.log2 (Zpos p) + 1.
Proof.
  rewrite digits2_pos_size. destruct p; simpl; try reflexivity; now rewrite Pos.add_1_r.
Qed.

Lemma digits2_bounds (p : positive) :
  2 ^ (Zpos (digits2_pos p) - 1) <= Zpos p < 2 ^ Zpos (digits2_pos p).
Proof.
  rewrite digits2_log2.
  pose proof (Z.log2_spec (Zpos p) eq_refl) as H.
  replace (Z.log2 (Zpos p) + 1 - 1) with (Z.log2 (Zpos p)) by lia.
  replace (Z.log2 (Zpos p) + 1) with (Z.succ (Z.log2 (Zpos p))) by lia. exact H.
Qed.

Lemma digits2_unique (p : positive) (d : Z) :
  2 ^ (d - 1) <= Zpos p < 2 ^ d -> Zpos (digits2_pos p) = d.
Proof.
  intros H. rewrite digits2_log2.
  assert (0 < d).
  { destruct (Z.ltb_spec 0 d); [assumption|].
    assert (2 ^ d <= 2 ^ 0)
      by (destruct (Z.eqb_spec d 0);
          [subst; lia|rewrite Z.pow_neg_r by lia; simpl; lia]).
    simpl in *. lia. }
  rewrite (Z.log2_unique (Zpos p) (d - 1)); [lia|lia|].
  replace (Z.succ (d - 1)) with d by lia. exact H.
Qed.

Lemma iter_pos_nat {A : Type} (f : A -> A) (p : positive) (x : A) :
  iter_pos f p x = Nat.iter (Pos.to_nat p) f x.
Proof.
  revert x. induction p as [p IH|p IH|]; intros x; simpl iter_pos.
  - rewrite !IH. rewrite Pos2Nat.inj_xI.
    replace (S (2 * Pos.to_nat p)) with (Pos.to_nat p + (Pos.to_nat p + 1))%nat by lia.
    rewrite !Nat.iter_add. simpl. reflexivity.
  - rewrite !IH. rewrite Pos2Nat.inj_xO.
    replace (2 * Pos.to_nat p)%nat with (Pos.to_nat p + Pos.to_nat p)%nat by lia.
    now rewrite Nat.iter_add.
  - reflexivity.
Qed.

(** One shift to the right halves the mantissa and remembers the bit
    that fell off. *)
Lemma shr_1_fields (mrs : shr_record) :
  0 <= shr_m mrs ->
  shr_m (shr_1 mrs) = shr_m mrs / 2
  /\ shr_r (shr_1 mrs) = Z.odd (shr_m mrs)
  /\ shr_s (shr_1 mrs) = shr_r mrs || shr_s mrs.
Proof.
  destruct mrs as [m r s]. simpl. intros Hm.
  destruct m as [|[p|p|]|p]; simpl; try lia; try (split; [|split]; reflexivity).
  - split; [|split; reflexivity].
    rewrite Pos2Z.inj_xI. apply Z.div_unique with 1; lia.
  - split; [|split; reflexivity].
    rewrite Pos2Z.inj_xO. apply Z.div_unique with 0; lia.
Qed.

Lemma shr_iter_m (k : nat) (mrs : shr_record) :
  0 <= shr_m mrs ->
  shr_m (Nat.iter k shr_1 mrs) = shr_m mrs / 2 ^ Z.of_nat k.
Proof.
  intros Hm. induction k as [|k IH].
  - simpl. now rewrite Z.div_1_r.
  - change (Nat.iter (S k) shr_1 mrs) with (shr_1 (Nat.iter k shr_1 mrs)).
    assert (Hk : 0 <= shr_m (Nat.iter k shr_1 mrs)).
    { rewrite IH. apply Z.div_pos; [assumption|]. apply Z.pow_pos_nonneg; lia. }
    destruct (shr_1_fields _ Hk) as [H1 _]. rewrite H1, IH.
    rewrite Z.div_div by (try apply Z.pow_pos_nonneg; lia).
    rewrite Nat2Z.inj_succ, Z.pow_succ_r by lia. f_equal. lia.
Qed.

Lemma shr_iter_r (k : nat) (mrs : shr_record) :
  0 <= shr_m mrs ->
  shr_r (Nat.iter (S k) shr_1 mrs) = Z.odd (shr_m mrs / 2 ^ Z.of_nat k).
Proof.
  intros Hm. change (Nat.iter (S k) shr_1 mrs) with (shr_1 (Nat.iter k shr_1 mrs)).
  assert (Hk : 0 <= shr_m (Nat.iter k shr_1 mrs)).
  { rewrite shr_iter_m by assumption. apply Z.div_pos; [assumption|].
    apply Z.pow_pos_nonneg; lia. }
  destruct (shr_1_fields _ Hk) as (_ & H2 & _). rewrite H2.
  now rewrite shr_iter_m.
Qed.

Lemma shr_nonneg (mrs : shr_record) (e n : Z) :
  0 <= shr_m mrs -> 0 <= shr_m (fst (shr mrs e n)).
Proof.
  intros Hm. destruct n as [|p|p]; simpl; try assumption.
  rewrite iter_pos_nat, shr_iter_m by assumption.
  apply Z.div_pos; [assumption|]. apply Z.pow_pos_nonneg; lia.
Qed.

Lemma shr_record_of_loc_m (m : Z) (l : location) : shr_m (shr_record_of_loc m l) = m.
Proof. destruct l as [|[]]; reflexivity. Qed.

Lemma round_nearest_even_nonneg (m : Z) (l : location) :
  0 <= m -> 0 <= round_nearest_even m l.
Proof.
  intros Hm. destruct l as [|[]]; simpl; try lia. destruct (Z.even m); lia.
Qed.

(** A rounding keeps the sign it is given and never gives a NaN. *)
Lemma binary_round_aux_sign (s : bool) (m e : Z) (l : location) :
  0 <= m ->
  match binary_round_aux prec emax s m e l with
  | S754_zero s' | S754_infinity s' | S754_finite s' _ _ => s' = s
  | S754_nan => False
  end.
Proof.
  intros Hm. unfold binary_round_aux, shr_fexp.
  destruct (shr (shr_record_of_loc m l) e
              (fexp prec emax (Zdigits2 m + e) - e)) as [mrs' e'] eqn:E1.
  assert (H1 : 0 <= shr_m mrs').
  { change mrs' with (fst (mrs', e')). rewrite <- E1. apply shr_nonneg.
    now rewrite shr_record_of_loc_m. }
  set (m1 := round_nearest_even (shr_m mrs') (loc_of_shr_record mrs')).
  assert (H2 : 0 <= m1) by now apply round_nearest_even_nonneg.
  destruct (shr (shr_record_of_loc m1 loc_Exact) e'
              (fexp prec emax (Zdigits2 m1 + e') - e')) as [mrs'' e''] eqn:E2.
  assert (H3 : 0 <= shr_m mrs'').
  { change mrs'' with (fst (mrs'', e'')). rewrite <- E2. apply shr_nonneg.
    simpl. exact H2. }
  destruct (shr_m mrs'') as [|p|p]; [reflexivity| |lia].
  destruct (e'' <=? emax - prec); reflexivity.
Qed.

Lemma fexp_normal (e : Z) : -1021 <= e -> fexp prec emax e = e - 53.
Proof. intros H. unfold fexp, SpecFloat.emin, prec, emax. lia. Qed.

(** A mantissa of 53 digits needs no rounding. *)
Lemma binary_round_aux_canonical (s : bool) (m : positive) (e : Z) :
  Zpos (digits2_pos m) = 53 -> -1074 <= e ->
  binary_round_aux prec emax s (Zpos m) e loc_Exact
  = if e <=? 971 then S754_finite s m e else S754_infinity s.
Proof.
  intros Hd He. unfold binary_round_aux, shr_fexp.
  cbn [Zdigits2 round_nearest_even shr_record_of_loc]. rewrite Hd.
  rewrite fexp_normal by lia.
  replace (53 + e - 53 - e) with 0 by lia.
  cbn [shr shr_m loc_of_shr_record round_nearest_even shr_record_of_loc Zdigits2].
  rewrite Hd, fexp_normal by lia.
  replace (53 + e - 53 - e) with 0 by lia.
  cbn [shr shr_m]. reflexivity.
Qed.

Lemma bounded_canonical (m : positive) (e : Z) :
  Zpos (digits2_pos m) = 53 -> -1074 <= e <= 971 ->
  bounded prec emax m e = true.
Proof.
  intros Hd He. unfold bounded, canonical_mantissa. rewrite Hd.
  rewrite fexp_normal by lia. apply andb_true_intro. split.
  - apply Z.eqb_eq. lia.
  - apply Z.leb_le. unfold emax, prec. lia.
Qed.

Lemma iter_xO (m k : positive) : Zpos (Pos.iter xO m k) = Zpos m * 2 ^ Zpos k.
Proof.
  induction k as [|k IH] using Pos.peano_ind.
  - simpl. lia.
  - rewrite Pos.iter_succ, Pos2Z.inj_xO, IH, Pos2Z.inj_succ, Z.pow_succ_r by lia. lia.
Qed.

Lemma pow2_pos (k : Z) : 0 <= k -> 0 < 2 ^ k.
Proof. intros H. apply Z.pow_pos_nonneg; lia. Qed.

Lemma pow2_split (a b : Z) : 0 <= a -> 0 <= b -> 2 ^ (a + b) = 2 ^ a * 2 ^ b.
Proof. intros Ha Hb. now apply Z.pow_add_r. Qed.

Lemma pow2_mono (a b : Z) : 0 <= a <= b -> 2 ^ a <= 2 ^ b.
Proof. intros H. apply Z.pow_le_mono_r; lia. Qed.

(** An integer of at most 53 bits is shifted left and kept as it is. *)
Lemma binary_round_int_small (s : bool) (m : positive) :
  Zpos (digits2_pos m) <= 53 ->
  exists m',
    binary_round prec emax s m 0
    = S754_finite s m' (Zpos (digits2_pos m) - 53)
    /\ Zpos (digits2_pos m') = 53.
Proof.
  intros Hd. pose proof (digits2_bounds m) as Hb.
  set (d := Zpos (digits2_pos m)) in *.
  assert (Hd1 : 1 <= d) by (unfold d; lia).
  unfold binary_round. fold d. rewrite Z.add_0_r, fexp_normal by lia.
  unfold shl_align. rewrite Z.sub_0_r.
  destruct (d - 53) as [|k|k] eqn:Ek; [| lia |].
  - exists m. assert (H : d = 53) by (clear - Ek; lia).
    rewrite binary_round_aux_canonical by (first [exact H|lia]).
    split; [reflexivity|exact H].
  - exists (Pos.iter xO m k).
    assert (Hk : Zpos k = 53 - d) by lia.
    assert (Hdig : Zpos (digits2_pos (Pos.iter xO m k)) = 53).
    { apply digits2_unique. rewrite iter_xO, Hk.
      assert (H52 : 2 ^ (53 - 1) = 2 ^ (d - 1) * 2 ^ (53 - d)).
      { rewrite <- pow2_split by lia. f_equal. lia. }
      assert (H53 : 2 ^ 53 = 2 ^ d * 2 ^ (53 - d)).
      { rewrite <- pow2_split by lia. f_equal. lia. }
      rewrite H52, H53. assert (HP : 0 < 2 ^ (53 - d)) by (apply pow2_pos; lia).
      split.
      - apply Z.mul_le_mono_nonneg_r; lia.
      - apply Z.mul_lt_mono_pos_r; lia. }
    rewrite binary_round_aux_canonical by (try assumption; lia).
    replace (Z.neg k <=? 971) with true by (symmetry; apply Z.leb_le; lia).
    split; [reflexivity|assumption].
Qed.

(** A longer integer loses its low bits: [q] is what is left, [r] the
    last bit lost, and the result is [q] or [q + 1]. *)
Lemma binary_round_int_large (s : bool) (m : positive) :
  53 < Zpos (digits2_pos m) ->
  let p := Zpos (digits2_pos m) - 53 in
  let q := Zpos m / 2 ^ p in
  let r := Z.odd (Zpos m / 2 ^ (p - 1)) in
  2 ^ 52 <= q < 2 ^ 53
  /\ exists q',
    q <= q' <= q + 1
    /\ (r = false -> q' = q)
    /\ (r = true -> Z.odd q = true -> q' = q + 1)
    /\ binary_round prec emax s m 0
       = if q' <? 2 ^ 53
         then if p <=? 971 then S754_finite s (Z.to_pos q') p else S754_infinity s
         else if p + 1 <=? 971 then S754_finite s (Z.to_pos (2 ^ 52)) (p + 1)
              else S754_infinity s.
Proof.
  intros Hd p q r. pose proof (digits2_bounds m) as Hb.
  set (d := Zpos (digits2_pos m)) in *.
  assert (Hp : 0 < p) by (unfold p; lia).
  assert (Hq : 2 ^ 52 <= q < 2 ^ 53).
  { unfold q. replace (d - 1) with (52 + p) in Hb by (unfold p; lia).
    replace d with (53 + p) in Hb by (unfold p; lia).
    rewrite !pow2_split in Hb by lia. pose proof (pow2_pos p).
    split.
    - apply Z.div_le_lower_bound; lia.
    - apply Z.div_lt_upper_bound; lia. }
  split; [exact Hq|].
  unfold binary_round. fold d. rewrite Z.add_0_r, fexp_normal by lia.
  unfold shl_align. rewrite Z.sub_0_r. fold p.
  destruct p as [|pp|pp] eqn:Ep; [lia| |lia].
  unfold binary_round_aux, shr_fexp.
  cbn [Zdigits2 shr_record_of_loc]. fold d.
  rewrite Z.add_0_r, fexp_normal by lia. rewrite Z.sub_0_r. fold p. rewrite Ep.
  cbn [shr]. rewrite iter_pos_nat.
  set (mrs := Nat.iter (Pos.to_nat pp) shr_1
                {| shr_m := Zpos m; shr_r := false; shr_s := false |}).
  assert (Hm : shr_m mrs = q).
  { unfold mrs. rewrite shr_iter_m by (simpl; lia). simpl shr_m.
    unfold q. now rewrite positive_nat_Z. }
  assert (Hr : shr_r mrs = r).
  { unfold mrs. destruct (Pos2Nat.is_succ pp) as [k Hk]. rewrite Hk.
    rewrite shr_iter_r by (simpl; lia). simpl shr_m. unfold r.
    f_equal. f_equal. f_equal. lia. }
  set (q' := round_nearest_even (shr_m mrs) (loc_of_shr_record mrs)).
  exists q'.
  assert (Hq' : q <= q' <= q + 1
                /\ (r = false -> q' = q)
                /\ (r = true -> Z.odd q = true -> q' = q + 1)).
  { unfold q'. rewrite Hm. rewrite <- Hr.
    destruct mrs as [m0 r0 s0]. simpl shr_r. simpl loc_of_shr_record.
    rewrite <- Z.negb_even.
    destruct r0, s0; simpl; destruct (Z.even q); simpl; repeat split;
      intros; try lia; try discriminate. }
  destruct Hq' as (Hq1 & Hq2 & Hq3).
  split; [exact Hq1|]. split; [exact Hq2|]. split; [exact Hq3|].
  rewrite Z.add_0_l.
  destruct (Z.ltb_spec q' (2 ^ 53)) as [Hlt|Hge].
  - assert (Hdig : Zdigits2 q' = 53).
    { destruct q' as [|qq|qq] eqn:Eq; [lia| |lia].
      simpl. apply digits2_unique. change (53 - 1) with 52. lia. }
    rewrite Hdig, fexp_normal by lia.
    replace (53 + Z.pos pp - 53 - Z.pos pp) with 0 by lia.
    cbn [shr shr_record_of_loc shr_m].
    destruct q' as [|qq|qq]; [lia| |lia]. reflexivity.
  - assert (Heq : q' = 2 ^ 53) by lia.
    rewrite Heq. change (Zdigits2 (2 ^ 53)) with 54.
    rewrite fexp_normal by lia.
    replace (54 + Z.pos pp - 53 - Z.pos pp) with 1 by lia.
    reflexivity.
Qed.

(** The positive integers below [2^1024 - 2^970] round to a finite
    double, the others to infinity. *)
Lemma binary_round_int (s : bool) (m : positive) :
  if Zpos m <? 2 ^ 1024 - 2 ^ 970
  then exists m' e',
      binary_round prec emax s m 0 = S754_finite s m' e'
      /\ bounded prec emax m' e' = true
  else binary_round prec emax s m 0 = S754_infinity s.
Proof.
  pose proof (digits2_bounds m) as Hb.
  assert (Hd1 : 1 <= Zpos (digits2_pos m)) by lia.
  assert (E1024 : 2 ^ 1024 = 2 ^ 54 * 2 ^ 970) by reflexivity.
  assert (E1023 : 2 ^ 1023 = 2 ^ 53 * 2 ^ 970) by reflexivity.
  assert (E971 : 2 ^ 971 = 2 ^ 970 * 2) by reflexivity.
  assert (HP : 0 < 2 ^ 970) by (apply pow2_pos; lia).
  rewrite E1024.
  destruct (Z.leb_spec (Zpos (digits2_pos m)) 53) as [Hsmall|Hlarge].
  - destruct (binary_round_int_small s m Hsmall) as (m' & Hround & Hdig).
    assert (Hlt : Zpos m < 2 ^ 53).
    { pose proof (pow2_mono (Zpos (digits2_pos m)) 53). lia. }
    replace (Zpos m <? 2 ^ 54 * 2 ^ 970 - 2 ^ 970) with true
      by (symmetry; apply Z.ltb_lt; change (2 ^ 53) with 9007199254740992 in Hlt;
          change (2 ^ 54) with 18014398509481984; generalize dependent (2 ^ 970);
          intros; nia).
    exists m', (Zpos (digits2_pos m) - 53). split; [exact Hround|].
    apply bounded_canonical; [exact Hdig|lia].
  - destruct (binary_round_int_large s m Hlarge)
      as (Hq & q' & Hq1 & Hq2 & Hq3 & Hround).
    set (d := Zpos (digits2_pos m)) in *.
    set (p := d - 53) in *.
    set (q := Zpos m / 2 ^ p) in *.
    set (r := Z.odd (Zpos m / 2 ^ (p - 1))) in *.
    assert (Hfinite : forall mm ee,
               Zpos (digits2_pos mm) = 53 -> 0 <= ee <= 971 ->
               exists m' e',
                 S754_finite s mm ee = S754_finite s m' e'
                 /\ bounded prec emax m' e' = true).
    { intros mm ee Hdig Hee. exists mm, ee. split; [reflexivity|].
      apply bounded_canonical; [exact Hdig|lia]. }
    assert (Hdig' : q' < 2 ^ 53 -> Zpos (digits2_pos (Z.to_pos q')) = 53).
    { intros Hlt. apply digits2_unique. rewrite Z2Pos.id by lia.
      change (53 - 1) with 52. lia. }
    destruct (Z.leb_spec p 970) as [Hp|Hp].
    + (* at most 1023 bits *)
      assert (Hlt : Zpos m < 2 ^ 1023).
      { pose proof (pow2_mono d 1023). lia. }
      rewrite E1023 in Hlt.
      replace (Zpos m <? 2 ^ 54 * 2 ^ 970 - 2 ^ 970) with true
        by (symmetry; apply Z.ltb_lt; change (2 ^ 53) with 9007199254740992 in Hlt;
            change (2 ^ 54) with 18014398509481984; generalize dependent (2 ^ 970);
            intros; nia).
      rewrite Hround.
      replace (p <=? 971) with true by (symmetry; apply Z.leb_le; lia).
      replace (p + 1 <=? 971) with true by (symmetry; apply Z.leb_le; lia).
      destruct (Z.ltb_spec q' (2 ^ 53)) as [Hlt'|Hge'].
      * apply Hfinite; [now apply Hdig'|lia].
      * apply Hfinite; [reflexivity|lia].
    + destruct (Z.eqb_spec p 971) as [Hp1|Hp1].
      * (* 1024 bits: the 54 leading bits decide *)
        set (h := Zpos m / 2 ^ 970).
        assert (Hh : q = h / 2).
        { unfold q, h. rewrite Hp1, E971. rewrite Z.div_div by lia. reflexivity. }
        assert (Hr : r = Z.odd h).
        { unfold r, h. rewrite Hp1. reflexivity. }
        assert (Hm : Zpos m < 2 ^ 54 * 2 ^ 970).
        { rewrite <- E1024. replace 1024 with d by lia. lia. }
        assert (Hhub : h < 2 ^ 54).
        { unfold h. apply Z.div_lt_upper_bound; lia. }
        destruct (Z.ltb_spec (Zpos m) (2 ^ 54 * 2 ^ 970 - 2 ^ 970)) as [Hin|Hout].
        -- assert (Hh2 : h < 2 ^ 54 - 1).
           { unfold h. apply Z.div_lt_upper_bound; lia. }
           assert (Hlt' : q' < 2 ^ 53).
           { destruct (Z.eqb_spec h (2 ^ 54 - 2)) as [Heq|Hne].
             - assert (Hr0 : r = false) by (rewrite Hr, Heq; reflexivity).
               rewrite (Hq2 Hr0). lia.
             - assert (q < 2 ^ 53 - 1).
               { rewrite Hh. apply Z.div_lt_upper_bound; lia. }
               lia. }
           rewrite Hround.
           replace (q' <? 2 ^ 53) with true by (symmetry; apply Z.ltb_lt; lia).
           replace (p <=? 971) with true by (symmetry; apply Z.leb_le; lia).
           apply Hfinite; [now apply Hdig'|lia].
        -- assert (Hh2 : 2 ^ 54 - 1 <= h).
           { unfold h. apply Z.div_le_lower_bound; lia. }
           assert (Heq : h = 2 ^ 54 - 1) by lia.
           assert (Hr1 : r = true) by (rewrite Hr, Heq; reflexivity).
           assert (Hqv : q = 2 ^ 53 - 1) by (rewrite Hh, Heq; reflexivity).
           assert (Hodd : Z.odd q = true) by (rewrite Hqv; reflexivity).
           rewrite Hround, (Hq3 Hr1 Hodd), Hqv.
           replace (p + 1 <=? 971) with false by (symmetry; apply Z.leb_gt; lia).
           reflexivity.
      * (* more than 1024 bits *)
        assert (Hge : 2 ^ 1024 <= Zpos m).
        { pose proof (pow2_mono 1024 (d - 1)). lia. }
        rewrite E1024 in Hge.
        replace (Zpos m <? 2 ^ 54 * 2 ^ 970 - 2 ^ 970) with false
          by (symmetry; apply Z.ltb_ge; lia).
        rewrite Hround.
        replace (p <=? 971) with false by (symmetry; apply Z.leb_gt; lia).
        replace (p + 1 <=? 971) with false by (symmetry; apply Z.leb_gt; lia).
        now destruct (q' <? 2 ^ 53).
Qed.

Lemma binary_normalize_int (n : Z) :
  if PyFloat.too_large n
  then exists s, binary_normalize prec emax n 0 false = S754_infinity s
  else valid_binary (binary_normalize prec emax n 0 false) = true
       /\ match binary_normalize prec emax n 0 false with
          | S754_zero s => n = 0 /\ s = false
          | S754_finite s _ _ => n <> 0 /\ s = (n <? 0)
          | _ => False
          end.
Proof.
  unfold PyFloat.too_large. rewrite Z.leb_antisym.
  destruct n as [|m|m]; cbn [binary_normalize Z.abs].
  - simpl. split; [reflexivity|now split].
  - pose proof (binary_round_int false m) as H.
    destruct (Zpos m <? 2 ^ 1024 - 2 ^ 970); cbn [negb].
    + destruct H as (m' & e' & -> & Hb). split; [exact Hb|]. split; [lia|reflexivity].
    + eexists. exact H.
  - pose proof (binary_round_int true m) as H.
    destruct (Zpos m <? 2 ^ 1024 - 2 ^ 970); cbn [negb].
    + destruct H as (m' & e' & -> & Hb). split; [exact Hb|]. split; [lia|reflexivity].
    + eexists. exact H.
Qed.

(** [float(n)] raises [OverflowError] for the integers that are too
    large and gives the nearest double for all others. *)
Lemma of_int_binary64 (n : Z) :
  PyFloat.of_int (F := float) n
  = if PyFloat.too_large n then Py.Raise Py.OverflowError
    else Py.Ok (PyFloat.nearest n).
Proof.
  change (PyFloat.of_int (F := float) n) with (PyFloat.binary64_of_int n).
  unfold PyFloat.binary64_of_int, PyFloat.nearest.
  pose proof (binary_normalize_int n) as H.
  destruct (PyFloat.too_large n).
  - destruct H as [s ->]. reflexivity.
  - destruct H as [_ H].
    destruct (binary_normalize prec emax n 0 false); try reflexivity; contradiction.
Qed.

Lemma prim_of_nearest (n : Z) :
  PyFloat.too_large n = false ->
  Prim2SF (PyFloat.nearest n) = binary_normalize prec emax n 0 false.
Proof.
  intros Hn. pose proof (binary_normalize_int n) as H. rewrite Hn in H.
  unfold PyFloat.nearest. now apply Prim2SF_SF2Prim.
Qed.

Lemma is_zero_spec (x : float) :
  PrimFloat.is_zero x
  = match Prim2SF x with S754_zero _ => true | _ => false end.
Proof.
  unfold PrimFloat.is_zero. rewrite eqb_spec.
  change (Prim2SF zero) with (S754_zero false).
  destruct (Prim2SF x) as [s|s| |s m e]; try reflexivity; now destruct s.
Qed.

(** The double of an integer is zero only for the integer 0: a divisor
    that is not 0 before the conversion is not 0 after it. *)
Lemma nearest_is_zero (n : Z) :
  PyFloat.too_large n = false ->
  PyFloat.is_zero (PyFloat.nearest n) = (n =? 0).
Proof.
  intros Hn. change (PyFloat.is_zero (PyFloat.nearest n))
    with (PrimFloat.is_zero (PyFloat.nearest n)).
  rewrite is_zero_spec, prim_of_nearest by assumption.
  pose proof (binary_normalize_int n) as H. rewrite Hn in H. destruct H as [_ H].
  destruct (binary_normalize prec emax n 0 false); try contradiction.
  - destruct H as [-> _]. reflexivity.
  - destruct H as [H _]. symmetry. now apply Z.eqb_neq.
Qed.

Lemma truediv_nearest (x : float) (n : Z) :
  PyFloat.too_large n = false -> n <> 0 ->
  PyFloat.truediv x (PyFloat.nearest n) = Py.Ok (x / PyFloat.nearest n)%float.
Proof.
  intros Hn Hnz. unfold PyFloat.truediv. rewrite nearest_is_zero by assumption.
  apply Z.eqb_neq in Hnz. now rewrite Hnz.
Qed.

(** ** The second loop of the summary, entry by entry *)

(** With a window other than 0, the row of an entry is computed unless
    one of its integers has no double; no divisor is zero. *)
Lemma summary_row_binary64 (self : CoreStateAtBranchEventAnalyzer.t)
      (ip : string) (stats : PatternStats.t) :
  CoreStateAtBranchEventAnalyzer.observation_window self <> 0 ->
  1 <= PatternStats.count stats ->
  PatternStats.idle_positions stats <> [] ->
  CoreStateAtBranchEventAnalyzer.summary_row self ip stats
  = if converts self stats then Py.Ok (binary64_row self (ip, stats))
    else Py.Raise Py.OverflowError.
Proof.
  intros Hwindow Hcount Hpositions.
  assert (Hlen : Py.len (PatternStats.idle_positions stats) <> 0).
  { unfold Py.len. destruct (PatternStats.idle_positions stats);
      [contradiction|]. simpl. lia. }
  assert (Hsamples : PatternStats.count stats
                     * CoreStateAtBranchEventAnalyzer.observation_window self <> 0)
    by nia.
  assert (Hrecords : PatternStats.count stats <> 0) by lia.
  assert (H100 : PyFloat.too_large 100 = false) by reflexivity.
  unfold CoreStateAtBranchEventAnalyzer.summary_row, converts, binary64_row.
  cbn [fst snd]. rewrite !of_int_binary64, H100.
  destruct (PyFloat.too_large (Py.sum (PatternStats.idle_positions stats)));
    [reflexivity|].
  destruct (PyFloat.too_large (Py.len (PatternStats.idle_positions stats))) eqn:E2;
    [reflexivity|].
  cbn [Py.bind negb andb]. rewrite truediv_nearest by assumption. cbn [Py.bind].
  destruct (PyFloat.too_large
              (PatternStats.count stats
               * CoreStateAtBranchEventAnalyzer.observation_window self)) eqn:E3;
    [reflexivity|].
  cbn [Py.bind negb andb]. rewrite truediv_nearest by assumption. cbn [Py.bind].
  destruct (PyFloat.too_large (PatternStats.branch_taken_count stats));
    [reflexivity|].
  destruct (PyFloat.too_large (PatternStats.count stats)) eqn:E5; [reflexivity|].
  cbn [Py.bind negb andb]. rewrite truediv_nearest by assumption. reflexivity.
Qed.

Lemma write_rows_binary64 (self : CoreStateAtBranchEventAnalyzer.t)
      (entries : list (string * PatternStats.t)) :
  CoreStateAtBranchEventAnalyzer.observation_window self <> 0 ->
  (forall key stats,
      In (key, stats) entries ->
      1 <= PatternStats.count stats /\ PatternStats.idle_positions stats <> []) ->
  CoreStateAtBranchEventAnalyzer.write_rows self entries
  = (map (binary64_row self) (convertible_prefix self entries),
     if forallb (fun entry => converts self (snd entry)) entries then None
     else Some Py.OverflowError).
Proof.
  intros Hwindow. induction entries as [|[key stats] entries IH]; intros Hgood;
    cbn [CoreStateAtBranchEventAnalyzer.write_rows convertible_prefix forallb map snd];
    [reflexivity|].
  destruct (Hgood key stats (or_introl eq_refl)) as [Hcount Hpositions].
  rewrite summary_row_binary64 by assumption.
  destruct (converts self stats); [|reflexivity].
  rewrite IH; [reflexivity|]. intros k s Hin. apply (Hgood k s). now right.
Qed.

Lemma generate_binary64 (self : CoreStateAtBranchEventAnalyzer.t)
      (all_records : list BranchRecord.t) :
  CoreStateAtBranchEventAnalyzer.observation_window self <> 0 ->
  let pattern_stats := CoreStateAtBranchEventAnalyzer.pattern_stats_of all_records in
  CoreStateAtBranchEventAnalyzer.generate_analysis_summary self all_records
  = (map (binary64_row self) (convertible_prefix self pattern_stats),
     if forallb (fun entry => converts self (snd entry)) pattern_stats then None
     else Some Py.OverflowError).
Proof.
  intros Hwindow pattern_stats.
  unfold CoreStateAtBranchEventAnalyzer.generate_analysis_summary.
  apply write_rows_binary64; [assumption|].
  intros key stats Hin.
  destruct (pattern_stats_entries all_records key stats Hin)
    as (ip & first & rest & _ & _ & _ & Hcount & Hpositions).
  now split.
Qed.

Lemma count_record_grows (pattern_stats : Py.dict string PatternStats.t)
      (record : BranchRecord.t) (key : string) (stats : PatternStats.t) :
  Py.get pattern_stats key = Some stats ->
  exists stats',
    Py.get (CoreStateAtBranchEventAnalyzer.count_record pattern_stats record) key
    = Some stats'
    /\ PatternStats.count stats <= PatternStats.count stats'.
Proof.
  intros Hget. unfold CoreStateAtBranchEventAnalyzer.count_record.
  destruct (CoreStateAtBranchEventAnalyzer.idle_positions_of record) as [|z l].
  { exists stats. split; [assumption|lia]. }
  destruct (String.eqb (Py.hex (BranchRecord.ip record)) key) eqn:E.
  - apply String.eqb_eq in E. subst key. rewrite Hget.
    rewrite get_setitem_same. eexists. split; [reflexivity|]. simpl. lia.
  - apply String.eqb_neq in E.
    destruct (Py.get pattern_stats (Py.hex (BranchRecord.ip record)));
      rewrite get_setitem_other by assumption;
      exists stats; (split; [assumption|lia]).
Qed.

Lemma convertible_prefix_all (self : CoreStateAtBranchEventAnalyzer.t)
      (entries : list (string * PatternStats.t)) :
  forallb (fun entry => converts self (snd entry)) entries = true ->
  convertible_prefix self entries = entries.
Proof.
  induction entries as [|entry entries IH]; cbn [convertible_prefix forallb];
    intros Hall; [reflexivity|].
  apply andb_prop in Hall. destruct Hall as [Hentry Hall].
  now rewrite Hentry, IH.
Qed.

Lemma convertible_prefix_length (self : CoreStateAtBranchEventAnalyzer.t)
      (entries : list (string * PatternStats.t)) :
  (List.length (convertible_prefix self entries) <= List.length entries)%nat.
Proof.
  induction entries as [|entry entries IH]; cbn [convertible_prefix List.length];
    [lia|].
  destruct (converts self (snd entry)); cbn [List.length]; lia.
Qed.

Lemma forallb_false {A : Type} (p : A -> bool) (l : list A) :
  forallb p l = false -> exists x, In x l /\ p x = false.
Proof.
  induction l as [|x l IH]; simpl; [discriminate|].
  destruct (p x) eqn:E; simpl.
  - intros H. destruct (IH H) as (y & Hin & Hy). exists y. split; [now right|exact Hy].
  - intros _. exists x. split; [now left|exact E].
Qed.

(** C10. With [observation_window != 0] no division of the summary has a
    zero divisor.  Every entry of [pattern_stats] has a [count] of at
    least 1 and a non-empty [idle_positions], and one more record never
    lowers the [count] of an entry; so the three divisors,
    [len(idle_positions)], [count * observation_window] and [count], are
    not zero, and neither are the doubles they are converted to.  The row
    of an entry is computed unless one of its integers is too large for a
    double, [2^1024 - 2^970] or more in magnitude: then the conversion
    raises [OverflowError], which is the only exception the summary can
    end with.  When every entry converts, every row is written. *)
Theorem summary_divisions_are_safe
        (self : CoreStateAtBranchEventAnalyzer.t) (all_records : list BranchRecord.t) :
  CoreStateAtBranchEventAnalyzer.observation_window self <> 0 ->
  let pattern_stats := CoreStateAtBranchEventAnalyzer.pattern_stats_of all_records in
  let summary :=
    CoreStateAtBranchEventAnalyzer.generate_analysis_summary
      (F := float) self all_records in
  (forall key stats,
      In (key, stats) pattern_stats ->
      1 <= PatternStats.count stats
      /\ PatternStats.idle_positions stats <> []
      /\ (forall divisor,
             In divisor
                [Py.len (PatternStats.idle_positions stats);
                 PatternStats.count stats
                 * CoreStateAtBranchEventAnalyzer.observation_window self;
                 PatternStats.count stats] ->
             divisor <> 0
             /\ forall x : float,
                 PyFloat.of_int divisor = Py.Ok x -> PyFloat.is_zero x = false)
      /\ CoreStateAtBranchEventAnalyzer.summary_row self key stats
         = if converts self stats then Py.Ok (binary64_row self (key, stats))
           else Py.Raise Py.OverflowError)
  /\ (forall seen record key stats,
         Py.get seen key = Some stats ->
         exists stats',
           Py.get (CoreStateAtBranchEventAnalyzer.count_record seen record) key
           = Some stats'
           /\ PatternStats.count stats <= PatternStats.count stats')
  /\ snd summary <> Some Py.ZeroDivisionError
  /\ (forall e,
         snd summary = Some e ->
         e = Py.OverflowError
         /\ exists key stats,
             In (key, stats) pattern_stats /\ converts self stats = false)
  /\ (forallb (fun entry => converts self (snd entry)) pattern_stats = true ->
      snd summary = None
      /\ List.length (fst summary) = List.length pattern_stats).
Proof.
  intros Hwindow pattern_stats summary.
  assert (Hsummary :
            summary
            = (map (binary64_row self) (convertible_prefix self pattern_stats),
               if forallb (fun entry => converts self (snd entry)) pattern_stats
               then None else Some Py.OverflowError))
    by now apply generate_binary64.
  split; [|split; [|split; [|split]]].
  - intros key stats Hin.
    destruct (pattern_stats_entries all_records key stats Hin)
      as (ip & first & rest & _ & _ & _ & Hcount & Hpositions).
    split; [assumption|]. split; [assumption|]. split.
    + assert (Hlen : Py.len (PatternStats.idle_positions stats) <> 0).
      { unfold Py.len. destruct (PatternStats.idle_positions stats);
          [contradiction|]. simpl. lia. }
      intros divisor Hdivisor.
      assert (Hnz : divisor <> 0).
      { destruct Hdivisor as [<-|[<-|[<-|[]]]]; [assumption|nia|lia]. }
      split; [exact Hnz|]. intros x Hx. rewrite of_int_binary64 in Hx.
      destruct (PyFloat.too_large divisor) eqn:Hlarge; [discriminate|].
      inversion Hx. subst x. rewrite nearest_is_zero by assumption.
      now apply Z.eqb_neq.
    + now apply summary_row_binary64.
  - intros seen record key stats. apply count_record_grows.
  - rewrite Hsummary. cbn [snd].
    destruct (forallb _ pattern_stats); discriminate.
  - intros e. rewrite Hsummary. cbn [snd].
    destruct (forallb (fun entry => converts self (snd entry)) pattern_stats) eqn:Hall;
      [discriminate|].
    intros He. inversion He. split; [reflexivity|].
    apply forallb_false in Hall. destruct Hall as ([key stats] & Hin & Hconv).
    exists key, stats. split; [exact Hin|exact Hconv].
  - intros Hall. rewrite Hsummary. cbn [fst snd]. rewrite Hall.
    split; [reflexivity|]. rewrite length_map. now rewrite convertible_prefix_all.
Qed.

Lemma summary_divisions_are_safe_witness :
  CoreStateAtBranchEventAnalyzer.observation_window example_analyzer <> 0
  /\ snd (CoreStateAtBranchEventAnalyzer.generate_analysis_summary
            (F := float) example_analyzer example_records)
     <> Some Py.ZeroDivisionError.
Proof.
  assert (Hwindow :
            CoreStateAtBranchEventAnalyzer.observation_window example_analyzer <> 0)
    by discriminate.
  split; [exact Hwindow|].
  exact (proj1 (proj2 (proj2
           (summary_divisions_are_safe example_analyzer example_records Hwindow)))).
Defined.

(** C10 does not hold as it stands: with a window that is not 0 a
    division of the summary can still raise.  [setup] accepts the decimal
    text of [2^1024]; the divisor [count * observation_window] of line 217
    then has no double, its conversion for the division raises
    [OverflowError], and the summary file gets its header and no row
    although the record has an IDLE sample. *)
Lemma summary_overflows_with_large_window :
  exists self,
    large_window_run = Py.Ok self
    /\ CoreStateAtBranchEventAnalyzer.observation_window self = 2 ^ 1024
    /\ CoreStateAtBranchEventAnalyzer.observation_window self <> 0
    /\ (exists record,
           In record (CoreStateAtBranchEventAnalyzer.all_completed_records self)
           /\ BranchRecord.ip record = 4198400
           /\ In (1000000000, IDLE) (BranchRecord.states record))
    /\ CoreStateAtBranchEventAnalyzer.generate_analysis_summary
         (F := float) self (CoreStateAtBranchEventAnalyzer.all_completed_records self)
       = ([], Some Py.OverflowError)
    /\ Py.get (fst (CoreStateAtBranchEventAnalyzer.hook_sim_end (F := float) self []))
              (CoreStateAtBranchEventAnalyzer.analysis_summary_file self)
       = Some CoreStateAtBranchEventAnalyzer.analysis_summary_header.
Proof.
  eexists. split; [vm_compute; reflexivity|].
  split; [reflexivity|]. split; [discriminate|]. split.
  - eexists. split; [left; reflexivity|]. split; [reflexivity|]. now left.
  - split; vm_compute; reflexivity.
Qed.

(** C2 does not hold for a window of 0, which [setup] accepts: the first
    division by [count * observation_window] raises.  The record of the
    run has an IDLE sample, yet the summary file gets its header and no
    row. *)
Lemma summary_fails_with_zero_window :
  exists self,
    zero_window_run = Py.Ok self
    /\ CoreStateAtBranchEventAnalyzer.observation_window self = 0
    /\ (exists record,
           In record (CoreStateAtBranchEventAnalyzer.all_completed_records self)
           /\ BranchRecord.ip record = 4198400
           /\ In (1000000000, IDLE) (BranchRecord.states record))
    /\ CoreStateAtBranchEventAnalyzer.generate_analysis_summary
         (F := float) self (CoreStateAtBranchEventAnalyzer.all_completed_records self)
       = ([], Some Py.ZeroDivisionError)
    /\ Py.get (fst (CoreStateAtBranchEventAnalyzer.hook_sim_end (F := float) self []))
              (CoreStateAtBranchEventAnalyzer.analysis_summary_file self)
       = Some CoreStateAtBranchEventAnalyzer.analysis_summary_header.
Proof.
  eexists. split; [vm_compute; reflexivity|].
  split; [reflexivity|]. split.
  - eexists. split; [left; reflexivity|]. split; [reflexivity|]. now left.
  - split; vm_compute; reflexivity.
Qed.

Lemma entries_convert (self : CoreStateAtBranchEventAnalyzer.t)
      (all_records : list BranchRecord.t) :
  (forall ip,
      converts self (expected_stats (idle_records ip all_records)) = true) ->
  forallb (fun entry => converts self (snd entry))
          (CoreStateAtBranchEventAnalyzer.pattern_stats_of all_records) = true.
Proof.
  intros Hfit. apply forallb_forall. intros [key stats] Hin.
  destruct (pattern_stats_entries all_records key stats Hin)
    as (ip & first & rest & _ & Hrecords & -> & _).
  cbn [snd]. rewrite <- Hrecords. apply Hfit.
Qed.

(** C2, for a window other than 0 and integers that have a double.  The
    summary ends without an exception and has one row per [ip] for which
    some record has an IDLE sample (state 5), and no other row.  For such
    an [ip], with [records] the records of that [ip] that have an IDLE
    sample: [count] is their number, [idle_positions] lists the 0-based
    indices of their IDLE samples, record after record, and
    [branch_taken_count] is the number of them with [branch_taken].  The
    row gives [Count = count] and, computed in binary64,
    [Avg_Idle_Position = float(sum) / float(len)] of the positions,
    [Idle_Time_Percent = float(len) / float(count * observation_window) * 100.0]
    and [Branch_Taken_Ratio = float(branch_taken_count) / float(count)]:
    every conversion, division and multiplication is rounded to the
    nearest double.  Records without an IDLE sample are not in
    [records]. *)
Theorem summary_counts_idle_records
        (self : CoreStateAtBranchEventAnalyzer.t) (all_records : list BranchRecord.t) :
  CoreStateAtBranchEventAnalyzer.observation_window self <> 0 ->
  (forall ip,
      converts self (expected_stats (idle_records ip all_records)) = true) ->
  exists rows : list (SummaryRow.t float),
    CoreStateAtBranchEventAnalyzer.generate_analysis_summary self all_records
    = (rows, None)
    /\ NoDup (map SummaryRow.Branch_IP rows)
    /\ (forall ip : Z,
           In (Py.hex ip) (map SummaryRow.Branch_IP rows)
           <-> exists record,
               In record all_records
               /\ BranchRecord.ip record = ip
               /\ exists elapsed, In (elapsed, IDLE) (BranchRecord.states record))
    /\ forall row,
      In row rows ->
      exists ip stats,
        SummaryRow.Branch_IP row = Py.hex ip
        /\ Py.get (CoreStateAtBranchEventAnalyzer.pattern_stats_of all_records)
                  (Py.hex ip) = Some stats
        /\ let records := idle_records ip all_records in
           let count := PatternStats.count stats in
           let idle_positions := PatternStats.idle_positions stats in
           let branch_taken_count := PatternStats.branch_taken_count stats in
           records <> []
           /\ count = Py.len records
           /\ idle_positions = flat_map idle_indices records
           /\ branch_taken_count = Py.len (filter BranchRecord.branch_taken records)
           /\ SummaryRow.Count row = count
           /\ exists total size samples hundred taken number : float,
               PyFloat.of_int (Py.sum idle_positions) = Py.Ok total
               /\ PyFloat.of_int (Py.len idle_positions) = Py.Ok size
               /\ PyFloat.of_int
                    (count * CoreStateAtBranchEventAnalyzer.observation_window self)
                  = Py.Ok samples
               /\ PyFloat.of_int 100 = Py.Ok hundred
               /\ PyFloat.of_int branch_taken_count = Py.Ok taken
               /\ PyFloat.of_int count = Py.Ok number
               /\ SummaryRow.Avg_Idle_Position row = (total / size)%float
               /\ SummaryRow.Idle_Time_Percent row = (size / samples * hundred)%float
               /\ SummaryRow.Branch_Taken_Ratio row = (taken / number)%float.
Proof.
  intros Hwindow Hfit.
  destruct (pattern_stats_agree all_records) as (Hnd & Hkeys & Hget).
  pose proof (entries_convert self all_records Hfit) as Hall.
  pose proof (generate_binary64 self all_records Hwindow) as Hgen.
  cbv zeta in Hgen. rewrite Hall, convertible_prefix_all in Hgen by exact Hall.
  set (pattern_stats := CoreStateAtBranchEventAnalyzer.pattern_stats_of all_records) in *.
  assert (Hips : map SummaryRow.Branch_IP (map (binary64_row self) pattern_stats)
                 = Py.keys pattern_stats).
  { unfold Py.keys. rewrite map_map. now apply map_ext. }
  exists (map (binary64_row self) pattern_stats).
  split; [exact Hgen|]. split; [now rewrite Hips|]. split.
  - intros ip. rewrite Hips. split.
    + intros Hin. destruct (get_in _ _ Hin) as (stats & Hfound & _).
      rewrite Hget in Hfound. unfold expected_entry in Hfound.
      destruct (idle_records ip all_records) as [|first rest] eqn:Hrecords;
        [discriminate|].
      assert (Hfirst : In first (idle_records ip all_records))
        by (rewrite Hrecords; now left).
      apply filter_In in Hfirst. destruct Hfirst as [Hrec Hfirst].
      apply andb_prop in Hfirst. destruct Hfirst as [Hip Hidle].
      exists first. split; [assumption|]. split; [now apply Z.eqb_eq|].
      now apply has_idle_sample.
    + intros (record & Hrec & Hip & Hidle). apply has_idle_sample in Hidle.
      assert (Hrecord : In record (idle_records ip all_records)).
      { apply filter_In. split; [assumption|].
        apply andb_true_intro. split; [now apply Z.eqb_eq|assumption]. }
      specialize (Hget ip). unfold expected_entry in Hget.
      destruct (idle_records ip all_records) as [|first rest]; [contradiction|].
      apply get_some_in in Hget. unfold Py.keys.
      change (Py.hex ip) with (fst (Py.hex ip, expected_stats (first :: rest))).
      now apply in_map.
  - intros row Hrow. apply in_map_iff in Hrow.
    destruct Hrow as ([key stats] & <- & Hin).
    assert (Hconv : converts self stats = true).
    { rewrite forallb_forall in Hall. exact (Hall (key, stats) Hin). }
    destruct (pattern_stats_entries all_records key stats Hin)
      as (ip & first & rest & -> & Hrecords & Hstats & Hcount & Hpositions).
    exists ip, stats. split; [reflexivity|]. split.
    { rewrite Hget. unfold expected_entry. now rewrite Hrecords, Hstats. }
    rewrite Hrecords. cbv zeta.
    split; [discriminate|]. split; [now rewrite Hstats|].
    split; [now rewrite Hstats|]. split; [now rewrite Hstats|].
    split; [reflexivity|].
    unfold converts in Hconv.
    apply andb_prop in Hconv. destruct Hconv as [Hconv H5].
    apply andb_prop in Hconv. destruct Hconv as [Hconv H4].
    apply andb_prop in Hconv. destruct Hconv as [Hconv H3].
    apply andb_prop in Hconv. destruct Hconv as [H1 H2].
    apply negb_true_iff in H1, H2, H3, H4, H5.
    assert (H100 : PyFloat.too_large 100 = false) by reflexivity.
    do 6 eexists. rewrite !of_int_binary64, H1, H2, H3, H4, H5, H100.
    repeat (split; [reflexivity|]). reflexivity.
Qed.

Lemma example_records_convert (ip : Z) :
  converts example_analyzer (expected_stats (idle_records ip example_records)) = true.
Proof.
  unfold idle_records, example_records. cbn [filter example_record BranchRecord.ip].
  destruct (4198400 =? ip); destruct (4198416 =? ip); vm_compute; reflexivity.
Qed.

Lemma summary_counts_idle_records_witness :
  CoreStateAtBranchEventAnalyzer.observation_window example_analyzer <> 0
  /\ (forall ip,
         converts example_analyzer
                  (expected_stats (idle_records ip example_records)) = true)
  /\ exists rows : list (SummaryRow.t float),
      CoreStateAtBranchEventAnalyzer.generate_analysis_summary
        example_analyzer example_records = (rows, None)
      /\ map SummaryRow.Branch_IP rows = ["0x401000"%string]
      /\ map SummaryRow.Count rows = [2].
Proof.
  assert (Hwindow :
            CoreStateAtBranchEventAnalyzer.observation_window example_analyzer <> 0)
    by discriminate.
  split; [exact Hwindow|]. split; [exact example_records_convert|].
  destruct (summary_counts_idle_records
              example_analyzer example_records Hwindow example_records_convert)
    as (rows & Hrows & _).
  exists rows. split; [exact Hrows|].
  assert (Heq : rows = fst (CoreStateAtBranchEventAnalyzer.generate_analysis_summary
                              (F := float) example_analyzer example_records))
    by now rewrite Hrows.
  rewrite Heq. split; reflexivity.
Defined.

(** ** setup *)

Lemma split_field (field rest : string) :
  forallb (fun c => negb (Ascii.eqb c ":")) (list_ascii_of_string field) = true ->
  Py.split ":" (field ++ ":" ++ rest) = field :: Py.split ":" rest.
Proof.
  induction field as [|c field IH]; simpl; intros Hplain; [reflexivity|].
  apply andb_prop in Hplain. destruct Hplain as [Hc Hplain].
  apply negb_true_iff in Hc. rewrite Hc. specialize (IH Hplain).
  simpl in IH. now rewrite IH.
Qed.

Lemma split_last_field (field : string) :
  forallb (fun c => negb (Ascii.eqb c ":")) (list_ascii_of_string field) = true ->
  Py.split ":" field = [field].
Proof.
  induction field as [|c field IH]; simpl; intros Hplain; [reflexivity|].
  apply andb_prop in Hplain. destruct Hplain as [Hc Hplain].
  apply negb_true_iff in Hc. rewrite Hc. now rewrite IH.
Qed.

Lemma int_or_plain (text : string) (default : Z) :
  plain_field text = true ->
  CoreStateAtBranchEventAnalyzer.int_or (Some text) default = Py.int_of_str text.
Proof. destruct text; [discriminate|reflexivity]. Qed.

Lemma range_nodup (n : Z) : NoDup (Py.range n).
Proof.
  unfold Py.range. generalize (seq_NoDup (Z.to_nat n) 0).
  generalize (seq 0 (Z.to_nat n)) as l.
  induction l as [|x l IH]; simpl; intros Hnd; [constructor|].
  inversion Hnd as [|? ? Hnotin Hnd']; subst. constructor; [|now apply IH].
  intros Hin. apply in_map_iff in Hin. destruct Hin as (y & Heq & Hin).
  apply Nat2Z.inj in Heq. now subst y.
Qed.

Lemma build_analyzers {V : Type} (make : Z -> V) (cores : list Z) :
  forall analyzers : Py.dict Z V,
    NoDup (Py.keys analyzers ++ cores) ->
    fold_left (fun analyzers core_id => Py.setitem analyzers core_id (make core_id))
              cores analyzers
    = analyzers ++ map (fun core_id => (core_id, make core_id)) cores.
Proof.
  induction cores as [|core cores IH]; intros analyzers Hnd; simpl.
  - now rewrite app_nil_r.
  - rewrite setitem_fresh.
    + rewrite IH.
      * now rewrite <- app_assoc.
      * unfold Py.keys in *. rewrite map_app. simpl. now rewrite <- app_assoc.
    + apply NoDup_remove_2 in Hnd. intros Hin. apply Hnd.
      apply in_or_app. now left.
Qed.

(** C8 does not hold: the text ["0"] is accepted as the window.  [setup]
    returns normally with [observation_window] 0 in the aggregator and in
    the tracker, and the run goes on to take a branch event and a tick; a
    negative window and a non-positive period are stored in the same
    way. *)
Lemma setup_accepts_nonpositive_window :
  (exists self,
      CoreStateAtBranchEventAnalyzer.setup example_sim (Some "0"%string) = Py.Ok self
      /\ CoreStateAtBranchEventAnalyzer.observation_window self = 0
      /\ map CoreStateAnalyzer.observation_window
             (Py.values (CoreStateAtBranchEventAnalyzer.core_analyzers self)) = [0])
  /\ (exists self,
         zero_window_run = Py.Ok self
         /\ CoreStateAtBranchEventAnalyzer.total_branches self = 1
         /\ List.length (CoreStateAtBranchEventAnalyzer.all_completed_records self)
            = 1%nat)
  /\ (exists self,
         CoreStateAtBranchEventAnalyzer.setup example_sim (Some "-5:0"%string)
         = Py.Ok self
         /\ CoreStateAtBranchEventAnalyzer.observation_window self = -5
         /\ CoreStateAtBranchEventAnalyzer.sampling_period self = 0).
Proof.
  split; [|split]; eexists; (split; [vm_compute; reflexivity|]);
    split; reflexivity.
Qed.

(** C8, as the code has it.  [setup] checks neither value.  Whatever
    integers the two fields of the argument string denote, zero and
    negative ones included, [setup] returns normally, stores them as
    [observation_window] and [sampling_period], builds one tracker per
    core with exactly these values, and registers the periodic callback
    with [sampling_period * Time.US]. *)
Theorem setup_stores_arguments_unchecked
        (sim : Sim) (window_text period_text : string) (window period : Z) :
  plain_field window_text = true ->
  plain_field period_text = true ->
  Py.int_of_str window_text = Py.Ok window ->
  Py.int_of_str period_text = Py.Ok period ->
  exists self,
    CoreStateAtBranchEventAnalyzer.setup
      sim (Some (window_text ++ ":" ++ period_text)%string) = Py.Ok self
    /\ CoreStateAtBranchEventAnalyzer.observation_window self = window
    /\ CoreStateAtBranchEventAnalyzer.sampling_period self = period
    /\ CoreStateAtBranchEventAnalyzer.periodic_hook self = period * Time_US sim
    /\ CoreStateAtBranchEventAnalyzer.total_branches self = 0
    /\ CoreStateAtBranchEventAnalyzer.core_analyzers self
       = map (fun core_id =>
                (core_id,
                 CoreStateAnalyzer.__init__ core_id (output_dir sim) window period))
             (Py.range (ncores sim)).
Proof.
  intros Hwindow Hperiod Hw Hp.
  pose proof Hwindow as Hw_plain. pose proof Hperiod as Hp_plain.
  unfold plain_field in Hw_plain, Hp_plain.
  apply andb_prop in Hw_plain. destruct Hw_plain as [_ Hw_plain].
  apply andb_prop in Hp_plain. destruct Hp_plain as [_ Hp_plain].
  unfold CoreStateAtBranchEventAnalyzer.setup.
  rewrite split_field, split_last_field by assumption.
  change (Py.get (Py.enumerate [window_text; period_text]) 0)
    with (Some window_text).
  change (Py.get (Py.enumerate [window_text; period_text]) 1)
    with (Some period_text).
  rewrite !int_or_plain, Hw, Hp by assumption. cbn [Py.bind].
  eexists. split; [reflexivity|]. simpl.
  split; [reflexivity|]. split; [reflexivity|]. split; [reflexivity|].
  split; [reflexivity|].
  rewrite build_analyzers; [reflexivity|]. simpl. apply range_nodup.
Qed.

Lemma setup_stores_arguments_unchecked_witness :
  plain_field "0" = true
  /\ plain_field "-3" = true
  /\ Py.int_of_str "0" = Py.Ok 0
  /\ Py.int_of_str "-3" = Py.Ok (-3)
  /\ exists self,
      CoreStateAtBranchEventAnalyzer.setup example_sim (Some "0:-3"%string)
      = Py.Ok self
      /\ CoreStateAtBranchEventAnalyzer.observation_window self = 0
      /\ CoreStateAtBranchEventAnalyzer.sampling_period self = -3.
Proof.
  assert (H1 : plain_field "0" = true) by reflexivity.
  assert (H2 : plain_field "-3" = true) by reflexivity.
  assert (H3 : Py.int_of_str "0" = Py.Ok 0) by reflexivity.
  assert (H4 : Py.int_of_str "-3" = Py.Ok (-3)) by reflexivity.
  split; [exact H1|]. split; [exact H2|]. split; [exact H3|]. split; [exact H4|].
  destruct (setup_stores_arguments_unchecked example_sim "0" "-3" 0 (-3) H1 H2 H3 H4)
    as (self & Hsetup & Hw & Hp & _).
  exists self. split; [exact Hsetup|]. split; assumption.
Defined.

(** ** One branch and 150 idle ticks *)

Lemma tick_single (sim : Sim) (now : Probe) (self : CoreStateAnalyzer.t)
      (time time_delta k : Z) (r : BranchRecord.t) :
  CoreStateAnalyzer.active_records self = [(k, r)] ->
  time_delta <> 0 ->
  let state := dvfs_get_core_state now (CoreStateAnalyzer.core_id self) in
  CoreStateAnalyzer.collect_state_sample sim now self time time_delta
  = Py.Ok
      (if expired sim self time r
       then CoreStateAnalyzer.with_records self []
              (CoreStateAnalyzer.completed_records self ++ [sampled time state r])
       else CoreStateAnalyzer.with_records self [(k, sampled time state r)]
              (CoreStateAnalyzer.completed_records self)).
Proof.
  intros Hactive Hdelta state. rewrite tick_closed_form.
  - rewrite Hactive. unfold Py.values. cbn [filter map snd fst].
    fold state. destruct (expired sim self time r); cbn [negb map];
      rewrite ?app_nil_r; reflexivity.
  - rewrite Hactive. repeat constructor. intros [].
  - assumption.
Qed.

Lemma tick_none (sim : Sim) (now : Probe) (self : CoreStateAnalyzer.t)
      (time time_delta : Z) :
  CoreStateAnalyzer.active_records self = [] ->
  CoreStateAnalyzer.collect_state_sample sim now self time time_delta = Py.Ok self.
Proof.
  intros Hactive. unfold CoreStateAnalyzer.collect_state_sample.
  rewrite Hactive. now destruct (time_delta =? 0).
Qed.

Section Scenario.

Variables US ip : Z.
Variable taken : bool.
Hypothesis US_positive : 0 < US.

Let sim : Sim := scenario_sim US.
Let open (j : nat) : CoreStateAtBranchEventAnalyzer.t :=
  scenario_state US (scenario_tracker [(1, scenario_record US ip taken j)] []).
Let closed : CoreStateAtBranchEventAnalyzer.t :=
  scenario_state US (scenario_tracker [] [scenario_record US ip taken 101]).

Lemma scenario_sampled (j : nat) :
  sampled (Z.of_nat (S j) * US) IDLE (scenario_record US ip taken j)
  = scenario_record US ip taken (S j).
Proof.
  unfold sampled, scenario_record, BranchRecord.states_append. simpl BranchRecord.states.
  cbn [BranchRecord.event_id BranchRecord.core_id BranchRecord.ip
       BranchRecord.branch_taken BranchRecord.start_time
       BranchRecord.instruction_count].
  f_equal. rewrite seq_S, map_app. cbn [map]. do 3 f_equal. lia.
Qed.

Lemma scenario_tick_open (j : nat) :
  (j < 100)%nat ->
  CoreStateAtBranchEventAnalyzer.hook_periodic
    sim (example_probe (Z.of_nat (S j) * US) IDLE) (open j)
    (Z.of_nat (S j) * US) US
  = Py.Ok (open (S j)).
Proof.
  intros Hj. unfold CoreStateAtBranchEventAnalyzer.hook_periodic.
  cbn [CoreStateAtBranchEventAnalyzer.core_analyzers open scenario_state
       CoreStateAtBranchEventAnalyzer.collect_all].
  rewrite (tick_single sim _ _ _ _ 1 (scenario_record US ip taken j))
    by (reflexivity || lia).
  replace (expired sim _ _ _) with false.
  - cbn [Py.bind CoreStateAtBranchEventAnalyzer.collect_all].
    cbn [dvfs_get_core_state example_probe]. rewrite scenario_sampled. reflexivity.
  - symmetry. unfold expired, sim.
    cbn [CoreStateAnalyzer.observation_window scenario_tracker
         BranchRecord.start_time scenario_record Time_US scenario_sim].
    rewrite Z.gtb_ltb. apply Z.ltb_ge. nia.
Qed.

Lemma scenario_tick_close :
  CoreStateAtBranchEventAnalyzer.hook_periodic
    sim (example_probe (Z.of_nat 101 * US) IDLE) (open 100)
    (Z.of_nat 101 * US) US
  = Py.Ok closed.
Proof.
  unfold CoreStateAtBranchEventAnalyzer.hook_periodic.
  cbn [CoreStateAtBranchEventAnalyzer.core_analyzers open scenario_state
       CoreStateAtBranchEventAnalyzer.collect_all].
  rewrite (tick_single sim _ _ _ _ 1 (scenario_record US ip taken 100))
    by (reflexivity || lia).
  replace (expired sim _ _ _) with true.
  - cbn [Py.bind CoreStateAtBranchEventAnalyzer.collect_all].
    cbn [dvfs_get_core_state example_probe]. rewrite scenario_sampled. reflexivity.
  - symmetry. unfold expired, sim.
    cbn [CoreStateAnalyzer.observation_window scenario_tracker
         BranchRecord.start_time scenario_record Time_US scenario_sim].
    rewrite Z.gtb_ltb. apply Z.ltb_lt. lia.
Qed.

Lemma scenario_tick_closed (now : Probe) (time time_delta : Z) :
  CoreStateAtBranchEventAnalyzer.hook_periodic sim now closed time time_delta
  = Py.Ok closed.
Proof.
  unfold CoreStateAtBranchEventAnalyzer.hook_periodic.
  cbn [CoreStateAtBranchEventAnalyzer.core_analyzers closed scenario_state
       CoreStateAtBranchEventAnalyzer.collect_all].
  now rewrite tick_none.
Qed.

Lemma idle_ticks_open (n : nat) :
  forall j : nat,
    (j + n <= 100)%nat ->
    idle_ticks sim n (Z.of_nat (S j)) (open j) = Py.Ok (open (j + n)).
Proof.
  induction n as [|n IH]; intros j Hj; cbn [idle_ticks].
  - now rewrite Nat.add_0_r.
  - change (Time_US sim) with US. rewrite scenario_tick_open by lia.
    cbn [Py.bind]. replace (Z.of_nat (S j) + 1) with (Z.of_nat (S (S j))) by lia.
    rewrite IH by lia. f_equal. f_equal. lia.
Qed.

Lemma idle_ticks_closed (n : nat) :
  forall k : Z, idle_ticks sim n k closed = Py.Ok closed.
Proof.
  induction n as [|n IH]; intros k; cbn [idle_ticks]; [reflexivity|].
  rewrite scenario_tick_closed. cbn [Py.bind]. apply IH.
Qed.

Lemma idle_ticks_close (n : nat) :
  idle_ticks sim (S n) (Z.of_nat 101) (open 100) = Py.Ok closed.
Proof.
  cbn [idle_ticks]. change (Time_US sim) with US.
  rewrite scenario_tick_close. cbn [Py.bind]. apply idle_ticks_closed.
Qed.

Lemma idle_ticks_add (n m : nat) :
  forall (k : Z) (self : CoreStateAtBranchEventAnalyzer.t),
    idle_ticks sim (n + m) k self
    = (self' <- idle_ticks sim n k self ;; idle_ticks sim m (k + Z.of_nat n) self').
Proof.
  induction n as [|n IH]; intros k self.
  - cbn [idle_ticks Py.bind Nat.add]. f_equal. cbn. lia.
  - cbn [idle_ticks Nat.add].
    destruct (CoreStateAtBranchEventAnalyzer.hook_periodic
                sim (example_probe (k * Time_US sim) IDLE) self
                (k * Time_US sim) (Time_US sim)) as [self1|e];
      cbn [Py.bind]; [|reflexivity].
    rewrite IH. destruct (idle_ticks sim n (k + 1) self1); cbn [Py.bind];
      [|reflexivity].
    f_equal. lia.
Qed.

Lemma scenario_runs (predicted indirect : bool) :
  idle_scenario US ip predicted taken indirect = Py.Ok closed.
Proof.
  unfold idle_scenario.
  change (CoreStateAtBranchEventAnalyzer.setup (scenario_sim US) (Some "100:1"%string))
    with (Py.Ok
            (CoreStateAtBranchEventAnalyzer.with_analyzers
               (open 0) 0 [(0, CoreStateAnalyzer.__init__ 0 "out" 100 1)])).
  cbn [Py.bind].
  change (CoreStateAtBranchEventAnalyzer.hook_branch_predictor _ _ _ _ _ _ _)
    with (open 0).
  fold sim. change 150%nat with (100 + 50)%nat.
  rewrite idle_ticks_add. change 1 with (Z.of_nat 1) at 1.
  rewrite (idle_ticks_open 100 0) by lia. cbn [Py.bind].
  change (Z.of_nat 1 + Z.of_nat 100) with (Z.of_nat 101).
  apply (idle_ticks_close 49).
Qed.

Lemma scenario_stats :
  CoreStateAtBranchEventAnalyzer.pattern_stats_of [scenario_record US ip taken 101]
  = [(Py.hex ip,
      {| PatternStats.count := 1;
         PatternStats.idle_positions := count_from 0 101;
         PatternStats.branch_taken_count := if taken then 1 else 0 |})].
Proof. destruct taken; vm_compute; reflexivity. Qed.

End Scenario.

(** C5.  Window 100 us, period 1 us, one core.  After a branch event at
    time 0 and 150 ticks one microsecond apart that all find the core
    IDLE, the tracker holds no active record and one completed record
    with exactly 101 samples, all IDLE, the last at 101 us: the window
    closed on the tick whose elapsed time, 101 us, exceeds 100 us, and
    the 49 later ticks added nothing.  The summary has one row, for the
    [ip] of the branch, with [Count] 1, [Avg_Idle_Position] 50 (the mean
    of 0..100), [Idle_Time_Percent] 101 and [Branch_Taken_Ratio] 1 when
    the branch was taken and 0 when not: the three doubles are these
    numbers, no rounding error is left in them.  The line written is
    [<ip>,1,50.00,101.00,1.00] (or [0.00]). *)
Theorem idle_scenario_summary (US ip : Z) (predicted taken indirect : bool) :
  0 < US ->
  exists self record,
    idle_scenario US ip predicted taken indirect = Py.Ok self
    /\ (exists tracker,
           CoreStateAtBranchEventAnalyzer.core_analyzers self = [(0, tracker)]
           /\ CoreStateAnalyzer.active_records tracker = []
           /\ CoreStateAnalyzer.completed_records tracker = [record])
    /\ CoreStateAtBranchEventAnalyzer.all_completed_records self = [record]
    /\ BranchRecord.ip record = ip
    /\ BranchRecord.branch_taken record = taken
    /\ List.length (BranchRecord.states record) = 101%nat
    /\ BranchRecord.states record
       = map (fun k => (Z.of_nat k * US, IDLE)) (seq 1 101)
    /\ (exists row : SummaryRow.t float,
           CoreStateAtBranchEventAnalyzer.generate_analysis_summary self [record]
           = ([row], None)
           /\ SummaryRow.Branch_IP row = Py.hex ip
           /\ SummaryRow.Count row = 1
           /\ SummaryRow.Avg_Idle_Position row = 50%float
           /\ SummaryRow.Idle_Time_Percent row = 101%float
           /\ SummaryRow.Branch_Taken_Ratio row = (if taken then 1 else 0)%float
           /\ CoreStateAtBranchEventAnalyzer.summary_line row
              = (Py.hex ip ++ ",1,50.00,101.00,"
                   ++ (if taken then "1.00" else "0.00") ++ Py.LF)%string).
Proof.
  intros HUS.
  exists (scenario_state US (scenario_tracker [] [scenario_record US ip taken 101])),
    (scenario_record US ip taken 101).
  split; [now apply scenario_runs|].
  split; [eexists; repeat split; reflexivity|].
  split; [reflexivity|]. split; [reflexivity|]. split; [reflexivity|].
  split; [reflexivity|]. split; [reflexivity|].
  unfold CoreStateAtBranchEventAnalyzer.generate_analysis_summary.
  rewrite scenario_stats. unfold Py.items.
  generalize (Py.hex ip) as key. intros key.
  destruct taken; eexists; (split; [vm_compute; reflexivity|]);
    repeat (split; [vm_compute; reflexivity|]); vm_compute; reflexivity.
Qed.

Lemma idle_scenario_summary_witness :
  0 < 1000000000
  /\ exists self record,
      idle_scenario 1000000000 4198400 true true false = Py.Ok self
      /\ CoreStateAtBranchEventAnalyzer.all_completed_records self = [record]
      /\ List.length (BranchRecord.states record) = 101%nat.
Proof.
  assert (HUS : 0 < 1000000000) by reflexivity.
  split; [exact HUS|].
  destruct (idle_scenario_summary 1000000000 4198400 true true false HUS)
    as (self & record & Hrun & _ & Hall & _ & _ & Hlen & _).
  exists self, record. split; [exact Hrun|]. split; [exact Hall|exact Hlen].
Defined.

(** * Further properties of the script *)

(** ** The samples of a record follow from the ticks after its creation *)

Lemma with_samples_nil (r : BranchRecord.t) : with_samples r [] = r.
Proof. destruct r. unfold with_samples. simpl. now rewrite app_nil_r. Qed.

Lemma with_samples_sampled (time state : Z) (r : BranchRecord.t)
      (samples : list (Z * Z)) :
  with_samples (sampled time state r) samples
  = with_samples r ((time - BranchRecord.start_time r, state) :: samples).
Proof. unfold with_samples, sampled. simpl. now rewrite <- app_assoc. Qed.

Lemma run_app (sim : Sim) (calls calls' : list Calls.call) :
  forall self : CoreStateAnalyzer.t,
    Calls.run sim (calls ++ calls') self
    = (self' <- Calls.run sim calls self ;; Calls.run sim calls' self').
Proof.
  unfold Calls.run. induction calls as [|c calls IH]; intros self; simpl;
    [reflexivity|].
  destruct (Calls.deliver sim self c) as [self1|e]; simpl; [apply IH|reflexivity].
Qed.

(** A sampling tick on a well-formed tracker, with the state it leaves. *)
Lemma tick_step (sim : Sim) (now : Probe) (self : CoreStateAnalyzer.t)
      (time time_delta : Z) :
  well_formed sim self ->
  time_delta <> 0 ->
  let state := dvfs_get_core_state now (CoreStateAnalyzer.core_id self) in
  let self' :=
    CoreStateAnalyzer.with_records self
      (map (sampled_entry time state)
           (filter (fun kr => negb (expired sim self time (snd kr)))
                   (CoreStateAnalyzer.active_records self)))
      (CoreStateAnalyzer.completed_records self
         ++ map (sampled time state)
              (filter (expired sim self time)
                      (Py.values (CoreStateAnalyzer.active_records self)))) in
  CoreStateAnalyzer.collect_state_sample sim now self time time_delta = Py.Ok self'
  /\ well_formed sim self'.
Proof.
  intros Hwf Hdelta state self'.
  pose proof (tick_closed_form sim now self time time_delta
                (wf_active_nodup sim self Hwf) Hdelta) as Hform.
  split; [exact Hform|].
  destruct (wf_tick sim now self time time_delta Hwf) as (self1 & Hrun & Hwf1 & _).
  rewrite Hform in Hrun. inversion Hrun. subst self1. exact Hwf1.
Qed.

Lemma record_follows_ticks (sim : Sim) (calls : list Calls.call) :
  forall (self : CoreStateAnalyzer.t) (k : Z) (r : BranchRecord.t),
    well_formed sim self ->
    In (k, r) (CoreStateAnalyzer.active_records self) ->
    exists self',
      Calls.run sim calls self = Py.Ok self'
      /\ well_formed sim self'
      /\ let samples :=
           samples_after sim (CoreStateAnalyzer.core_id self)
             (CoreStateAnalyzer.observation_window self)
             (BranchRecord.start_time r) calls in
         if past_window sim (CoreStateAnalyzer.observation_window self) samples
         then In (with_samples r samples) (CoreStateAnalyzer.completed_records self')
         else In (k, with_samples r samples) (CoreStateAnalyzer.active_records self').
Proof.
  induction calls as [|c calls IH]; intros self k r Hwf Hin.
  - exists self. split; [reflexivity|]. split; [assumption|].
    simpl. now rewrite with_samples_nil.
  - destruct c as [now ip predicted actual indirect|now time time_delta].
    + pose proof (wf_branch sim now self ip predicted actual indirect Hwf) as Hwf1.
      assert (Hin1 : In (k, r)
                        (CoreStateAnalyzer.active_records
                           (CoreStateAnalyzer.record_branch_event
                              now self ip predicted actual indirect))).
      { rewrite (record_ids_branch sim) by assumption. apply in_or_app. now left. }
      destruct (IH _ k r Hwf1 Hin1) as (self' & Hrun & Hwf' & Hloc).
      exists self'. split; [exact Hrun|]. split; [exact Hwf'|exact Hloc].
    + unfold Calls.run. cbn [Py.for_each Calls.deliver samples_after].
      destruct (Z.eq_dec time_delta 0) as [->|Hdelta].
      { cbn [Z.eqb]. change (CoreStateAnalyzer.collect_state_sample sim now self time 0)
          with (Py.Ok self). cbn [Py.bind]. now apply IH. }
      destruct (tick_step sim now self time time_delta Hwf Hdelta) as [Hform Hwf1].
      rewrite Hform. cbn [Py.bind].
      replace (time_delta =? 0) with false by (symmetry; now apply Z.eqb_neq).
      set (state := dvfs_get_core_state now (CoreStateAnalyzer.core_id self)) in *.
      set (self1 := CoreStateAnalyzer.with_records self _ _) in *.
      fold (expired sim self time r).
      destruct (expired sim self time r) eqn:Hexp.
      * (* the record closes on this tick *)
        destruct (run_well_formed sim calls self1 Hwf1)
          as (self' & Hrun & Hwf' & _ & _ & [closed Hclosed] & _).
        exists self'. split; [exact Hrun|]. split; [exact Hwf'|].
        unfold past_window. cbn [existsb fst]. unfold expired in Hexp.
        rewrite Hexp. cbn [orb]. rewrite Hclosed. apply in_or_app. left.
        unfold self1. cbn [CoreStateAnalyzer.completed_records
                             CoreStateAnalyzer.with_records].
        apply in_or_app. right.
        change (with_samples r [(time - BranchRecord.start_time r, state)])
          with (sampled time state r).
        apply in_map. apply filter_In. split; [|exact Hexp].
        unfold Py.values. change r with (snd (k, r)). now apply in_map.
      * (* the record stays active *)
        assert (Hin1 : In (k, sampled time state r)
                          (CoreStateAnalyzer.active_records self1)).
        { unfold self1. cbn [CoreStateAnalyzer.active_records
                               CoreStateAnalyzer.with_records].
          change (k, sampled time state r) with (sampled_entry time state (k, r)).
          apply in_map. apply filter_In. split; [assumption|].
          cbn [snd]. now rewrite Hexp. }
        destruct (IH self1 k (sampled time state r) Hwf1 Hin1)
          as (self' & Hrun & Hwf' & Hloc).
        exists self'. split; [exact Hrun|]. split; [exact Hwf'|].
        cbn zeta in Hloc.
        change (CoreStateAnalyzer.core_id self1)
          with (CoreStateAnalyzer.core_id self) in Hloc.
        change (CoreStateAnalyzer.observation_window self1)
          with (CoreStateAnalyzer.observation_window self) in Hloc.
        change (BranchRecord.start_time (sampled time state r))
          with (BranchRecord.start_time r) in Hloc.
        rewrite with_samples_sampled in Hloc.
        unfold past_window. cbn [existsb fst]. unfold expired in Hexp.
        rewrite Hexp. cbn [orb]. exact Hloc.
Qed.

Lemma sample_record_fields (sim : Sim) (time state : Z)
      (self self' : CoreStateAnalyzer.t) (event_id : Z) :
  CoreStateAnalyzer.sample_record sim time state self event_id = Py.Ok self' ->
  CoreStateAnalyzer.core_id self' = CoreStateAnalyzer.core_id self
  /\ CoreStateAnalyzer.observation_window self'
     = CoreStateAnalyzer.observation_window self
  /\ CoreStateAnalyzer.sampling_period self'
     = CoreStateAnalyzer.sampling_period self
  /\ CoreStateAnalyzer.results_folder self'
     = CoreStateAnalyzer.results_folder self
  /\ CoreStateAnalyzer.next_event_id self' = CoreStateAnalyzer.next_event_id self.
Proof.
  unfold CoreStateAnalyzer.sample_record.
  destruct (Py.getitem (CoreStateAnalyzer.active_records self) event_id)
    as [record|e]; cbn [Py.bind]; [|discriminate].
  destruct (time - BranchRecord.start_time record
            >? CoreStateAnalyzer.observation_window self * Time_US sim).
  - destruct (Py.delitem _ event_id) as [active|e]; cbn [Py.bind]; [|discriminate].
    intros Heq. inversion Heq. now subst.
  - intros Heq. inversion Heq. now subst.
Qed.

(** No callback changes the configuration of a tracker or takes back an
    id, whatever state the tracker is in. *)
Lemma run_fields (sim : Sim) (calls : list Calls.call) :
  forall self self' : CoreStateAnalyzer.t,
    Calls.run sim calls self = Py.Ok self' ->
    CoreStateAnalyzer.core_id self' = CoreStateAnalyzer.core_id self
    /\ CoreStateAnalyzer.observation_window self'
       = CoreStateAnalyzer.observation_window self
    /\ CoreStateAnalyzer.sampling_period self'
       = CoreStateAnalyzer.sampling_period self
    /\ CoreStateAnalyzer.results_folder self'
       = CoreStateAnalyzer.results_folder self.
Proof.
  assert (Hloop : forall time state keys self self',
             Py.for_each (CoreStateAnalyzer.sample_record sim time state) keys self
             = Py.Ok self' ->
             CoreStateAnalyzer.core_id self' = CoreStateAnalyzer.core_id self
             /\ CoreStateAnalyzer.observation_window self'
                = CoreStateAnalyzer.observation_window self
             /\ CoreStateAnalyzer.sampling_period self'
                = CoreStateAnalyzer.sampling_period self
             /\ CoreStateAnalyzer.results_folder self'
                = CoreStateAnalyzer.results_folder self).
  { induction keys as [|k keys IH]; intros self self' Hrun; simpl in Hrun.
    - inversion Hrun. now subst.
    - destruct (CoreStateAnalyzer.sample_record sim time state self k)
        as [self1|e] eqn:Hstep; cbn [Py.bind] in Hrun; [|discriminate].
      apply sample_record_fields in Hstep.
      destruct Hstep as (H1 & H2 & H3 & H4 & _).
      destruct (IH _ _ Hrun) as (G1 & G2 & G3 & G4).
      repeat split; congruence. }
  unfold Calls.run.
  induction calls as [|c calls IH]; intros self self' Hrun; simpl in Hrun.
  - inversion Hrun. now subst.
  - destruct (Calls.deliver sim self c) as [self1|e] eqn:Hstep;
      cbn [Py.bind] in Hrun; [|discriminate].
    destruct (IH _ _ Hrun) as (G1 & G2 & G3 & G4).
    destruct c as [now ip predicted actual indirect|now time time_delta];
      simpl in Hstep.
    + inversion Hstep. subst self1. simpl in *. repeat split; assumption.
    + unfold CoreStateAnalyzer.collect_state_sample in Hstep.
      destruct (time_delta =? 0).
      * inversion Hstep. subst self1. repeat split; assumption.
      * apply Hloop in Hstep. destruct Hstep as (H1 & H2 & H3 & H4).
        repeat split; congruence.
Qed.

Lemma get_of_in {K V : Type} `{Py.EqKey K} (d : Py.dict K V) (k : K) (v : V) :
  NoDup (Py.keys d) -> In (k, v) d -> Py.get d k = Some v.
Proof.
  intros Hnd Hin.
  assert (Hk : In k (Py.keys d)).
  { unfold Py.keys. change k with (fst (k, v)). now apply in_map. }
  destruct (get_in d k Hk) as (v' & Hget & Hin').
  now rewrite (nodup_keys_unique d k v v' Hnd Hin Hin').
Qed.

(** X1. The record of a branch event is fixed by the event and by the
    ticks that follow it, whatever other events the tracker receives
    before, between or after: its id is one more than the number of
    earlier branch events, its fields are those of the event, and its
    samples are one [(time - start_time, state)] for every later tick
    with [time_delta != 0], up to and including the first that is past
    the window.  It is among the completed records if there is such a
    sample, and otherwise it is the active record under its id. *)
Theorem record_is_determined_by_later_ticks
        (sim : Sim) (core_id : Z) (results_folder : string)
        (observation_window sampling_period : Z)
        (before after : list Calls.call)
        (now : Probe) (ip : Z) (predicted actual indirect : bool) :
  let id := Z.of_nat (List.length (filter Calls.is_branch before)) + 1 in
  let samples :=
    samples_after sim core_id observation_window (stats_time now) after in
  let record :=
    {| BranchRecord.event_id := id;
       BranchRecord.core_id := core_id;
       BranchRecord.ip := ip;
       BranchRecord.branch_taken := actual;
       BranchRecord.start_time := stats_time now;
       BranchRecord.instruction_count := stats_instruction_count now core_id;
       BranchRecord.states := samples |} in
  exists tracker,
    Calls.run sim
      (before ++ Calls.Branch now ip predicted actual indirect :: after)
      (CoreStateAnalyzer.__init__ core_id results_folder
         observation_window sampling_period) = Py.Ok tracker
    /\ if past_window sim observation_window samples
       then In record (CoreStateAnalyzer.completed_records tracker)
            /\ ~ In id (Py.keys (CoreStateAnalyzer.active_records tracker))
       else Py.get (CoreStateAnalyzer.active_records tracker) id = Some record.
Proof.
  intros id samples record.
  pose proof (wf_init sim core_id results_folder observation_window sampling_period)
    as Hwf0.
  destruct (run_well_formed sim before _ Hwf0)
    as (self & Hrun & Hwf & Hnext & Hwin & _ & _).
  destruct (run_fields sim before _ _ Hrun) as (Hcore & _).
  cbn [CoreStateAnalyzer.next_event_id CoreStateAnalyzer.observation_window
       CoreStateAnalyzer.core_id CoreStateAnalyzer.__init__]
    in Hnext, Hwin, Hcore.
  pose proof (wf_branch sim now self ip predicted actual indirect Hwf) as Hwf1.
  set (self1 := CoreStateAnalyzer.record_branch_event
                  now self ip predicted actual indirect) in *.
  assert (Hin : In (CoreStateAnalyzer.next_event_id self,
                    CoreStateAnalyzer.new_record now self ip actual)
                   (CoreStateAnalyzer.active_records self1)).
  { unfold self1. rewrite (record_ids_branch sim) by assumption.
    apply in_or_app. right. now left. }
  destruct (record_follows_ticks sim after self1 _ _ Hwf1 Hin)
    as (tracker & Hrun1 & Hwf' & Hloc).
  exists tracker. split.
  { rewrite run_app, Hrun. cbn [Py.bind]. exact Hrun1. }
  cbn zeta in Hloc.
  change (CoreStateAnalyzer.core_id self1) with (CoreStateAnalyzer.core_id self)
    in Hloc.
  change (CoreStateAnalyzer.observation_window self1)
    with (CoreStateAnalyzer.observation_window self) in Hloc.
  change (BranchRecord.start_time (CoreStateAnalyzer.new_record now self ip actual))
    with (stats_time now) in Hloc.
  rewrite Hcore, Hwin in Hloc. fold samples in Hloc.
  assert (Hrecord : with_samples (CoreStateAnalyzer.new_record now self ip actual)
                                 samples = record).
  { unfold with_samples, CoreStateAnalyzer.new_record, record. simpl.
    rewrite Hcore. f_equal. unfold id. lia. }
  assert (Hid : CoreStateAnalyzer.next_event_id self = id) by (unfold id; lia).
  rewrite Hrecord, Hid in Hloc.
  destruct (past_window sim observation_window samples).
  - split; [exact Hloc|].
    pose proof (wf_nodup _ _ Hwf') as Hnd. unfold record_ids in Hnd.
    apply (nodup_app_disjoint _ _ _ Hnd).
    change id with (BranchRecord.event_id record). now apply in_map.
  - apply get_of_in; [|exact Hloc]. now apply (wf_active_nodup sim).
Qed.

(** ** Samples are in time order when the ticks are *)

Lemma sorted_snoc (l : list Z) (x : Z) :
  Sorted Z.le l -> Forall (fun y => y <= x) l -> Sorted Z.le (l ++ [x]).
Proof.
  induction l as [|a l IH]; simpl; intros Hs Hall.
  - repeat constructor.
  - inversion Hs as [|? ? Hs' Hhd]; subst.
    inversion Hall as [|? ? Ha Hall']; subst.
    constructor; [now apply IH|].
    destruct l as [|b l]; simpl; constructor.
    + exact Ha.
    + now inversion Hhd.
Qed.

Lemma sampled_time_ordered (time state bound : Z) (r : BranchRecord.t) :
  bound <= time ->
  time_ordered r ->
  Forall (fun s => fst s <= bound - BranchRecord.start_time r)
         (BranchRecord.states r) ->
  time_ordered (sampled time state r)
  /\ Forall (fun s => fst s <= time - BranchRecord.start_time r)
            (BranchRecord.states (sampled time state r)).
Proof.
  intros Hbound Hsorted Hall. unfold time_ordered, sampled. simpl. split.
  - rewrite map_app. simpl. apply sorted_snoc; [exact Hsorted|].
    apply Forall_forall. intros y Hy. apply in_map_iff in Hy.
    destruct Hy as (s & <- & Hs).
    rewrite Forall_forall in Hall. specialize (Hall s Hs). simpl in Hall. lia.
  - apply Forall_app. split.
    + eapply Forall_impl; [|exact Hall]. simpl. intros s Hs. lia.
    + repeat constructor. simpl. lia.
Qed.

Lemma run_time_ordered (sim : Sim) (calls : list Calls.call) :
  forall (self : CoreStateAnalyzer.t) (earliest : Z),
    well_formed sim self ->
    ticks_in_order earliest calls = true ->
    (forall k r,
        In (k, r) (CoreStateAnalyzer.active_records self) ->
        time_ordered r
        /\ Forall (fun s => fst s <= earliest - BranchRecord.start_time r)
                  (BranchRecord.states r)) ->
    (forall r, In r (CoreStateAnalyzer.completed_records self) -> time_ordered r) ->
    exists self',
      Calls.run sim calls self = Py.Ok self'
      /\ forall r, In r (records_of self') -> time_ordered r.
Proof.
  induction calls as [|c calls IH]; intros self earliest Hwf Horder Hact Hcomp.
  - exists self. split; [reflexivity|]. intros r Hin. unfold records_of in Hin.
    apply in_app_or in Hin. destruct Hin as [Hin|Hin]; [now apply Hcomp|].
    unfold Py.values in Hin. apply in_map_iff in Hin.
    destruct Hin as ([k r0] & <- & Hin). exact (proj1 (Hact k r0 Hin)).
  - destruct c as [now ip predicted actual indirect|now time time_delta].
    + apply (IH _ earliest).
      * now apply wf_branch.
      * exact Horder.
      * intros k r. rewrite (record_ids_branch sim) by assumption.
        rewrite in_app_iff. intros [Hin|[Heq|[]]]; [exact (Hact k r Hin)|].
        inversion Heq. split; [constructor|constructor].
      * exact Hcomp.
    + unfold Calls.run. cbn [Py.for_each Calls.deliver].
      cbn [ticks_in_order] in Horder.
      destruct (Z.eq_dec time_delta 0) as [->|Hdelta].
      { change (CoreStateAnalyzer.collect_state_sample sim now self time 0)
          with (Py.Ok self). cbn [Py.bind]. now apply (IH _ earliest). }
      replace (time_delta =? 0) with false in Horder
        by (symmetry; now apply Z.eqb_neq).
      apply andb_prop in Horder. destruct Horder as [Hle Horder].
      apply Z.leb_le in Hle.
      destruct (tick_step sim now self time time_delta Hwf Hdelta) as [Hform Hwf1].
      rewrite Hform. cbn [Py.bind].
      apply (IH _ time Hwf1 Horder).
      * cbn [CoreStateAnalyzer.active_records CoreStateAnalyzer.with_records].
        intros k r Hin. apply in_map_iff in Hin.
        destruct Hin as ([k0 r0] & Heq & Hin). inversion Heq; subst.
        apply filter_In in Hin. destruct Hin as [Hin _].
        destruct (Hact k r0 Hin) as [Hs Hall].
        exact (sampled_time_ordered time _ earliest r0 Hle Hs Hall).
      * cbn [CoreStateAnalyzer.completed_records CoreStateAnalyzer.with_records].
        intros r Hin. apply in_app_or in Hin.
        destruct Hin as [Hin|Hin]; [now apply Hcomp|].
        apply in_map_iff in Hin. destruct Hin as (r0 & <- & Hin).
        apply filter_In in Hin. destruct Hin as [Hin _].
        unfold Py.values in Hin. apply in_map_iff in Hin.
        destruct Hin as ([k r1] & Heq & Hin). simpl in Heq. subst r1.
        destruct (Hact k r0 Hin) as [Hs Hall].
        exact (proj1 (sampled_time_ordered time _ earliest r0 Hle Hs Hall)).
Qed.

(** X2. When the ticks that take samples reach a tracker at times that
    do not decrease, the samples of every record it holds, completed or
    active, are in time order: their elapsed times do not decrease. *)
Theorem samples_are_time_ordered
        (sim : Sim) (core_id : Z) (results_folder : string)
        (observation_window sampling_period : Z)
        (calls : list Calls.call) (earliest : Z) :
  ticks_in_order earliest calls = true ->
  exists tracker,
    Calls.run sim calls
      (CoreStateAnalyzer.__init__ core_id results_folder
         observation_window sampling_period) = Py.Ok tracker
    /\ forall r,
      In r (records_of tracker) ->
      Sorted Z.le (map fst (BranchRecord.states r)).
Proof.
  intros Horder.
  apply (run_time_ordered sim calls _ earliest).
  - apply wf_init.
  - exact Horder.
  - intros k r [].
  - intros r [].
Qed.

Lemma samples_are_time_ordered_witness :
  ticks_in_order 0 example_calls = true
  /\ exists tracker,
      Calls.run example_sim example_calls
        (CoreStateAnalyzer.__init__ 0 "out" 100 1) = Py.Ok tracker
      /\ forall r,
        In r (records_of tracker) ->
        Sorted Z.le (map fst (BranchRecord.states r)).
Proof.
  assert (Horder : ticks_in_order 0 example_calls = true) by reflexivity.
  split; [exact Horder|].
  exact (samples_are_time_ordered example_sim 0 "out" 100 1 example_calls 0 Horder).
Defined.

(** ** A window that is not positive *)

Lemma filter_all {A : Type} (p : A -> bool) (l : list A) :
  (forall x, In x l -> p x = true) ->
  filter p l = l /\ filter (fun x => negb (p x)) l = [].
Proof.
  induction l as [|x l IH]; simpl; intros Hall; [now split|].
  rewrite (Hall x) by now left. simpl.
  destruct IH as [H1 H2]; [intros y Hy; apply Hall; now right|].
  now rewrite H1, H2.
Qed.

(** X3. With an [observation_window] of 0 or less, a tick with
    [time_delta != 0] closes every record that started before the time of
    the tick: each gets this one sample and moves to the completed
    records, and no record stays active. *)
Theorem nonpositive_window_closes_at_once
        (sim : Sim) (now : Probe) (self : CoreStateAnalyzer.t)
        (time time_delta : Z) :
  NoDup (Py.keys (CoreStateAnalyzer.active_records self)) ->
  time_delta <> 0 ->
  CoreStateAnalyzer.observation_window self <= 0 ->
  0 <= Time_US sim ->
  (forall k r,
      In (k, r) (CoreStateAnalyzer.active_records self) ->
      BranchRecord.start_time r < time) ->
  CoreStateAnalyzer.collect_state_sample sim now self time time_delta
  = Py.Ok
      (CoreStateAnalyzer.with_records self []
         (CoreStateAnalyzer.completed_records self
            ++ map (sampled time
                      (dvfs_get_core_state now (CoreStateAnalyzer.core_id self)))
                 (Py.values (CoreStateAnalyzer.active_records self)))).
Proof.
  intros Hnd Hdelta Hwindow HUS Hstarted.
  rewrite tick_closed_form by assumption. cbv zeta.
  assert (Hall : forall kr,
             In kr (CoreStateAnalyzer.active_records self) ->
             expired sim self time (snd kr) = true).
  { intros [k r] Hin. specialize (Hstarted k r Hin). unfold expired. simpl.
    apply Z.gtb_lt. nia. }
  rewrite filter_values.
  destruct (filter_all (fun kr => expired sim self time (snd kr)) _ Hall)
    as [Hexp Hopen].
  now rewrite Hexp, Hopen.
Qed.

Lemma nonpositive_window_closes_at_once_witness :
  NoDup (Py.keys (CoreStateAnalyzer.active_records zero_window_tracker))
  /\ 5 <> 0
  /\ CoreStateAnalyzer.observation_window zero_window_tracker <= 0
  /\ 0 <= Time_US example_sim
  /\ exists self',
      CoreStateAnalyzer.collect_state_sample
        example_sim (example_probe 5 IDLE) zero_window_tracker 5 5 = Py.Ok self'
      /\ CoreStateAnalyzer.active_records self' = []
      /\ map BranchRecord.states (CoreStateAnalyzer.completed_records self')
         = [[(5, IDLE)]].
Proof.
  assert (Hnd : NoDup (Py.keys (CoreStateAnalyzer.active_records zero_window_tracker))).
  { simpl. repeat constructor. intros []. }
  assert (Hdelta : 5 <> 0) by discriminate.
  assert (Hwindow : CoreStateAnalyzer.observation_window zero_window_tracker <= 0).
  { simpl. lia. }
  assert (HUS : 0 <= Time_US example_sim).
  { simpl. lia. }
  split; [exact Hnd|]. split; [exact Hdelta|]. split; [exact Hwindow|].
  split; [exact HUS|].
  eexists. split.
  - apply (nonpositive_window_closes_at_once
             example_sim (example_probe 5 IDLE) zero_window_tracker 5 5
             Hnd Hdelta Hwindow HUS).
    intros k r [Heq|[]]. inversion Heq. simpl. lia.
  - split; reflexivity.
Defined.

(** ** The aggregator over a whole run *)

Lemma in_range (n c : Z) : In c (Py.range n) <-> 0 <= c < n.
Proof.
  unfold Py.range. rewrite in_map_iff. split.
  - intros (i & <- & Hin). apply in_seq in Hin. lia.
  - intros Hc. exists (Z.to_nat c). split; [lia|]. apply in_seq. lia.
Qed.

Lemma contains_keys {K V : Type} `{Py.EqKey K} (d : Py.dict K V) (k : K) :
  Py.contains d k = true <-> In k (Py.keys d).
Proof.
  unfold Py.contains. split.
  - destruct (Py.get d k) as [v|] eqn:Hget; [|discriminate].
    intros _. apply get_some_in in Hget. unfold Py.keys.
    change k with (fst (k, v)). now apply in_map.
  - intros Hin. destruct (get_in d k Hin) as (v & Hget & _). now rewrite Hget.
Qed.

Lemma in_setitem {K V : Type} `{Py.EqKey K} (d : Py.dict K V) (k k' : K) (v v' : V) :
  In (k', v') (Py.setitem d k v) -> (k', v') = (k, v) \/ In (k', v') d.
Proof.
  induction d as [|[k0 v0] d IH]; simpl.
  - intros [Heq|[]]. now left.
  - destruct (Py.key_eqb k0 k) eqn:E; simpl.
    + apply Py.key_eqb_eq in E. subst k0. intros [Heq|Hin]; [now left|].
      right. now right.
    + intros [Heq|Hin]; [right; now left|].
      destruct (IH Hin) as [Hnew|Hold]; [now left|right; now right].
Qed.

Lemma length_flat_map_setitem {K V A : Type} `{Py.EqKey K} (f : V -> list A)
      (d : Py.dict K V) (k : K) (v v' : V) :
  Py.get d k = Some v ->
  (List.length (flat_map f (Py.values (Py.setitem d k v'))) + List.length (f v)
   = List.length (flat_map f (Py.values d)) + List.length (f v'))%nat.
Proof.
  unfold Py.values. induction d as [|[k0 v0] d IH]; simpl; [discriminate|].
  destruct (Py.key_eqb k0 k) eqn:E; simpl; intros Hget.
  - inversion Hget. subst v0. rewrite !length_app. lia.
  - rewrite !length_app. specialize (IH Hget). lia.
Qed.

Lemma records_of_branch (sim : Sim) (now : Probe) (self : CoreStateAnalyzer.t)
      (ip : Z) (predicted actual indirect : bool) :
  well_formed sim self ->
  records_of (CoreStateAnalyzer.record_branch_event
                now self ip predicted actual indirect)
  = records_of self ++ [CoreStateAnalyzer.new_record now self ip actual].
Proof.
  intros Hwf. unfold records_of.
  rewrite (record_ids_branch sim) by assumption.
  unfold Py.values. rewrite map_app. simpl. now rewrite app_assoc.
Qed.

Lemma tracker_ok_init (sim : Sim) (core : Z) (results_folder : string)
      (observation_window sampling_period : Z) :
  tracker_ok sim core
    (CoreStateAnalyzer.__init__ core results_folder
       observation_window sampling_period).
Proof.
  constructor; [apply wf_init|reflexivity|intros r []].
Qed.

Lemma tracker_ok_branch (sim : Sim) (core : Z) (now : Probe)
      (self : CoreStateAnalyzer.t) (ip : Z) (predicted actual indirect : bool) :
  tracker_ok sim core self ->
  tracker_ok sim core
    (CoreStateAnalyzer.record_branch_event now self ip predicted actual indirect).
Proof.
  intros [Hwf Hcore Howned]. constructor.
  - now apply wf_branch.
  - exact Hcore.
  - intros r. rewrite (records_of_branch sim) by assumption.
    rewrite in_app_iff. intros [Hin|[<-|[]]]; [now apply Howned|exact Hcore].
Qed.

Lemma tracker_ok_tick (sim : Sim) (core : Z) (now : Probe)
      (self : CoreStateAnalyzer.t) (time time_delta : Z) :
  tracker_ok sim core self ->
  exists self',
    CoreStateAnalyzer.collect_state_sample sim now self time time_delta = Py.Ok self'
    /\ tracker_ok sim core self'
    /\ List.length (records_of self') = List.length (records_of self).
Proof.
  intros [Hwf Hcore Howned].
  destruct (Z.eq_dec time_delta 0) as [->|Hdelta].
  { exists self. split; [reflexivity|]. split; [now constructor|reflexivity]. }
  destruct (tick_step sim now self time time_delta Hwf Hdelta) as [Hform Hwf'].
  eexists. split; [exact Hform|].
  set (state := dvfs_get_core_state now (CoreStateAnalyzer.core_id self)) in *.
  split; [constructor|].
  - exact Hwf'.
  - exact Hcore.
  - intros r Hin. unfold records_of in Hin.
    cbn [CoreStateAnalyzer.completed_records CoreStateAnalyzer.active_records
         CoreStateAnalyzer.with_records] in Hin.
    assert (Hold : forall r0,
               In r0 (Py.values (CoreStateAnalyzer.active_records self)) ->
               BranchRecord.core_id (sampled time state r0) = core).
    { intros r0 Hr0. apply (Howned r0). unfold records_of.
      apply in_or_app. now right. }
    apply in_app_or in Hin. destruct Hin as [Hin|Hin].
    + apply in_app_or in Hin. destruct Hin as [Hin|Hin].
      * apply Howned. unfold records_of. apply in_or_app. now left.
      * apply in_map_iff in Hin. destruct Hin as (r0 & <- & Hin).
        apply filter_In in Hin. now apply Hold.
    + unfold Py.values in Hin. rewrite map_map in Hin.
      apply in_map_iff in Hin. destruct Hin as ([k r0] & <- & Hin).
      apply filter_In in Hin. destruct Hin as [Hin _]. apply Hold.
      unfold Py.values. change r0 with (snd (k, r0)). now apply in_map.
  - unfold records_of.
    cbn [CoreStateAnalyzer.completed_records CoreStateAnalyzer.active_records
         CoreStateAnalyzer.with_records].
    rewrite filter_values. unfold Py.values.
    rewrite !length_app, !length_map.
    pose proof (Permutation_length
                  (filter_split_perm
                     (fun kr => expired sim self time (snd kr))
                     (CoreStateAnalyzer.active_records self))) as Hlen.
    rewrite length_app in Hlen. lia.
Qed.

Lemma all_records_flat (self : CoreStateAtBranchEventAnalyzer.t) :
  CoreStateAtBranchEventAnalyzer.all_completed_records self
  = flat_map records_of
      (Py.values (CoreStateAtBranchEventAnalyzer.core_analyzers self)).
Proof. reflexivity. Qed.

Lemma collect_all_ok (sim : Sim) (now : Probe) (time time_delta : Z)
      (analyzers : Py.dict Z CoreStateAnalyzer.t) :
  (forall core tracker, In (core, tracker) analyzers -> tracker_ok sim core tracker) ->
  exists analyzers',
    CoreStateAtBranchEventAnalyzer.collect_all sim now time time_delta analyzers
    = Py.Ok analyzers'
    /\ Py.keys analyzers' = Py.keys analyzers
    /\ (forall core tracker,
           In (core, tracker) analyzers' -> tracker_ok sim core tracker)
    /\ List.length (flat_map records_of (Py.values analyzers'))
       = List.length (flat_map records_of (Py.values analyzers))
    /\ forall core tracker,
      Py.get analyzers core = Some tracker ->
      exists tracker',
        CoreStateAnalyzer.collect_state_sample sim now tracker time time_delta
        = Py.Ok tracker'
        /\ Py.get analyzers' core = Some tracker'
        /\ List.length (records_of tracker') = List.length (records_of tracker).
Proof.
  induction analyzers as [|[c t] analyzers IH]; intros Hok.
  - exists []. simpl. repeat split; try reflexivity; try contradiction.
    intros core tracker H. discriminate.
  - destruct (tracker_ok_tick sim c now t time time_delta (Hok c t (or_introl eq_refl)))
      as (t' & Htick & Hok' & Hlen).
    destruct IH as (rest' & Hrest & Hkeys & Hoks & Hlens & Hget).
    { intros core tracker Hin. apply Hok. now right. }
    exists ((c, t') :: rest'). cbn [CoreStateAtBranchEventAnalyzer.collect_all].
    rewrite Htick. cbn [Py.bind]. rewrite Hrest. cbn [Py.bind].
    split; [reflexivity|]. split; [simpl; now rewrite Hkeys|]. split; [|split].
    + intros core tracker [Heq|Hin]; [inversion Heq; now subst|now apply Hoks].
    + unfold Py.values in *. simpl. rewrite !length_app. lia.
    + intros core tracker. simpl. destruct (c =? core) eqn:E.
      * intros Heq. inversion Heq. subst tracker. exists t'. now repeat split.
      * apply Hget.
Qed.

Lemma hooks_run (sim : Sim) (cores : Z) (hooks : list Hooks.hook) :
  forall self : CoreStateAtBranchEventAnalyzer.t,
    aggregator_ok sim self ->
    Py.keys (CoreStateAtBranchEventAnalyzer.core_analyzers self) = Py.range cores ->
    exists self',
      Hooks.run sim hooks self = Py.Ok self'
      /\ aggregator_ok sim self'
      /\ Py.keys (CoreStateAtBranchEventAnalyzer.core_analyzers self')
         = Py.range cores
      /\ CoreStateAtBranchEventAnalyzer.total_branches self'
         = CoreStateAtBranchEventAnalyzer.total_branches self
           + Z.of_nat (List.length (filter Hooks.is_branch hooks))
      /\ List.length (CoreStateAtBranchEventAnalyzer.all_completed_records self')
         = (List.length (CoreStateAtBranchEventAnalyzer.all_completed_records self)
            + List.length (filter (Hooks.on_known_core cores) hooks))%nat
      /\ (forall core tracker,
             Py.get (CoreStateAtBranchEventAnalyzer.core_analyzers self) core
             = Some tracker ->
             exists tracker',
               Py.get (CoreStateAtBranchEventAnalyzer.core_analyzers self') core
               = Some tracker'
               /\ List.length (records_of tracker')
                  = (List.length (records_of tracker)
                     + List.length (filter (Hooks.on_core core) hooks))%nat)
      /\ configuration self' = configuration self.
Proof.
  induction hooks as [|h hooks IH]; intros self [Hnd Hoks] Hkeys.
  - exists self. split; [reflexivity|]. split; [now split|]. split; [assumption|].
    split; [simpl; lia|]. split; [simpl; lia|]. split.
    + intros core tracker Hget. exists tracker. split; [assumption|simpl; lia].
    + reflexivity.
  - destruct h as [now core_id ip predicted actual indirect|now time time_delta].
    + (* a branch event *)
      set (self1 := CoreStateAtBranchEventAnalyzer.hook_branch_predictor
                      now self core_id ip predicted actual indirect).
      assert (Hstep :
                aggregator_ok sim self1
                /\ Py.keys (CoreStateAtBranchEventAnalyzer.core_analyzers self1)
                   = Py.range cores
                /\ List.length (CoreStateAtBranchEventAnalyzer.all_completed_records self1)
                   = (List.length (CoreStateAtBranchEventAnalyzer.all_completed_records self)
                      + if Hooks.on_known_core cores
                             (Hooks.Branch now core_id ip predicted actual indirect)
                        then 1 else 0)%nat
                /\ (forall core tracker,
                       Py.get (CoreStateAtBranchEventAnalyzer.core_analyzers self) core
                       = Some tracker ->
                       exists tracker1,
                         Py.get (CoreStateAtBranchEventAnalyzer.core_analyzers self1) core
                         = Some tracker1
                         /\ List.length (records_of tracker1)
                            = (List.length (records_of tracker)
                               + if (core_id =? core)%Z then 1 else 0)%nat)).
      { unfold self1, CoreStateAtBranchEventAnalyzer.hook_branch_predictor.
        cbn [Hooks.on_known_core].
        destruct (Py.get (CoreStateAtBranchEventAnalyzer.core_analyzers self) core_id)
          as [t|] eqn:Hget.
        - (* a known core *)
          pose proof (get_some_in _ _ _ Hget) as Hin.
          pose proof (Hoks core_id t Hin) as Hok.
          assert (Hknown : (0 <=? core_id) && (core_id <? cores) = true).
          { assert (Hr : In core_id (Py.range cores)).
            { rewrite <- Hkeys. unfold Py.keys.
              change core_id with (fst (core_id, t)). now apply in_map. }
            apply in_range in Hr. apply andb_true_intro.
            split; [apply Z.leb_le|apply Z.ltb_lt]; lia. }
          rewrite Hknown.
          cbn [CoreStateAtBranchEventAnalyzer.core_analyzers
               CoreStateAtBranchEventAnalyzer.with_analyzers].
          assert (Hkeys1 :
                    Py.keys (Py.setitem
                               (CoreStateAtBranchEventAnalyzer.core_analyzers self)
                               core_id
                               (CoreStateAnalyzer.record_branch_event
                                  now t ip predicted actual indirect))
                    = Py.keys (CoreStateAtBranchEventAnalyzer.core_analyzers self)).
          { rewrite keys_setitem. unfold Py.contains. now rewrite Hget. }
          split; [split|split; [|split]].
          + cbn [CoreStateAtBranchEventAnalyzer.core_analyzers
                 CoreStateAtBranchEventAnalyzer.with_analyzers].
            now rewrite Hkeys1.
          + cbn [CoreStateAtBranchEventAnalyzer.core_analyzers
                 CoreStateAtBranchEventAnalyzer.with_analyzers].
            intros core tracker Hin1. apply in_setitem in Hin1.
            destruct Hin1 as [Heq|Hold]; [|now apply Hoks].
            inversion Heq. subst. now apply tracker_ok_branch.
          + now rewrite Hkeys1.
          + rewrite !all_records_flat.
            cbn [CoreStateAtBranchEventAnalyzer.core_analyzers
                 CoreStateAtBranchEventAnalyzer.with_analyzers].
            pose proof (length_flat_map_setitem records_of _ core_id t
                          (CoreStateAnalyzer.record_branch_event
                             now t ip predicted actual indirect) Hget) as Hlen.
            rewrite (records_of_branch sim) in Hlen by exact (ok_wf _ _ _ Hok).
            rewrite length_app in Hlen. simpl in Hlen. lia.
          + intros core tracker Hcore. destruct (core_id =? core) eqn:E.
            * apply Z.eqb_eq in E. subst core. rewrite Hget in Hcore.
              inversion Hcore. subst tracker. eexists.
              split; [apply get_setitem_same|].
              rewrite (records_of_branch sim) by exact (ok_wf _ _ _ Hok).
              rewrite length_app. reflexivity.
            * apply Z.eqb_neq in E. exists tracker.
              split; [now rewrite get_setitem_other|lia].
        - (* an unknown core *)
          assert (Hunknown : (0 <=? core_id) && (core_id <? cores) = false).
          { destruct ((0 <=? core_id) && (core_id <? cores)) eqn:E; [|reflexivity].
            apply andb_prop in E. destruct E as [E1 E2].
            apply Z.leb_le in E1. apply Z.ltb_lt in E2.
            assert (Hr : In core_id (Py.range cores)) by (apply in_range; lia).
            rewrite <- Hkeys in Hr. apply get_in in Hr.
            destruct Hr as (v & Hv & _). congruence. }
          rewrite Hunknown.
          cbn [CoreStateAtBranchEventAnalyzer.core_analyzers
               CoreStateAtBranchEventAnalyzer.with_analyzers].
          split; [now split|]. split; [assumption|]. split.
          + rewrite !all_records_flat.
            cbn [CoreStateAtBranchEventAnalyzer.core_analyzers
                 CoreStateAtBranchEventAnalyzer.with_analyzers]. lia.
          + intros core tracker Hcore. exists tracker. split; [assumption|].
            replace (core_id =? core) with false; [lia|].
            symmetry. apply Z.eqb_neq. intros ->. congruence. }
      destruct Hstep as (Hok1 & Hkeys1 & Hlen1 & Hcore1).
      destruct (IH self1 Hok1 Hkeys1)
        as (self' & Hrun & Hok' & Hkeys' & Htotal & Hlen & Hcores & Hsame).
      exists self'. unfold Hooks.run in *. cbn [Py.for_each Hooks.deliver Py.bind].
      fold self1. split; [exact Hrun|]. split; [exact Hok'|].
      split; [exact Hkeys'|]. split; [|split; [|split]].
      * rewrite Htotal. unfold self1,
          CoreStateAtBranchEventAnalyzer.hook_branch_predictor.
        cbn [filter Hooks.is_branch List.length].
        destruct (Py.get (CoreStateAtBranchEventAnalyzer.core_analyzers self) core_id);
          cbn [CoreStateAtBranchEventAnalyzer.total_branches
               CoreStateAtBranchEventAnalyzer.with_analyzers]; lia.
      * rewrite Hlen, Hlen1. cbn [filter].
        destruct (Hooks.on_known_core cores
                    (Hooks.Branch now core_id ip predicted actual indirect));
          cbn [List.length]; lia.
      * intros core tracker Hget.
        destruct (Hcore1 core tracker Hget) as (tracker1 & Hget1 & Hl1).
        destruct (Hcores core tracker1 Hget1) as (tracker' & Hget' & Hl').
        exists tracker'. split; [exact Hget'|]. rewrite Hl', Hl1.
        cbn [filter Hooks.on_core].
        destruct (core_id =? core); cbn [List.length]; lia.
      * rewrite Hsame. unfold self1,
          CoreStateAtBranchEventAnalyzer.hook_branch_predictor.
        destruct (Py.get (CoreStateAtBranchEventAnalyzer.core_analyzers self) core_id);
          reflexivity.
    + (* a tick *)
      destruct (collect_all_ok sim now time time_delta _ Hoks)
        as (analyzers1 & Hall & Hkeys1 & Hoks1 & Hlen1 & Hget1).
      set (self1 := CoreStateAtBranchEventAnalyzer.with_analyzers self
                      (CoreStateAtBranchEventAnalyzer.total_branches self)
                      analyzers1).
      assert (Hok1 : aggregator_ok sim self1).
      { split; [|exact Hoks1]. unfold self1.
        cbn [CoreStateAtBranchEventAnalyzer.core_analyzers
             CoreStateAtBranchEventAnalyzer.with_analyzers]. now rewrite Hkeys1. }
      destruct (IH self1 Hok1)
        as (self' & Hrun & Hok' & Hkeys' & Htotal & Hlen & Hcores & Hsame).
      { unfold self1.
        cbn [CoreStateAtBranchEventAnalyzer.core_analyzers
             CoreStateAtBranchEventAnalyzer.with_analyzers]. now rewrite Hkeys1. }
      exists self'. unfold Hooks.run in *. cbn [Py.for_each Hooks.deliver].
      unfold CoreStateAtBranchEventAnalyzer.hook_periodic. rewrite Hall.
      cbn [Py.bind]. fold self1.
      split; [exact Hrun|]. split; [exact Hok'|]. split; [exact Hkeys'|].
      split; [|split; [|split]].
      * rewrite Htotal. cbn [filter Hooks.is_branch]. reflexivity.
      * rewrite Hlen. cbn [filter Hooks.on_known_core]. f_equal.
        rewrite !all_records_flat. exact Hlen1.
      * intros core tracker Hget.
        destruct (Hget1 core tracker Hget) as (tracker1 & _ & Hg1 & Hl1).
        destruct (Hcores core tracker1 Hg1) as (tracker' & Hget' & Hl').
        exists tracker'. split; [exact Hget'|]. rewrite Hl', Hl1.
        cbn [filter Hooks.on_core]. reflexivity.
      * rewrite Hsame. reflexivity.
Qed.

Lemma string_app_assoc (a b c : string) :
  (a ++ b ++ c)%string = ((a ++ b) ++ c)%string.
Proof. induction a as [|x a IH]; simpl; [reflexivity|now rewrite IH]. Qed.

Lemma path_join_prefix (folder : string) :
  exists prefix : string, forall name, Py.path_join folder name = (prefix ++ name)%string.
Proof.
  unfold Py.path_join. destruct (Py.last_char folder) as [c|].
  - destruct c as [[] [] [] [] [] [] [] []];
      first [ exists folder; reflexivity
            | exists (folder ++ "/")%string; intros name; apply string_app_assoc ].
  - exists EmptyString. reflexivity.
Qed.

Lemma append_cancel (prefix a b : string) :
  (prefix ++ a)%string = (prefix ++ b)%string -> a = b.
Proof.
  induction prefix as [|c prefix IH]; simpl; intros Heq; [assumption|].
  inversion Heq. now apply IH.
Qed.

(** What [setup] returns when it returns: the parsed configuration and
    one fresh tracker per core, under the keys [0 .. ncores - 1]. *)
Lemma setup_shape (sim : Sim) (args : option string)
      (self : CoreStateAtBranchEventAnalyzer.t) :
  CoreStateAtBranchEventAnalyzer.setup sim args = Py.Ok self ->
  exists window period,
    CoreStateAtBranchEventAnalyzer.observation_window self = window
    /\ CoreStateAtBranchEventAnalyzer.sampling_period self = period
    /\ CoreStateAtBranchEventAnalyzer.total_branches self = 0
    /\ CoreStateAtBranchEventAnalyzer.core_analyzers self
       = map (fun core =>
                (core, CoreStateAnalyzer.__init__ core (output_dir sim) window period))
             (Py.range (ncores sim))
    /\ CoreStateAtBranchEventAnalyzer.state_patterns_file self
       <> CoreStateAtBranchEventAnalyzer.analysis_summary_file self.
Proof.
  unfold CoreStateAtBranchEventAnalyzer.setup.
  destruct (CoreStateAtBranchEventAnalyzer.int_or _ 100) as [window|e];
    cbn [Py.bind]; [|discriminate].
  destruct (CoreStateAtBranchEventAnalyzer.int_or _ 1) as [period|e];
    cbn [Py.bind]; [|discriminate].
  intros Heq. inversion Heq. subst self. clear Heq.
  exists window, period. simpl.
  split; [reflexivity|]. split; [reflexivity|]. split; [reflexivity|]. split.
  - rewrite build_analyzers; [reflexivity|]. simpl. apply range_nodup.
  - destruct (path_join_prefix (output_dir sim)) as [prefix Hprefix].
    rewrite !Hprefix. intros Heq. apply append_cancel in Heq. discriminate.
Qed.

Lemma setup_ok (sim : Sim) (args : option string)
      (self : CoreStateAtBranchEventAnalyzer.t) :
  CoreStateAtBranchEventAnalyzer.setup sim args = Py.Ok self ->
  aggregator_ok sim self
  /\ Py.keys (CoreStateAtBranchEventAnalyzer.core_analyzers self)
     = Py.range (ncores sim)
  /\ CoreStateAtBranchEventAnalyzer.total_branches self = 0
  /\ CoreStateAtBranchEventAnalyzer.all_completed_records self = [].
Proof.
  intros Hsetup.
  destruct (setup_shape sim args self Hsetup)
    as (window & period & _ & _ & Htotal & Hanalyzers & _).
  assert (Hkeys : Py.keys (CoreStateAtBranchEventAnalyzer.core_analyzers self)
                  = Py.range (ncores sim)).
  { rewrite Hanalyzers. unfold Py.keys. rewrite map_map. simpl. apply map_id. }
  split; [split|split; [exact Hkeys|split; [exact Htotal|]]].
  - rewrite Hkeys. apply range_nodup.
  - intros core tracker. rewrite Hanalyzers. intros Hin.
    apply in_map_iff in Hin. destruct Hin as (c & Heq & _).
    inversion Heq. subst. apply tracker_ok_init.
  - rewrite all_records_flat, Hanalyzers. unfold Py.values. rewrite map_map.
    clear. induction (Py.range (ncores sim)) as [|c l IH]; [reflexivity|exact IH].
Qed.

Lemma record_ids_of (sim : Sim) (self : CoreStateAnalyzer.t) :
  well_formed sim self ->
  map BranchRecord.event_id (records_of self) = record_ids self.
Proof.
  intros Hwf. unfold records_of, record_ids. rewrite map_app. f_equal.
  apply ids_of_entries. exact (wf_key _ _ Hwf).
Qed.

Lemma nodup_pairs {A B C : Type} (f : A -> B) (g : A -> C) (l : list A) :
  NoDup (map f l) -> NoDup (map (fun x => (g x, f x)) l).
Proof.
  induction l as [|x l IH]; simpl; intros Hnd; [constructor|].
  inversion Hnd as [|? ? Hnotin Hnd']; subst. constructor; [|now apply IH].
  intros Hin. apply Hnotin. apply in_map_iff in Hin.
  destruct Hin as (y & Heq & Hy). inversion Heq as [[Hg Hf]].
  replace (f x) with (f y) by congruence. now apply in_map.
Qed.

(** Across the trackers, a record is identified by its core and its id. *)
Lemma aggregator_records (sim : Sim) (analyzers : Py.dict Z CoreStateAnalyzer.t) :
  NoDup (Py.keys analyzers) ->
  (forall core tracker, In (core, tracker) analyzers -> tracker_ok sim core tracker) ->
  NoDup (map (fun r => (BranchRecord.core_id r, BranchRecord.event_id r))
             (flat_map records_of (Py.values analyzers)))
  /\ forall r,
    In r (flat_map records_of (Py.values analyzers)) ->
    In (BranchRecord.core_id r) (Py.keys analyzers)
    /\ 1 <= BranchRecord.event_id r.
Proof.
  induction analyzers as [|[c t] analyzers IH]; intros Hnd Hoks.
  - split; [constructor|intros r []].
  - inversion Hnd as [|? ? Hnotin Hnd']; subst.
    destruct IH as [IHnd IHin]; [assumption|intros; apply Hoks; now right|].
    destruct (Hoks c t (or_introl eq_refl)) as [Hwf Hcore Howned].
    unfold Py.values in *. cbn [map flat_map snd fst Py.keys] in *.
    split.
    + rewrite map_app. apply NoDup_app.
      * apply nodup_pairs. rewrite (record_ids_of sim) by assumption.
        exact (wf_nodup _ _ Hwf).
      * exact IHnd.
      * intros [core id] Hin1 Hin2.
        apply in_map_iff in Hin1. destruct Hin1 as (r1 & Heq1 & Hr1).
        apply in_map_iff in Hin2. destruct Hin2 as (r2 & Heq2 & Hr2).
        inversion Heq1. inversion Heq2. subst.
        apply Hnotin. rewrite <- (Howned r1 Hr1).
        replace (BranchRecord.core_id r1) with (BranchRecord.core_id r2)
          by congruence.
        exact (proj1 (IHin r2 Hr2)).
    + intros r Hin. apply in_app_or in Hin. destruct Hin as [Hin|Hin].
      * split; [left; symmetry; now apply Howned|].
        assert (Hid : In (BranchRecord.event_id r) (record_ids t)).
        { rewrite <- (record_ids_of sim) by assumption. now apply in_map. }
        apply (wf_ids _ _ Hwf) in Hid. lia.
      * destruct (IHin r Hin) as [Hk Hid]. split; [now right|exact Hid].
Qed.

Lemma wf_count (sim : Sim) (self : CoreStateAnalyzer.t) :
  well_formed sim self ->
  Z.of_nat (List.length (records_of self)) + 1
  = CoreStateAnalyzer.next_event_id self.
Proof.
  intros Hwf. rewrite <- (length_map BranchRecord.event_id).
  rewrite (record_ids_of sim) by assumption.
  pose proof (wf_next _ _ Hwf) as Hnext.
  set (n := Z.to_nat (CoreStateAnalyzer.next_event_id self - 1)).
  assert (Hperm : Permutation (record_ids self) (map Z.of_nat (seq 1 n))).
  { apply NoDup_Permutation.
    - exact (wf_nodup _ _ Hwf).
    - rewrite <- count_from_seq. clear. generalize (Z.of_nat 1).
      induction n as [|n IH]; intros z; simpl; constructor; [|apply IH].
      assert (Hlow : forall k z', In z (count_from z' k) -> z' <= z).
      { clear. induction k as [|k IHk]; simpl; intros z' Hin; [contradiction|].
        destruct Hin as [->|Hin]; [lia|]. apply IHk in Hin. lia. }
      intros Hin. apply Hlow in Hin. lia.
    - intros id. rewrite (wf_ids _ _ Hwf), in_map_iff. split.
      + intros Hid. exists (Z.to_nat id). split; [lia|]. apply in_seq. lia.
      + intros (i & <- & Hi). apply in_seq in Hi. lia. }
  apply Permutation_length in Hperm. rewrite length_map, length_seq in Hperm. lia.
Qed.

Lemma filter_length_le {A : Type} (p q : A -> bool) (l : list A) :
  (forall x, p x = true -> q x = true) ->
  (List.length (filter p l) <= List.length (filter q l))%nat.
Proof.
  intros Himp. induction l as [|x l IH]; simpl; [lia|].
  destruct (p x) eqn:Hp.
  - rewrite (Himp x Hp). simpl. lia.
  - destruct (q x); simpl; lia.
Qed.

(** Every run of hooks after a successful [setup]: it does not raise, and
    it leaves an aggregator that satisfies [aggregator_ok]. *)
Lemma run_after_setup (sim : Sim) (args : option string)
      (self0 : CoreStateAtBranchEventAnalyzer.t) (hooks : list Hooks.hook) :
  CoreStateAtBranchEventAnalyzer.setup sim args = Py.Ok self0 ->
  exists self,
    Hooks.run sim hooks self0 = Py.Ok self
    /\ aggregator_ok sim self
    /\ Py.keys (CoreStateAtBranchEventAnalyzer.core_analyzers self)
       = Py.range (ncores sim)
    /\ CoreStateAtBranchEventAnalyzer.total_branches self
       = Z.of_nat (List.length (filter Hooks.is_branch hooks))
    /\ List.length (CoreStateAtBranchEventAnalyzer.all_completed_records self)
       = List.length (filter (Hooks.on_known_core (ncores sim)) hooks)
    /\ (forall core tracker,
           Py.get (CoreStateAtBranchEventAnalyzer.core_analyzers self) core
           = Some tracker ->
           List.length (records_of tracker)
           = List.length (filter (Hooks.on_core core) hooks))
    /\ configuration self = configuration self0.
Proof.
  intros Hsetup.
  destruct (setup_ok sim args self0 Hsetup) as (Hok0 & Hkeys0 & Htotal0 & Hall0).
  destruct (hooks_run sim (ncores sim) hooks self0 Hok0 Hkeys0)
    as (self & Hrun & Hok & Hkeys & Htotal & Hlen & Hcores & Hconf).
  exists self. split; [exact Hrun|]. split; [exact Hok|]. split; [exact Hkeys|].
  split; [lia|]. split; [now rewrite Hlen, Hall0|]. split; [|exact Hconf].
  intros core tracker Hget.
  assert (Hin : In core (Py.keys (CoreStateAtBranchEventAnalyzer.core_analyzers self0))).
  { rewrite Hkeys0, <- Hkeys. apply get_some_in in Hget. unfold Py.keys.
    change core with (fst (core, tracker)). now apply in_map. }
  destruct (get_in _ _ Hin) as (tracker0 & Hget0 & Hin0).
  destruct (Hcores core tracker0 Hget0) as (tracker' & Hget' & Hlen').
  rewrite Hget in Hget'. inversion Hget'. subst tracker'.
  rewrite Hlen'.
  assert (Hempty : records_of tracker0 = []).
  { rewrite all_records_flat in Hall0.
    assert (Hv : In tracker0
                    (Py.values (CoreStateAtBranchEventAnalyzer.core_analyzers self0))).
    { unfold Py.values. change tracker0 with (snd (core, tracker0)). now apply in_map. }
    revert Hall0 Hv.
    generalize (Py.values (CoreStateAtBranchEventAnalyzer.core_analyzers self0)) as l.
    induction l as [|t l IH]; simpl; intros Hnil Hv; [contradiction|].
    apply app_eq_nil in Hnil. destruct Hnil as [Hhead Htail].
    destruct Hv as [->|Hv]; [exact Hhead|now apply IH]. }
  now rewrite Hempty.
Qed.

(** X4. After a successful [setup], no sequence of branch and periodic
    hooks raises.  At any point of the run [total_branches] is the number
    of branch hooks received, and the number of records, completed and
    active together, is the number of branch hooks that named a core in
    [0 .. ncores - 1]: no record is lost and none is made for another
    core, so there are never more records than counted branches.  The
    tracker of a core holds as many records as branch hooks named that
    core, and the configuration is the one [setup] left. *)
Theorem run_counts_branches_and_records
        (sim : Sim) (args : option string)
        (self0 : CoreStateAtBranchEventAnalyzer.t) (hooks : list Hooks.hook) :
  CoreStateAtBranchEventAnalyzer.setup sim args = Py.Ok self0 ->
  exists self,
    Hooks.run sim hooks self0 = Py.Ok self
    /\ CoreStateAtBranchEventAnalyzer.total_branches self
       = Z.of_nat (List.length (filter Hooks.is_branch hooks))
    /\ List.length (CoreStateAtBranchEventAnalyzer.all_completed_records self)
       = List.length (filter (Hooks.on_known_core (ncores sim)) hooks)
    /\ Z.of_nat (List.length (CoreStateAtBranchEventAnalyzer.all_completed_records self))
       <= CoreStateAtBranchEventAnalyzer.total_branches self
    /\ (forall core,
           match Py.get (CoreStateAtBranchEventAnalyzer.core_analyzers self) core with
           | Some tracker =>
               0 <= core < ncores sim
               /\ List.length (records_of tracker)
                  = List.length (filter (Hooks.on_core core) hooks)
           | None => ~ 0 <= core < ncores sim
           end)
    /\ configuration self = configuration self0.
Proof.
  intros Hsetup.
  destruct (run_after_setup sim args self0 hooks Hsetup)
    as (self & Hrun & Hok & Hkeys & Htotal & Hlen & Hcores & Hconf).
  exists self. split; [exact Hrun|]. split; [exact Htotal|]. split; [exact Hlen|].
  split; [|split; [|exact Hconf]].
  - rewrite Hlen, Htotal. apply Nat2Z.inj_le. apply filter_length_le.
    intros [now core ip p a i|now time delta]; simpl; [reflexivity|discriminate].
  - intros core.
    destruct (Py.get (CoreStateAtBranchEventAnalyzer.core_analyzers self) core)
      as [tracker|] eqn:Hget.
    + split; [|now apply Hcores]. apply in_range. rewrite <- Hkeys.
      apply get_some_in in Hget. unfold Py.keys.
      change core with (fst (core, tracker)). now apply in_map.
    + intros Hcore. apply in_range in Hcore. rewrite <- Hkeys in Hcore.
      destruct (get_in _ _ Hcore) as (t & Ht & _). congruence.
Qed.

Lemma run_counts_branches_and_records_witness :
  CoreStateAtBranchEventAnalyzer.setup two_core_sim None = Py.Ok two_core_start
  /\ exists self,
      Hooks.run two_core_sim example_hooks two_core_start = Py.Ok self
      /\ CoreStateAtBranchEventAnalyzer.total_branches self = 3
      /\ List.length (CoreStateAtBranchEventAnalyzer.all_completed_records self)
         = 2%nat.
Proof.
  assert (Hsetup :
            CoreStateAtBranchEventAnalyzer.setup two_core_sim None
            = Py.Ok two_core_start) by reflexivity.
  split; [exact Hsetup|].
  destruct (run_counts_branches_and_records two_core_sim None _ example_hooks Hsetup)
    as (self & Hrun & Htotal & Hlen & _).
  exists self. split; [exact Hrun|]. split; [exact Htotal|exact Hlen].
Defined.

(** X5. In every run after a successful [setup], a record is identified
    by its core and its id: no two records of the run share both.  The
    core of a record is one of [0 .. ncores - 1], and its id lies between
    1 and the number of branch hooks received for that core. *)
Theorem records_are_identified_by_core_and_id
        (sim : Sim) (args : option string)
        (self0 : CoreStateAtBranchEventAnalyzer.t) (hooks : list Hooks.hook) :
  CoreStateAtBranchEventAnalyzer.setup sim args = Py.Ok self0 ->
  exists self,
    Hooks.run sim hooks self0 = Py.Ok self
    /\ NoDup (map (fun r => (BranchRecord.core_id r, BranchRecord.event_id r))
                  (CoreStateAtBranchEventAnalyzer.all_completed_records self))
    /\ forall r,
      In r (CoreStateAtBranchEventAnalyzer.all_completed_records self) ->
      0 <= BranchRecord.core_id r < ncores sim
      /\ 1 <= BranchRecord.event_id r
         <= Z.of_nat (List.length
                        (filter (Hooks.on_core (BranchRecord.core_id r)) hooks)).
Proof.
  intros Hsetup.
  destruct (run_after_setup sim args self0 hooks Hsetup)
    as (self & Hrun & [Hnd Hoks] & Hkeys & _ & _ & Hcores & _).
  exists self. split; [exact Hrun|].
  destruct (aggregator_records sim _ Hnd Hoks) as [Hpairs Hin].
  rewrite all_records_flat. split; [exact Hpairs|].
  intros r Hr. destruct (Hin r Hr) as [Hcore Hid].
  split; [apply in_range; now rewrite <- Hkeys|]. split; [exact Hid|].
  apply in_flat_map in Hr. destruct Hr as (tracker & Htracker & Hr).
  unfold Py.values in Htracker. apply in_map_iff in Htracker.
  destruct Htracker as ([core t] & Heq & Hentry). simpl in Heq. subst t.
  destruct (Hoks core tracker Hentry) as [Hwf _ Howned].
  rewrite (Howned r Hr).
  rewrite <- (Hcores core tracker (get_of_in _ _ _ Hnd Hentry)).
  pose proof (wf_count sim tracker Hwf) as Hcount.
  assert (Hlt : In (BranchRecord.event_id r) (record_ids tracker)).
  { rewrite <- (record_ids_of sim) by assumption. now apply in_map. }
  apply (wf_ids _ _ Hwf) in Hlt. lia.
Qed.

Lemma records_are_identified_by_core_and_id_witness :
  CoreStateAtBranchEventAnalyzer.setup two_core_sim None = Py.Ok two_core_start
  /\ exists self,
      Hooks.run two_core_sim example_hooks two_core_start = Py.Ok self
      /\ NoDup (map (fun r => (BranchRecord.core_id r, BranchRecord.event_id r))
                    (CoreStateAtBranchEventAnalyzer.all_completed_records self)).
Proof.
  assert (Hsetup :
            CoreStateAtBranchEventAnalyzer.setup two_core_sim None
            = Py.Ok two_core_start) by reflexivity.
  split; [exact Hsetup|].
  destruct (records_are_identified_by_core_and_id
              two_core_sim None _ example_hooks Hsetup)
    as (self & Hrun & Hnd & _).
  exists self. split; [exact Hrun|exact Hnd].
Defined.

(** X6. In every run after a successful [setup], a periodic hook does
    not raise, changes neither [total_branches] nor the configuration nor
    the set of cores, and leaves under every core the result of that
    tracker's own [collect_state_sample], which reads the state of that
    very core: the trackers do not influence each other. *)
Theorem periodic_hook_samples_each_core
        (sim : Sim) (args : option string)
        (self0 : CoreStateAtBranchEventAnalyzer.t) (hooks : list Hooks.hook)
        (now : Probe) (time time_delta : Z) :
  CoreStateAtBranchEventAnalyzer.setup sim args = Py.Ok self0 ->
  exists self self',
    Hooks.run sim hooks self0 = Py.Ok self
    /\ CoreStateAtBranchEventAnalyzer.hook_periodic sim now self time time_delta
       = Py.Ok self'
    /\ CoreStateAtBranchEventAnalyzer.total_branches self'
       = CoreStateAtBranchEventAnalyzer.total_branches self
    /\ configuration self' = configuration self
    /\ Py.keys (CoreStateAtBranchEventAnalyzer.core_analyzers self')
       = Py.keys (CoreStateAtBranchEventAnalyzer.core_analyzers self)
    /\ forall core tracker,
      Py.get (CoreStateAtBranchEventAnalyzer.core_analyzers self) core
      = Some tracker ->
      CoreStateAnalyzer.core_id tracker = core
      /\ exists tracker',
          CoreStateAnalyzer.collect_state_sample sim now tracker time time_delta
          = Py.Ok tracker'
          /\ Py.get (CoreStateAtBranchEventAnalyzer.core_analyzers self') core
             = Some tracker'.
Proof.
  intros Hsetup.
  destruct (run_after_setup sim args self0 hooks Hsetup)
    as (self & Hrun & [Hnd Hoks] & _).
  destruct (collect_all_ok sim now time time_delta _ Hoks)
    as (analyzers' & Hall & Hkeys & _ & _ & Hget).
  exists self. eexists. split; [exact Hrun|].
  unfold CoreStateAtBranchEventAnalyzer.hook_periodic. rewrite Hall.
  cbn [Py.bind]. split; [reflexivity|]. split; [reflexivity|].
  split; [reflexivity|]. split; [exact Hkeys|].
  intros core tracker Hcore. split.
  - exact (ok_core _ _ _ (Hoks core tracker (get_some_in _ _ _ Hcore))).
  - destruct (Hget core tracker Hcore) as (tracker' & Htick & Hget' & _).
    exists tracker'. now split.
Qed.

Lemma periodic_hook_samples_each_core_witness :
  CoreStateAtBranchEventAnalyzer.setup two_core_sim None = Py.Ok two_core_start
  /\ exists self self',
      Hooks.run two_core_sim example_hooks two_core_start = Py.Ok self
      /\ CoreStateAtBranchEventAnalyzer.hook_periodic
           two_core_sim (example_probe 3000000000 IDLE) self 3000000000 1000000000
         = Py.Ok self'.
Proof.
  assert (Hsetup :
            CoreStateAtBranchEventAnalyzer.setup two_core_sim None
            = Py.Ok two_core_start) by reflexivity.
  split; [exact Hsetup|].
  destruct (periodic_hook_samples_each_core
              two_core_sim None _ example_hooks
              (example_probe 3000000000 IDLE) 3000000000 1000000000 Hsetup)
    as (self & self' & Hrun & Hhook & _).
  exists self, self'. split; [exact Hrun|exact Hhook].
Defined.

(** ** The files written at the end *)

(** X7. For the aggregator of a run that began with [setup]:
    [hook_sim_end] writes two different files and touches no other.  The
    records file always holds the header and one line per record of the
    run, completed and active, also when the summary raises; the summary
    file holds its header and the rows written before the summary ended;
    what the hook raises is what the summary raised. *)
Theorem sim_end_writes_two_files
        (F : Type) (ops : PyFloat.Ops F) (sim : Sim) (args : option string)
        (self0 self : CoreStateAtBranchEventAnalyzer.t)
        (files : Py.dict string string) :
  CoreStateAtBranchEventAnalyzer.setup sim args = Py.Ok self0 ->
  configuration self = configuration self0 ->
  let all_records := CoreStateAtBranchEventAnalyzer.all_completed_records self in
  let summary :=
    CoreStateAtBranchEventAnalyzer.generate_analysis_summary self all_records in
  let result := CoreStateAtBranchEventAnalyzer.hook_sim_end self files in
  CoreStateAtBranchEventAnalyzer.state_patterns_file self
  <> CoreStateAtBranchEventAnalyzer.analysis_summary_file self
  /\ Py.get (fst result) (CoreStateAtBranchEventAnalyzer.state_patterns_file self)
     = Some (String.concat EmptyString
               (CoreStateAtBranchEventAnalyzer.state_patterns_header
                  :: map CoreStateAtBranchEventAnalyzer.record_line all_records))
  /\ Py.get (fst result) (CoreStateAtBranchEventAnalyzer.analysis_summary_file self)
     = Some (String.concat EmptyString
               (CoreStateAtBranchEventAnalyzer.analysis_summary_header
                  :: map CoreStateAtBranchEventAnalyzer.summary_line (fst summary)))
  /\ snd result = snd summary
  /\ forall path,
      path <> CoreStateAtBranchEventAnalyzer.state_patterns_file self ->
      path <> CoreStateAtBranchEventAnalyzer.analysis_summary_file self ->
      Py.get (fst result) path = Py.get files path.
Proof.
  intros Hsetup Hconf all_records summary result. subst result summary all_records.
  assert (Hpaths : CoreStateAtBranchEventAnalyzer.state_patterns_file self
                   <> CoreStateAtBranchEventAnalyzer.analysis_summary_file self).
  { destruct (setup_shape sim args self0 Hsetup) as (_ & _ & _ & _ & _ & _ & Hp).
    unfold configuration in Hconf. inversion Hconf. congruence. }
  split; [exact Hpaths|].
  unfold CoreStateAtBranchEventAnalyzer.hook_sim_end.
  destruct (CoreStateAtBranchEventAnalyzer.generate_analysis_summary
              self (CoreStateAtBranchEventAnalyzer.all_completed_records self))
    as [rows e].
  cbn [fst snd]. split; [|split; [|split]].
  - rewrite get_setitem_other by congruence. apply get_setitem_same.
  - apply get_setitem_same.
  - reflexivity.
  - intros path H1 H2. rewrite !get_setitem_other by congruence. reflexivity.
Qed.

Lemma sim_end_writes_two_files_witness :
  CoreStateAtBranchEventAnalyzer.setup two_core_sim None = Py.Ok two_core_start
  /\ configuration example_analyzer = configuration two_core_start
  /\ Py.get (fst (CoreStateAtBranchEventAnalyzer.hook_sim_end
                    (F := float) example_analyzer [("notes.txt", "kept")]%string))
            "notes.txt"%string
     = Some "kept"%string.
Proof.
  assert (Hsetup :
            CoreStateAtBranchEventAnalyzer.setup two_core_sim None
            = Py.Ok two_core_start) by reflexivity.
  assert (Hconf : configuration example_analyzer = configuration two_core_start)
    by reflexivity.
  split; [exact Hsetup|]. split; [exact Hconf|].
  destruct (sim_end_writes_two_files float PyFloat.binary64 two_core_sim None _
              example_analyzer [("notes.txt", "kept")]%string Hsetup Hconf)
    as (_ & _ & _ & _ & Hother).
  rewrite Hother by discriminate. reflexivity.
Defined.

(** ** More on the summary *)

Lemma count_record_without_idle (pattern_stats : Py.dict string PatternStats.t)
      (record : BranchRecord.t) :
  has_idle record = false ->
  CoreStateAtBranchEventAnalyzer.count_record pattern_stats record = pattern_stats.
Proof.
  intros Hidle. unfold CoreStateAtBranchEventAnalyzer.count_record.
  rewrite has_idle_positions in Hidle.
  destruct (CoreStateAtBranchEventAnalyzer.idle_positions_of record);
    [reflexivity|discriminate].
Qed.

(** X8. When no record has an IDLE sample, and so also when there is no
    record at all, the summary has no row and does not raise, whatever the
    window (0 included) and whatever the float arithmetic; [hook_sim_end]
    then writes the bare header and does not raise either. *)
Theorem summary_is_empty_without_idle
        (F : Type) (ops : PyFloat.Ops F)
        (self : CoreStateAtBranchEventAnalyzer.t)
        (all_records : list BranchRecord.t) :
  forallb (fun record => negb (has_idle record)) all_records = true ->
  CoreStateAtBranchEventAnalyzer.generate_analysis_summary self all_records
  = ([], None)
  /\ (all_records = CoreStateAtBranchEventAnalyzer.all_completed_records self ->
      forall files,
        snd (CoreStateAtBranchEventAnalyzer.hook_sim_end self files) = None
        /\ Py.get (fst (CoreStateAtBranchEventAnalyzer.hook_sim_end self files))
                  (CoreStateAtBranchEventAnalyzer.analysis_summary_file self)
           = Some CoreStateAtBranchEventAnalyzer.analysis_summary_header).
Proof.
  intros Hnone.
  assert (Hfold : forall pattern_stats,
             fold_left CoreStateAtBranchEventAnalyzer.count_record
                       all_records pattern_stats = pattern_stats).
  { induction all_records as [|record records IH]; intros pattern_stats; simpl;
      [reflexivity|].
    simpl in Hnone. apply andb_prop in Hnone. destruct Hnone as [Hrecord Hrest].
    apply negb_true_iff in Hrecord.
    rewrite count_record_without_idle by assumption. now apply IH. }
  assert (Hgen : CoreStateAtBranchEventAnalyzer.generate_analysis_summary
                   self all_records = ([], None)).
  { unfold CoreStateAtBranchEventAnalyzer.generate_analysis_summary,
      CoreStateAtBranchEventAnalyzer.pattern_stats_of.
    now rewrite Hfold. }
  split; [exact Hgen|].
  intros Hall files. unfold CoreStateAtBranchEventAnalyzer.hook_sim_end.
  rewrite <- Hall, Hgen. cbn [fst snd map]. split; [reflexivity|].
  now rewrite get_setitem_same.
Qed.

Lemma summary_is_empty_without_idle_witness :
  forallb (fun record => negb (has_idle record)) busy_records = true
  /\ CoreStateAtBranchEventAnalyzer.generate_analysis_summary
       (F := float) example_analyzer busy_records = ([], None).
Proof.
  assert (Hnone : forallb (fun record => negb (has_idle record)) busy_records = true)
    by reflexivity.
  split; [exact Hnone|].
  exact (proj1 (summary_is_empty_without_idle
                  float PyFloat.binary64 example_analyzer busy_records Hnone)).
Defined.

(** ** The summary does not depend on the order of the records *)

Lemma perm_filter {A : Type} (p : A -> bool) (l l' : list A) :
  Permutation l l' -> Permutation (filter p l) (filter p l').
Proof.
  induction 1 as [|x l l' _ IH|x y l|l l' l'' _ IH1 _ IH2]; simpl.
  - constructor.
  - destruct (p x); [now constructor|exact IH].
  - destruct (p x), (p y); try reflexivity. constructor.
  - now transitivity (filter p l').
Qed.

Lemma perm_flat_map {A B : Type} (f : A -> list B) (l l' : list A) :
  Permutation l l' -> Permutation (flat_map f l) (flat_map f l').
Proof.
  induction 1 as [|x l l' _ IH|x y l|l l' l'' _ IH1 _ IH2]; simpl.
  - constructor.
  - now apply Permutation_app_head.
  - rewrite !app_assoc. apply Permutation_app_tail. apply Permutation_app_comm.
  - now transitivity (flat_map f l').
Qed.

Lemma sum_from (l : list Z) (a : Z) : fold_left Z.add l a = a + Py.sum l.
Proof.
  unfold Py.sum. revert a. induction l as [|x l IH]; intros a; simpl; [lia|].
  rewrite (IH (a + x)), (IH x). lia.
Qed.

Lemma sum_cons (x : Z) (l : list Z) : Py.sum (x :: l) = x + Py.sum l.
Proof. unfold Py.sum at 1. simpl. apply sum_from. Qed.

Lemma sum_perm (l l' : list Z) : Permutation l l' -> Py.sum l = Py.sum l'.
Proof.
  induction 1 as [|x l l' _ IH|x y l|l l' l'' _ IH1 _ IH2].
  - reflexivity.
  - rewrite !sum_cons. lia.
  - rewrite !sum_cons. lia.
  - congruence.
Qed.

Lemma len_perm {A : Type} (l l' : list A) : Permutation l l' -> Py.len l = Py.len l'.
Proof. intros Hperm. unfold Py.len. now rewrite (Permutation_length Hperm). Qed.

(** The row of an entry depends on its positions only through their sum
    and their number, and so does whether the entry converts. *)
Lemma binary64_row_perm (self : CoreStateAtBranchEventAnalyzer.t) (key : string)
      (records records' : list BranchRecord.t) :
  Permutation records records' ->
  binary64_row self (key, expected_stats records)
  = binary64_row self (key, expected_stats records')
  /\ converts self (expected_stats records)
     = converts self (expected_stats records').
Proof.
  intros Hperm. unfold binary64_row, converts, expected_stats.
  cbn [fst snd PatternStats.count PatternStats.idle_positions
           PatternStats.branch_taken_count].
  pose proof (perm_flat_map idle_indices _ _ Hperm) as Hpos.
  pose proof (perm_filter BranchRecord.branch_taken _ _ Hperm) as Htaken.
  now rewrite (len_perm _ _ Hperm), (sum_perm _ _ Hpos), (len_perm _ _ Hpos),
    (len_perm _ _ Htaken).
Qed.

Lemma idle_records_perm (ip : Z) (l l' : list BranchRecord.t) :
  Permutation l l' -> Permutation (idle_records ip l) (idle_records ip l').
Proof. intros Hperm. unfold idle_records. now apply perm_filter. Qed.

Lemma rows_of_stats (self : CoreStateAtBranchEventAnalyzer.t)
      (all_records : list BranchRecord.t) (row : SummaryRow.t float) :
  In row (map (binary64_row self)
              (CoreStateAtBranchEventAnalyzer.pattern_stats_of all_records))
  <-> exists ip first rest,
      idle_records ip all_records = first :: rest
      /\ row = binary64_row self (Py.hex ip, expected_stats (first :: rest)).
Proof.
  rewrite in_map_iff. split.
  - intros ([key stats] & <- & Hin).
    destruct (pattern_stats_entries all_records key stats Hin)
      as (ip & first & rest & -> & Hrecords & -> & _).
    now exists ip, first, rest.
  - intros (ip & first & rest & Hrecords & ->).
    exists (Py.hex ip, expected_stats (first :: rest)). split; [reflexivity|].
    destruct (pattern_stats_agree all_records) as (_ & _ & Hget).
    specialize (Hget ip). unfold expected_entry in Hget. rewrite Hrecords in Hget.
    now apply get_some_in.
Qed.

Lemma rows_nodup (self : CoreStateAtBranchEventAnalyzer.t)
      (all_records : list BranchRecord.t) :
  NoDup (map (binary64_row self)
             (CoreStateAtBranchEventAnalyzer.pattern_stats_of all_records)).
Proof.
  destruct (pattern_stats_agree all_records) as (Hnd & _ & _).
  revert Hnd.
  generalize (CoreStateAtBranchEventAnalyzer.pattern_stats_of all_records) as d.
  induction d as [|[key stats] d IH]; cbn [map Py.keys fst]; intros Hnd;
    [constructor|].
  inversion Hnd as [|? ? Hnotin Hnd']; subst. constructor; [|now apply IH].
  intros Hin. apply Hnotin. apply in_map_iff in Hin.
  destruct Hin as ([key' stats'] & Heq & Hin).
  apply (f_equal SummaryRow.Branch_IP) in Heq.
  unfold binary64_row in Heq. cbn [SummaryRow.Branch_IP fst] in Heq. subst key'.
  unfold Py.keys. change key with (fst (key, stats')). now apply in_map.
Qed.

(** Whether every entry converts, said of the records. *)
Lemma entries_convert_iff (self : CoreStateAtBranchEventAnalyzer.t)
      (all_records : list BranchRecord.t) :
  forallb (fun entry => converts self (snd entry))
          (CoreStateAtBranchEventAnalyzer.pattern_stats_of all_records) = true
  <-> forall ip,
      converts self (expected_stats (idle_records ip all_records)) = true.
Proof.
  split; [|apply entries_convert].
  intros Hall ip.
  destruct (idle_records ip all_records) as [|first rest] eqn:Hrecords;
    [reflexivity|].
  rewrite forallb_forall in Hall.
  apply (Hall (Py.hex ip, expected_stats (first :: rest))).
  destruct (pattern_stats_agree all_records) as (_ & _ & Hget).
  specialize (Hget ip). unfold expected_entry in Hget. rewrite Hrecords in Hget.
  now apply get_some_in.
Qed.

(** X9. The summary does not depend on the order in which the records
    are collected, apart from the order of its rows.  For a window other
    than 0, whether the summary ends with an exception is the same for a
    permutation of the records; and when every integer has a double, the
    rows computed from the permutation are a permutation of the rows
    computed from the records, every row with the same values.  (When a
    conversion raises, the rows written before it do depend on the
    order.) *)
Theorem summary_ignores_record_order
        (self : CoreStateAtBranchEventAnalyzer.t)
        (all_records all_records' : list BranchRecord.t) :
  CoreStateAtBranchEventAnalyzer.observation_window self <> 0 ->
  Permutation all_records all_records' ->
  snd (CoreStateAtBranchEventAnalyzer.generate_analysis_summary
         (F := float) self all_records)
  = snd (CoreStateAtBranchEventAnalyzer.generate_analysis_summary
           (F := float) self all_records')
  /\ ((forall ip,
          converts self (expected_stats (idle_records ip all_records)) = true) ->
      exists rows rows' : list (SummaryRow.t float),
        CoreStateAtBranchEventAnalyzer.generate_analysis_summary self all_records
        = (rows, None)
        /\ CoreStateAtBranchEventAnalyzer.generate_analysis_summary self all_records'
           = (rows', None)
        /\ Permutation rows rows').
Proof.
  intros Hwindow Hperm.
  assert (Hfits : forall l l',
             Permutation l l' ->
             (forall ip, converts self (expected_stats (idle_records ip l)) = true) ->
             forall ip, converts self (expected_stats (idle_records ip l')) = true).
  { intros l l' Hp Hfit ip.
    rewrite <- (proj2 (binary64_row_perm self EmptyString _ _
                         (idle_records_perm ip l l' Hp))).
    apply Hfit. }
  rewrite !generate_binary64 by assumption. cbv zeta. cbn [snd]. split.
  - destruct (forallb (fun entry => converts self (snd entry))
                (CoreStateAtBranchEventAnalyzer.pattern_stats_of all_records))
      eqn:Hall;
      destruct (forallb (fun entry => converts self (snd entry))
                  (CoreStateAtBranchEventAnalyzer.pattern_stats_of all_records'))
        eqn:Hall'; try reflexivity; exfalso.
    + pose proof (proj1 (entries_convert_iff self all_records) Hall) as Hfit.
      pose proof (entries_convert self all_records'
                    (Hfits _ _ Hperm Hfit)) as H. congruence.
    + pose proof (proj1 (entries_convert_iff self all_records') Hall') as Hfit.
      pose proof (entries_convert self all_records
                    (Hfits _ _ (Permutation_sym Hperm) Hfit)) as H. congruence.
  - intros Hfit.
    pose proof (entries_convert self all_records Hfit) as Hall.
    pose proof (entries_convert self all_records'
                  (Hfits _ _ Hperm Hfit)) as Hall'.
    rewrite Hall, Hall', !convertible_prefix_all by assumption.
    eexists. eexists. split; [reflexivity|]. split; [reflexivity|].
    assert (Hhalf : forall l l' row,
               Permutation l l' ->
               In row (map (binary64_row self)
                           (CoreStateAtBranchEventAnalyzer.pattern_stats_of l)) ->
               In row (map (binary64_row self)
                           (CoreStateAtBranchEventAnalyzer.pattern_stats_of l'))).
    { intros l l' row Hp Hin. apply rows_of_stats in Hin.
      destruct Hin as (ip & first & rest & Hrecords & ->).
      pose proof (idle_records_perm ip l l' Hp) as Hidle.
      rewrite Hrecords in Hidle.
      destruct (idle_records ip l') as [|first' rest'] eqn:Hrecords'.
      - apply Permutation_sym, Permutation_nil in Hidle. discriminate.
      - apply rows_of_stats. exists ip, first', rest'. split; [exact Hrecords'|].
        now apply binary64_row_perm. }
    apply NoDup_Permutation; try apply rows_nodup.
    intros row. split; apply Hhalf; [assumption|now symmetry].
Qed.

Lemma summary_ignores_record_order_witness :
  CoreStateAtBranchEventAnalyzer.observation_window example_analyzer <> 0
  /\ Permutation example_records (rev example_records)
  /\ exists rows rows' : list (SummaryRow.t float),
      CoreStateAtBranchEventAnalyzer.generate_analysis_summary
        example_analyzer example_records = (rows, None)
      /\ CoreStateAtBranchEventAnalyzer.generate_analysis_summary
           example_analyzer (rev example_records) = (rows', None)
      /\ Permutation rows rows'.
Proof.
  assert (Hwindow :
            CoreStateAtBranchEventAnalyzer.observation_window example_analyzer <> 0)
    by discriminate.
  assert (Hperm : Permutation example_records (rev example_records))
    by apply Permutation_rev.
  split; [exact Hwindow|]. split; [exact Hperm|].
  exact (proj2 (summary_ignores_record_order example_analyzer _ _ Hwindow Hperm)
               example_records_convert).
Defined.

(** ** The range of the values in a row *)

Lemma sum_nonnegative (l : list Z) : Forall (fun x => 0 <= x) l -> 0 <= Py.sum l.
Proof.
  induction 1 as [|x l Hx _ IH]; [reflexivity|]. rewrite sum_cons. lia.
Qed.

Lemma idle_indices_nonnegative (records : list BranchRecord.t) :
  Forall (fun x => 0 <= x) (flat_map idle_indices records).
Proof.
  apply Forall_forall. intros x Hin. apply in_flat_map in Hin.
  destruct Hin as (r & _ & Hx). unfold idle_indices in Hx.
  apply in_map_iff in Hx. destruct Hx as (i & <- & _). lia.
Qed.

(** The sign of the double of an integer. *)
Lemma nearest_sign (n : Z) :
  PyFloat.too_large n = false ->
  match Prim2SF (PyFloat.nearest n) with
  | S754_zero s => n = 0 /\ s = false
  | S754_finite s _ _ => n <> 0 /\ s = (n <? 0)
  | _ => False
  end.
Proof.
  intros Hn. rewrite prim_of_nearest by assumption.
  pose proof (binary_normalize_int n) as H. rewrite Hn in H. exact (proj2 H).
Qed.

(** A quotient of finite doubles has the sign of its operands and is not
    a NaN. *)
Lemma div_sign (x y : float) (sx sy : bool) :
  match Prim2SF x with
  | S754_zero s | S754_finite s _ _ => s = sx
  | _ => False
  end ->
  match Prim2SF y with
  | S754_finite s _ _ => s = sy
  | _ => False
  end ->
  match Prim2SF (x / y) with
  | S754_zero s | S754_finite s _ _ | S754_infinity s => s = xorb sx sy
  | S754_nan => False
  end.
Proof.
  intros Hx Hy. rewrite div_spec. unfold SF64div, SFdiv.
  destruct (Prim2SF x) as [s1|s1| |s1 m1 e1]; try contradiction;
    destruct (Prim2SF y) as [s2|s2| |s2 m2 e2]; try contradiction; subst.
  - reflexivity.
  - unfold SFdiv_core_binary.
    set (e' := Z.min _ _). set (m' := match e1 - e2 - e' with
                                      | Z0 => Zpos m1
                                      | Zpos _ => Z.shiftl (Zpos m1) (e1 - e2 - e')
                                      | Zneg _ => 0
                                      end).
    assert (Hm' : 0 <= m').
    { unfold m'. destruct (e1 - e2 - e'); try lia. apply Z.shiftl_nonneg. lia. }
    destruct (Z.div_eucl m' (Zpos m2)) as [q r] eqn:E.
    assert (Hq : q = m' / Zpos m2) by (unfold Z.div; now rewrite E).
    assert (Hq0 : 0 <= q) by (rewrite Hq; apply Z.div_pos; lia).
    exact (binary_round_aux_sign (xorb sx sy) q e' (new_location (Zpos m2) r) Hq0).
Qed.

(** So has a product with a finite double. *)
Lemma mul_sign (x y : float) (sx sy : bool) :
  match Prim2SF x with
  | S754_zero s | S754_finite s _ _ | S754_infinity s => s = sx
  | S754_nan => False
  end ->
  match Prim2SF y with
  | S754_finite s _ _ => s = sy
  | _ => False
  end ->
  match Prim2SF (x * y) with
  | S754_zero s | S754_finite s _ _ | S754_infinity s => s = xorb sx sy
  | S754_nan => False
  end.
Proof.
  intros Hx Hy. rewrite mul_spec. unfold SF64mul, SFmul.
  destruct (Prim2SF x) as [s1|s1| |s1 m1 e1]; try contradiction;
    destruct (Prim2SF y) as [s2|s2| |s2 m2 e2]; try contradiction; subst;
    try reflexivity.
  apply binary_round_aux_sign. lia.
Qed.

Lemma leb_zero (x : float) (s : bool) :
  match Prim2SF x with
  | S754_zero s' | S754_finite s' _ _ | S754_infinity s' => s' = s
  | S754_nan => False
  end ->
  if s then (x <=? 0)%float = true else (0 <=? x)%float = true.
Proof.
  intros Hx. destruct s; rewrite leb_spec;
    change (Prim2SF 0%float) with (S754_zero false);
    destruct (Prim2SF x) as [s1|s1| |s1 m1 e1]; try contradiction; subst;
    reflexivity.
Qed.

Lemma convertible_prefix_in (self : CoreStateAtBranchEventAnalyzer.t)
      (entries : list (string * PatternStats.t)) (entry : string * PatternStats.t) :
  In entry (convertible_prefix self entries) ->
  In entry entries /\ converts self (snd entry) = true.
Proof.
  induction entries as [|first entries IH]; cbn [convertible_prefix];
    [contradiction|].
  destruct (converts self (snd first)) eqn:Hfirst; [|contradiction].
  intros [<-|Hin].
  - split; [now left|exact Hfirst].
  - destruct (IH Hin) as [H1 H2]. split; [now right|exact H2].
Qed.

Lemma idle_records_positions (records : list BranchRecord.t) :
  Forall (fun record => has_idle record = true) records ->
  Py.len records <= Py.len (flat_map idle_indices records).
Proof.
  induction 1 as [|record records Hidle _ IH]; [reflexivity|].
  cbn [flat_map]. rewrite len_app.
  rewrite has_idle_positions, idle_positions_are_indices in Hidle.
  destruct (idle_indices record) as [|i l]; [discriminate|].
  unfold Py.len in *. cbn [List.length]. lia.
Qed.

(** X10. For a window other than 0, every row that the summary writes
    has a [Count] of at least 1, and behind it an entry with
    [0 <= branch_taken_count <= count <= len(idle_positions)] and no
    negative position.  Its three doubles are not NaN;
    [Avg_Idle_Position] and [Branch_Taken_Ratio] are not negative, and
    [Idle_Time_Percent] has the sign of the window: it is not negative for
    a positive window and not positive for a negative one, which [setup]
    accepts. *)
Theorem summary_values_are_bounded
        (self : CoreStateAtBranchEventAnalyzer.t)
        (all_records : list BranchRecord.t) (row : SummaryRow.t float) :
  CoreStateAtBranchEventAnalyzer.observation_window self <> 0 ->
  In row (fst (CoreStateAtBranchEventAnalyzer.generate_analysis_summary
                 self all_records)) ->
  exists stats,
    Py.get (CoreStateAtBranchEventAnalyzer.pattern_stats_of all_records)
           (SummaryRow.Branch_IP row) = Some stats
    /\ SummaryRow.Count row = PatternStats.count stats
    /\ 1 <= PatternStats.count stats <= Py.len (PatternStats.idle_positions stats)
    /\ 0 <= PatternStats.branch_taken_count stats <= PatternStats.count stats
    /\ Forall (fun position => 0 <= position) (PatternStats.idle_positions stats)
    /\ (0 <=? SummaryRow.Avg_Idle_Position row)%float = true
    /\ (0 <=? SummaryRow.Branch_Taken_Ratio row)%float = true
    /\ (0 < CoreStateAtBranchEventAnalyzer.observation_window self ->
        (0 <=? SummaryRow.Idle_Time_Percent row)%float = true)
    /\ (CoreStateAtBranchEventAnalyzer.observation_window self < 0 ->
        (SummaryRow.Idle_Time_Percent row <=? 0)%float = true).
Proof.
  intros Hwindow Hin. rewrite generate_binary64 in Hin by assumption.
  cbv zeta in Hin. cbn [fst] in Hin. apply in_map_iff in Hin.
  destruct Hin as ([key stats] & <- & Hin).
  apply convertible_prefix_in in Hin. destruct Hin as [Hin Hconv].
  cbn [snd] in Hconv.
  destruct (pattern_stats_agree all_records) as (Hnd & _ & _).
  destruct (pattern_stats_entries all_records key stats Hin)
    as (ip & first & rest & -> & Hrecords & Hstats & _ & _).
  set (records := first :: rest) in *.
  assert (Hidle : Forall (fun record => has_idle record = true) records).
  { apply Forall_forall. intros record Hrecord. fold records in Hrecords.
    rewrite <- Hrecords in Hrecord.
    apply filter_In in Hrecord. destruct Hrecord as [_ Hrecord].
    now apply andb_prop in Hrecord. }
  assert (Hcount : 1 <= Py.len records).
  { unfold records, Py.len. cbn [List.length]. lia. }
  assert (Htaken : 0 <= Py.len (filter BranchRecord.branch_taken records)
                   <= Py.len records).
  { unfold Py.len. split; [lia|]. apply Nat2Z.inj_le.
    generalize records. clear. intros l. induction l as [|r l IH]; simpl; [lia|].
    destruct (BranchRecord.branch_taken r); simpl; lia. }
  pose proof (idle_records_positions records Hidle) as Hpositions.
  pose proof (sum_nonnegative _ (idle_indices_nonnegative records)) as Hsum.
  unfold converts in Hconv.
  apply andb_prop in Hconv. destruct Hconv as [Hconv H5].
  apply andb_prop in Hconv. destruct Hconv as [Hconv H4].
  apply andb_prop in Hconv. destruct Hconv as [Hconv H3].
  apply andb_prop in Hconv. destruct Hconv as [H1 H2].
  apply negb_true_iff in H1, H2, H3, H4, H5.
  subst stats.
  cbn [expected_stats PatternStats.count PatternStats.idle_positions
         PatternStats.branch_taken_count] in *.
  exists (expected_stats records).
  unfold binary64_row.
  cbn [SummaryRow.Branch_IP SummaryRow.Count SummaryRow.Avg_Idle_Position
         SummaryRow.Branch_Taken_Ratio SummaryRow.Idle_Time_Percent fst snd
         expected_stats PatternStats.count PatternStats.idle_positions
         PatternStats.branch_taken_count].
  split; [now apply get_of_in|]. split; [reflexivity|].
  split; [lia|]. split; [lia|]. split; [apply idle_indices_nonnegative|].
  assert (Hfinite : forall n,
             PyFloat.too_large n = false -> n <> 0 ->
             match Prim2SF (PyFloat.nearest n) with
             | S754_finite s _ _ => s = (n <? 0)
             | _ => False
             end).
  { intros n Hn Hnz. pose proof (nearest_sign n Hn) as H.
    destruct (Prim2SF (PyFloat.nearest n)); try contradiction; [lia|tauto]. }
  assert (Hnonneg : forall n,
             PyFloat.too_large n = false -> 0 <= n ->
             match Prim2SF (PyFloat.nearest n) with
             | S754_zero s | S754_finite s _ _ => s = false
             | _ => False
             end).
  { intros n Hn Hn0. pose proof (nearest_sign n Hn) as H.
    destruct (Prim2SF (PyFloat.nearest n)); try contradiction; [tauto|].
    destruct H as [_ ->]. apply Z.ltb_ge. exact Hn0. }
  pose proof (Hfinite 100 eq_refl ltac:(lia)) as H100.
  change (100 <? 0) with false in H100.
  split; [|split; [|split]].
  - apply (leb_zero _ false).
    pose proof (div_sign _ _ false (Py.len (flat_map idle_indices records) <? 0)
                  (Hnonneg _ H1 Hsum) (Hfinite _ H2 ltac:(lia))) as H.
    replace (Py.len (flat_map idle_indices records) <? 0) with false in H
      by (symmetry; apply Z.ltb_ge; lia).
    exact H.
  - apply (leb_zero _ false).
    pose proof (div_sign _ _ false (Py.len records <? 0)
                  (Hnonneg _ H4 (proj1 Htaken))
                  (Hfinite _ H5 ltac:(lia))) as H.
    replace (Py.len records <? 0) with false in H
      by (symmetry; apply Z.ltb_ge; lia).
    exact H.
  - intros Hpos. apply (leb_zero _ false).
    set (samples := Py.len records
                    * CoreStateAtBranchEventAnalyzer.observation_window self) in *.
    pose proof (div_sign _ _ false (samples <? 0)
                  (Hnonneg _ H2 ltac:(lia)) (Hfinite _ H3 ltac:(nia))) as Hdiv.
    replace (samples <? 0) with false in Hdiv
      by (symmetry; apply Z.ltb_ge; nia).
    cbn [xorb] in Hdiv. exact (mul_sign _ (PyFloat.nearest 100) false false Hdiv H100).
  - intros Hneg. apply (leb_zero _ true).
    set (samples := Py.len records
                    * CoreStateAtBranchEventAnalyzer.observation_window self) in *.
    pose proof (div_sign _ _ false (samples <? 0)
                  (Hnonneg _ H2 ltac:(lia)) (Hfinite _ H3 ltac:(nia))) as Hdiv.
    replace (samples <? 0) with true in Hdiv
      by (symmetry; apply Z.ltb_lt; nia).
    cbn [xorb] in Hdiv. exact (mul_sign _ (PyFloat.nearest 100) true false Hdiv H100).
Qed.

Lemma summary_values_are_bounded_witness :
  CoreStateAtBranchEventAnalyzer.observation_window example_analyzer <> 0
  /\ exists row : SummaryRow.t float,
      In row (fst (CoreStateAtBranchEventAnalyzer.generate_analysis_summary
                     example_analyzer example_records))
      /\ (0 <=? SummaryRow.Branch_Taken_Ratio row)%float = true.
Proof.
  assert (Hwindow :
            CoreStateAtBranchEventAnalyzer.observation_window example_analyzer <> 0)
    by discriminate.
  split; [exact Hwindow|].
  eexists. split; [left; reflexivity|].
  destruct (summary_values_are_bounded example_analyzer example_records _
              Hwindow (or_introl eq_refl))
    as (stats & _ & _ & _ & _ & _ & _ & Hratio & _).
  exact Hratio.
Defined.

(** ** The argument string of setup *)

Lemma int_of_str_raises (text : string) (e : Py.exn) :
  Py.int_of_str text = Py.Raise e -> e = Py.ValueError.
Proof.
  unfold Py.int_of_str.
  destruct (match Py.lstrip text with
            | String "-" s' => (true, s')
            | String "+" s' => (false, s')
            | _ => (false, Py.lstrip text)
            end) as [negative digits].
  destruct (Py.int_digits 0 false digits); [|intros Heq; now inversion Heq].
  destruct (Py.int_max_str_digits <? Py.count_digits digits);
    [intros Heq; now inversion Heq|discriminate].
Qed.

(** X11. An omitted or empty field of the argument string stands for its
    default, 100 for the window and 1 for the period: leaving out the
    arguments, the period or the window gives the same result, error
    included, as writing the default. *)
Theorem setup_defaults (sim : Sim) (text : string) :
  no_colon text = true ->
  CoreStateAtBranchEventAnalyzer.setup sim None
  = CoreStateAtBranchEventAnalyzer.setup sim (Some "100:1"%string)
  /\ CoreStateAtBranchEventAnalyzer.setup sim (Some EmptyString)
     = CoreStateAtBranchEventAnalyzer.setup sim (Some "100:1"%string)
  /\ CoreStateAtBranchEventAnalyzer.setup sim (Some text)
     = CoreStateAtBranchEventAnalyzer.setup sim (Some (text ++ ":1")%string)
  /\ CoreStateAtBranchEventAnalyzer.setup sim (Some (text ++ ":")%string)
     = CoreStateAtBranchEventAnalyzer.setup sim (Some (text ++ ":1")%string)
  /\ CoreStateAtBranchEventAnalyzer.setup sim (Some (":" ++ text)%string)
     = CoreStateAtBranchEventAnalyzer.setup sim (Some ("100:" ++ text)%string).
Proof.
  intros Hplain. unfold no_colon in Hplain.
  split; [reflexivity|]. split; [reflexivity|].
  unfold CoreStateAtBranchEventAnalyzer.setup.
  change (text ++ ":1")%string with (text ++ ":" ++ "1")%string.
  change (text ++ ":")%string with (text ++ ":" ++ "")%string.
  rewrite (split_field text "1"), (split_field text ""), (split_last_field text)
    by assumption.
  change (":" ++ text)%string with ("" ++ ":" ++ text)%string.
  change ("100:" ++ text)%string with ("100" ++ ":" ++ text)%string.
  rewrite (split_field "" text), (split_field "100" text) by reflexivity.
  rewrite (split_last_field text) by assumption.
  split; [|split]; reflexivity.
Qed.

Lemma setup_defaults_witness :
  no_colon "250" = true
  /\ CoreStateAtBranchEventAnalyzer.setup example_sim (Some "250"%string)
     = CoreStateAtBranchEventAnalyzer.setup example_sim (Some "250:1"%string).
Proof.
  assert (Hplain : no_colon "250" = true) by reflexivity.
  split; [exact Hplain|].
  exact (proj1 (proj2 (proj2 (setup_defaults example_sim "250" Hplain)))).
Defined.

(** X12. [setup] reads the first two fields of the argument string and
    nothing else: whatever follows a second colon, further colons and
    text that is no number included, changes nothing. *)
Theorem setup_ignores_further_fields
        (sim : Sim) (window_text period_text rest : string) :
  no_colon window_text = true ->
  no_colon period_text = true ->
  CoreStateAtBranchEventAnalyzer.setup
    sim (Some (window_text ++ ":" ++ period_text ++ ":" ++ rest)%string)
  = CoreStateAtBranchEventAnalyzer.setup
      sim (Some (window_text ++ ":" ++ period_text)%string).
Proof.
  intros Hw Hp. unfold no_colon in Hw, Hp.
  unfold CoreStateAtBranchEventAnalyzer.setup.
  rewrite (split_field window_text (period_text ++ ":" ++ rest)),
    (split_field period_text rest),
    (split_field window_text period_text),
    (split_last_field period_text) by assumption.
  reflexivity.
Qed.

Lemma setup_ignores_further_fields_witness :
  no_colon "50" = true
  /\ no_colon "2" = true
  /\ CoreStateAtBranchEventAnalyzer.setup example_sim (Some "50:2:x:-1:"%string)
     = CoreStateAtBranchEventAnalyzer.setup example_sim (Some "50:2"%string).
Proof.
  assert (Hw : no_colon "50" = true) by reflexivity.
  assert (Hp : no_colon "2" = true) by reflexivity.
  split; [exact Hw|]. split; [exact Hp|].
  exact (setup_ignores_further_fields example_sim "50" "2" "x:-1:" Hw Hp).
Defined.

(** ** What int accepts *)

Lemma digit_of_spec (c : ascii) :
  Py.digit_of c
  = if is_digit c then Some (Z.of_nat (nat_of_ascii c) - 48) else None.
Proof. destruct c as [[] [] [] [] [] [] [] []]; reflexivity. Qed.

Lemma all_space_spec (text : string) :
  all_space text = forallb Py.is_space (list_ascii_of_string text).
Proof.
  unfold all_space. induction (list_ascii_of_string text) as [|c l IH];
    [reflexivity|].
  cbn [forallb]. rewrite IH. f_equal.
  destruct c as [[] [] [] [] [] [] [] []]; reflexivity.
Qed.

Lemma join_concat (sep : string) (xs : list string) :
  Py.join sep xs = String.concat sep xs.
Proof.
  induction xs as [|x xs IH]; [reflexivity|].
  destruct xs as [|y xs]; [reflexivity|].
  cbn [Py.join String.concat] in *. now rewrite IH.
Qed.

Lemma space_not_digit (c : ascii) :
  Py.is_space c = true -> is_digit c = false /\ Ascii.eqb c "_" = false.
Proof.
  destruct c as [[] [] [] [] [] [] [] []]; intros H; try discriminate H;
    split; reflexivity.
Qed.

Lemma digit_not_sign (c : ascii) :
  is_digit c = true ->
  Py.is_space c = false /\ Ascii.eqb c "_" = false
  /\ Ascii.eqb c "-" = false /\ Ascii.eqb c "+" = false.
Proof.
  destruct c as [[] [] [] [] [] [] [] []]; intros H; try discriminate H;
    repeat split; reflexivity.
Qed.

Lemma all_space_app (a b : string) :
  all_space (a ++ b) = all_space a && all_space b.
Proof.
  rewrite ?all_space_spec. induction a as [|c a IH]; simpl; [reflexivity|].
  now rewrite IH, andb_assoc.
Qed.

Lemma lstrip_all_space (s : string) :
  all_space s = true -> Py.lstrip s = EmptyString.
Proof.
  rewrite ?all_space_spec. induction s as [|c s IH]; simpl; [reflexivity|].
  intros H. apply andb_prop in H. destruct H as [Hc Hs]. rewrite Hc. now apply IH.
Qed.

Lemma lstrip_empty (s : string) :
  Py.lstrip s = EmptyString -> all_space s = true.
Proof.
  rewrite ?all_space_spec. induction s as [|c s IH];
    cbn [Py.lstrip list_ascii_of_string forallb]; [reflexivity|].
  destruct (Py.is_space c); [exact IH|intros H; discriminate H].
Qed.

(** [lstrip] removes the longest prefix of white space. *)
Lemma lstrip_spec (s : string) :
  exists lead,
    s = (lead ++ Py.lstrip s)%string
    /\ all_space lead = true
    /\ match Py.lstrip s with
       | EmptyString => True
       | String c _ => Py.is_space c = false
       end.
Proof.
  induction s as [|c s IH].
  - exists EmptyString. repeat split.
  - simpl Py.lstrip. destruct (Py.is_space c) eqn:Hc.
    + destruct IH as (lead & Hs & Hlead & Hfirst).
      exists (String c lead). split; [simpl; now rewrite <- Hs|].
      split; [|exact Hfirst]. rewrite !all_space_spec in *. simpl. now rewrite Hc.
    + exists EmptyString. split; [reflexivity|]. split; [reflexivity|exact Hc].
Qed.

Lemma lstrip_app (lead : string) (c : ascii) (rest : string) :
  all_space lead = true -> Py.is_space c = false ->
  Py.lstrip (lead ++ String c rest) = String c rest.
Proof.
  rewrite ?all_space_spec. intros Hlead Hc. induction lead as [|a lead IH]; simpl.
  - now rewrite Hc.
  - simpl in Hlead. apply andb_prop in Hlead. destruct Hlead as [Ha Hlead].
    rewrite Ha. now apply IH.
Qed.

Lemma decimal_from_app (acc : Z) (a b : string) :
  decimal_from acc (a ++ b) = decimal_from (decimal_from acc a) b.
Proof.
  unfold decimal_from. revert acc. induction a as [|c a IH]; intros acc; simpl;
    [reflexivity|]. apply IH.
Qed.

Lemma concat_cons (group : string) (groups : list string) :
  String.concat EmptyString (group :: groups)
  = (group ++ String.concat EmptyString groups)%string.
Proof.
  destruct groups; simpl; [|reflexivity].
  induction group as [|c group IH]; simpl; [reflexivity|]. now rewrite <- IH.
Qed.

Lemma string_app_nil (s : string) : (s ++ EmptyString)%string = s.
Proof. induction s as [|c s IH]; simpl; [reflexivity|]. now rewrite IH. Qed.

Lemma string_length_app (a b : string) :
  String.length (a ++ b) = (String.length a + String.length b)%nat.
Proof. induction a as [|c a IH]; simpl; [reflexivity|]. now rewrite IH. Qed.

(** After the last digit only white space may follow. *)
Lemma int_digits_trail (acc : Z) (trail : string) :
  all_space trail = true -> Py.int_digits acc true trail = Some acc.
Proof.
  destruct trail as [|c trail]; [reflexivity|].
  rewrite ?all_space_spec. simpl. intros H. apply andb_prop in H. destruct H as [Hc Ht].
  destruct (space_not_digit c Hc) as [Hd Hu].
  rewrite digit_of_spec, Hd, Hu, Hc. simpl.
  rewrite lstrip_all_space; [reflexivity|now rewrite all_space_spec].
Qed.

(** A run of digits is read into the accumulator. *)
Lemma int_digits_run (group : string) :
  forallb is_digit (list_ascii_of_string group) = true ->
  forall acc rest,
    Py.int_digits acc true (group ++ rest)
    = Py.int_digits (decimal_from acc group) true rest.
Proof.
  induction group as [|c group IH]; intros Hall acc rest; [reflexivity|].
  simpl in Hall. apply andb_prop in Hall. destruct Hall as [Hc Hall].
  simpl Py.int_digits. rewrite digit_of_spec, Hc. rewrite IH by assumption.
  reflexivity.
Qed.

Lemma int_digits_group (group : string) (acc : Z) (prev : bool) (rest : string) :
  digit_run group = true ->
  Py.int_digits acc prev (group ++ rest)
  = Py.int_digits (decimal_from acc group) true rest.
Proof.
  unfold digit_run. intros H. apply andb_prop in H. destruct H as [Hne Hall].
  destruct group as [|c group]; [discriminate|].
  simpl in Hall. apply andb_prop in Hall. destruct Hall as [Hc Hall].
  simpl Py.int_digits. rewrite digit_of_spec, Hc.
  rewrite int_digits_run by assumption. reflexivity.
Qed.

Lemma join_cons (group next : string) (groups : list string) :
  Py.join "_" (group :: next :: groups)
  = (group ++ "_" ++ Py.join "_" (next :: groups))%string.
Proof. reflexivity. Qed.

Lemma group_first_digit (group : string) (rest : string) :
  digit_run group = true ->
  exists c tail, (group ++ rest)%string = String c tail /\ is_digit c = true.
Proof.
  unfold digit_run. intros H. apply andb_prop in H. destruct H as [Hne Hall].
  destruct group as [|c group]; [discriminate|].
  simpl in Hall. apply andb_prop in Hall. destruct Hall as [Hc _].
  exists c, (group ++ rest)%string. split; [reflexivity|exact Hc].
Qed.

Lemma join_first_digit (groups : list string) (rest : string) :
  groups <> [] -> Forall (fun group => digit_run group = true) groups ->
  exists c tail,
    (Py.join "_" groups ++ rest)%string = String c tail /\ is_digit c = true.
Proof.
  intros Hne Hall. destruct groups as [|group groups]; [contradiction|].
  inversion Hall as [|? ? Hgroup Hrest]; subst.
  destruct groups as [|next groups].
  - now apply group_first_digit.
  - rewrite join_cons, <- string_app_assoc. now apply group_first_digit.
Qed.

(** The groups of a literal are read one after the other. *)
Lemma int_digits_groups (groups : list string) :
  groups <> [] -> Forall (fun group => digit_run group = true) groups ->
  forall acc prev trail,
    all_space trail = true ->
    Py.int_digits acc prev (Py.join "_" groups ++ trail)
    = Some (decimal_from acc (String.concat EmptyString groups)).
Proof.
  induction groups as [|group groups IH]; intros Hne Hall acc prev trail Htrail;
    [contradiction|].
  inversion Hall as [|? ? Hgroup Hrest]; subst.
  destruct groups as [|next groups].
  - cbn [Py.join String.concat]. rewrite int_digits_group by assumption.
    now apply int_digits_trail.
  - rewrite join_cons, concat_cons, decimal_from_app.
    rewrite <- !string_app_assoc. rewrite int_digits_group by assumption.
    destruct (join_first_digit (next :: groups) trail ltac:(discriminate) Hrest)
      as (c & tail & Htail & Hc).
    change ("_" ++ Py.join "_" (next :: groups) ++ trail)%string
      with (String "_" (Py.join "_" (next :: groups) ++ trail)).
    cbn [Py.int_digits]. change (Py.digit_of "_") with (@None Z).
    change (Ascii.eqb "_" "_") with true. cbn iota.
    rewrite Htail, digit_of_spec, Hc, <- Htail.
    apply IH; [discriminate|assumption|assumption].
Qed.

Lemma chars_app (a b : string) :
  list_ascii_of_string (a ++ b) = list_ascii_of_string a ++ list_ascii_of_string b.
Proof. induction a as [|c a IH]; simpl; [reflexivity|]. now rewrite IH. Qed.

Lemma count_digits_app (a b : string) :
  Py.count_digits (a ++ b) = Py.count_digits a + Py.count_digits b.
Proof.
  unfold Py.count_digits. now rewrite chars_app, filter_app, length_app, Nat2Z.inj_add.
Qed.

Lemma count_digits_cons (c : ascii) (s : string) :
  Py.count_digits (String c s)
  = (if is_digit c then 1 else 0) + Py.count_digits s.
Proof.
  change (String c s) with (String c EmptyString ++ s)%string.
  rewrite count_digits_app. f_equal. unfold Py.count_digits.
  cbn [list_ascii_of_string filter]. rewrite digit_of_spec.
  now destruct (is_digit c).
Qed.

Lemma count_digits_run (group : string) :
  forallb is_digit (list_ascii_of_string group) = true ->
  Py.count_digits group = Z.of_nat (String.length group).
Proof.
  induction group as [|c group IH]; intros Hall; [reflexivity|].
  cbn [list_ascii_of_string forallb] in Hall.
  apply andb_prop in Hall. destruct Hall as [Hc Hall].
  rewrite count_digits_cons, Hc, IH by assumption.
  cbn [String.length]. lia.
Qed.

Lemma count_digits_space (trail : string) :
  all_space trail = true -> Py.count_digits trail = 0.
Proof.
  rewrite ?all_space_spec. induction trail as [|c trail IH]; intros Hall; [reflexivity|].
  cbn [list_ascii_of_string forallb] in Hall.
  apply andb_prop in Hall. destruct Hall as [Hc Hall].
  destruct (space_not_digit c Hc) as [Hd _].
  rewrite count_digits_cons, Hd, IH by assumption. reflexivity.
Qed.

Lemma count_digits_groups (groups : list string) :
  Forall (fun group => digit_run group = true) groups ->
  Py.count_digits (Py.join "_" groups)
  = Z.of_nat (String.length (String.concat EmptyString groups)).
Proof.
  induction 1 as [|group groups Hgroup Hrest IH]; [reflexivity|].
  assert (Hall : forallb is_digit (list_ascii_of_string group) = true).
  { unfold digit_run in Hgroup. now apply andb_prop in Hgroup. }
  rewrite concat_cons, string_length_app, Nat2Z.inj_add.
  destruct groups as [|next groups].
  - cbn [Py.join String.concat String.length]. rewrite count_digits_run by assumption.
    lia.
  - rewrite join_cons, !count_digits_app, IH, count_digits_run by assumption.
    change (Py.count_digits "_") with 0. lia.
Qed.

Lemma join_tails (group : string) (tails : list string) :
  Py.join "_" (group :: tails)
  = (group ++ String.concat EmptyString (map (append "_") tails))%string.
Proof.
  revert group. induction tails as [|next tails IH]; intros group.
  - cbn [Py.join map String.concat]. now rewrite string_app_nil.
  - rewrite join_cons, IH. cbn [map]. rewrite concat_cons.
    now rewrite <- string_app_assoc.
Qed.

(** What [int_digits] has read when it succeeds: a run of digits, groups
    that each follow an underscore, and white space. *)
Lemma int_digits_inv (s : string) :
  forall acc prev m,
    Py.int_digits acc prev s = Some m ->
    exists run tails trail,
      s = (run ++ String.concat EmptyString (map (append "_") tails) ++ trail)%string
      /\ forallb is_digit (list_ascii_of_string run) = true
      /\ (prev = false -> run <> EmptyString)
      /\ Forall (fun group => digit_run group = true) tails
      /\ all_space trail = true
      /\ m = decimal_from acc (run ++ String.concat EmptyString tails).
Proof.
  induction s as [|c s IH]; intros acc prev m Hm.
  - cbn [Py.int_digits] in Hm. destruct prev; [|discriminate]. inversion Hm.
    exists EmptyString, [], EmptyString. repeat split; try reflexivity.
    + discriminate.
    + constructor.
  - cbn [Py.int_digits] in Hm. rewrite digit_of_spec in Hm.
    destruct (is_digit c) eqn:Hc.
    + destruct (IH _ _ _ Hm) as (run & tails & trail & Hs & Hrun & _ & Htails
                                 & Htrail & Hvalue).
      exists (String c run), tails, trail.
      split; [exact (f_equal (String c) Hs)|].
      split; [cbn [list_ascii_of_string forallb]; now rewrite Hc|].
      split; [discriminate|]. split; [exact Htails|]. split; [exact Htrail|].
      rewrite Hvalue. reflexivity.
    + destruct (Ascii.eqb c "_") eqn:Hu.
      * apply Ascii.eqb_eq in Hu. subst c.
        destruct prev; [|discriminate].
        destruct s as [|c' s']; [discriminate|].
        rewrite digit_of_spec in Hm. destruct (is_digit c') eqn:Hc'; [|discriminate].
        destruct (IH _ _ _ Hm) as (run & tails & trail & Hs & Hrun & Hne & Htails
                                   & Htrail & Hvalue).
        exists EmptyString, (run :: tails), trail.
        split.
        { rewrite Hs. cbn [map]. rewrite concat_cons, <- !string_app_assoc.
          reflexivity. }
        split; [reflexivity|]. split; [discriminate|]. split.
        { constructor; [|exact Htails]. unfold digit_run. rewrite Hrun, andb_true_r.
          apply negb_true_iff. apply String.eqb_neq. now apply Hne. }
        split; [exact Htrail|].
        rewrite Hvalue, concat_cons. reflexivity.
      * destruct prev; cbn [andb] in Hm; [|discriminate].
        destruct (Py.is_space c) eqn:Hsp; [|discriminate].
        destruct (Py.lstrip s) eqn:Hstrip; [|discriminate]. inversion Hm.
        exists EmptyString, [], (String c s).
        split; [reflexivity|]. split; [reflexivity|]. split; [discriminate|].
        split; [constructor|]. split; [|reflexivity].
        rewrite all_space_spec. cbn [list_ascii_of_string forallb]. rewrite Hsp.
        rewrite <- all_space_spec. now apply lstrip_empty.
Qed.

Lemma sign_of_digit (c : ascii) (tail : string) :
  is_digit c = true ->
  match String c tail with
  | String "-" s' => (true, s')
  | String "+" s' => (false, s')
  | _ => (false, String c tail)
  end = (false, String c tail).
Proof.
  destruct c as [[] [] [] [] [] [] [] []]; intros H; try discriminate H; reflexivity.
Qed.

Lemma sign_split (body : string) :
  exists sign digits,
    body = (sign ++ digits)%string
    /\ (sign = EmptyString \/ sign = "+"%string \/ sign = "-"%string)
    /\ match body with
       | String "-" s' => (true, s')
       | String "+" s' => (false, s')
       | _ => (false, body)
       end
       = (String.eqb sign "-", digits).
Proof.
  destruct body as [|c tail].
  - exists EmptyString, EmptyString. repeat split. now left.
  - destruct c as [[] [] [] [] [] [] [] []];
      try (eexists EmptyString, _; split; [reflexivity|];
           split; [now left|reflexivity]).
    + exists "+"%string, tail. split; [reflexivity|]. split; [|reflexivity].
      right. now left.
    + exists "-"%string, tail. split; [reflexivity|]. split; [|reflexivity].
      right. now right.
Qed.

(** [int] accepts the literals and nothing else, and returns the number
    a literal denotes. *)
Lemma int_of_str_literal (text : string) (n : Z) :
  Py.int_of_str text = Py.Ok n <-> int_literal text n.
Proof.
  split.
  - unfold Py.int_of_str. intros Hint.
    destruct (lstrip_spec text) as (lead & Htext & Hlead & _).
    destruct (sign_split (Py.lstrip text)) as (sign & digits & Hbody & Hsign & Hmatch).
    rewrite Hmatch in Hint.
    destruct (Py.int_digits 0 false digits) as [m|] eqn:Hm; [|discriminate].
    destruct (Py.int_max_str_digits <? Py.count_digits digits) eqn:Hcount;
      [discriminate|].
    inversion Hint as [Hn]. clear Hint.
    destruct (int_digits_inv _ _ _ _ Hm)
      as (run & tails & trail & Hdigits & Hrun & Hne & Htails & Htrail & Hvalue).
    specialize (Hne eq_refl).
    assert (Hgroup : digit_run run = true).
    { unfold digit_run. rewrite Hrun, andb_true_r.
      apply negb_true_iff. now apply String.eqb_neq. }
    assert (Hgroups : Forall (fun group => digit_run group = true) (run :: tails))
      by now constructor.
    exists lead, sign, (run :: tails), trail.
    split.
    { rewrite <- join_concat, join_tails, <- string_app_assoc, <- Hdigits, <- Hbody.
      exact Htext. }
    split; [exact Hlead|]. split; [exact Htrail|]. split; [exact Hsign|].
    split; [discriminate|]. split; [exact Hgroups|]. split.
    + apply Z.ltb_ge in Hcount. rewrite <- (count_digits_groups _ Hgroups).
      rewrite Hdigits, string_app_assoc, <- join_tails in Hcount.
      rewrite count_digits_app, (count_digits_space trail Htrail) in Hcount.
      unfold Py.int_max_str_digits in Hcount. lia.
    + rewrite concat_cons. unfold decimal_value. now rewrite <- Hvalue.
  - intros (lead & sign & groups & trail & -> & Hlead & Htrail & Hsign & Hne
            & Hgroups & Hcount & ->).
    unfold Py.int_of_str. rewrite <- join_concat.
    destruct (join_first_digit groups trail Hne Hgroups) as (c & tail & Htail & Hc).
    destruct (digit_not_sign c Hc) as (Hsp & _).
    assert (Hdigits : Py.int_digits 0 false (Py.join "_" groups ++ trail)
                      = Some (decimal_value (String.concat EmptyString groups)))
      by now apply int_digits_groups.
    assert (Hlimit : (Py.int_max_str_digits
                      <? Py.count_digits (Py.join "_" groups ++ trail)) = false).
    { apply Z.ltb_ge. rewrite count_digits_app, count_digits_groups by assumption.
      rewrite (count_digits_space trail Htrail). unfold Py.int_max_str_digits. lia. }
    destruct Hsign as [->|[->| ->]].
    + cbn [append]. rewrite Htail, lstrip_app by assumption.
      rewrite sign_of_digit by assumption. rewrite <- Htail, Hdigits, Hlimit.
      reflexivity.
    + change ("+" ++ Py.join "_" groups ++ trail)%string
        with (String "+" (Py.join "_" groups ++ trail)).
      rewrite lstrip_app by (try assumption; reflexivity).
      cbv iota beta. rewrite Hdigits, Hlimit. reflexivity.
    + change ("-" ++ Py.join "_" groups ++ trail)%string
        with (String "-" (Py.join "_" groups ++ trail)).
      rewrite lstrip_app by (try assumption; reflexivity).
      cbv iota beta. rewrite Hdigits, Hlimit. reflexivity.
Qed.

(** A field of the argument string is read as its value. *)
Lemma int_or_field (text : string) (default : Z) :
  (forall n,
      CoreStateAtBranchEventAnalyzer.int_or (Some text) default = Py.Ok n
      <-> field_value text default n)
  /\ forall e,
    CoreStateAtBranchEventAnalyzer.int_or (Some text) default = Py.Raise e ->
    e = Py.ValueError.
Proof.
  destruct text as [|c text].
  - cbn [CoreStateAtBranchEventAnalyzer.int_or]. split; [|discriminate].
    intros n. split.
    + intros Hn. inversion Hn. left. now split.
    + intros [[_ ->]|Hliteral]; [reflexivity|].
      apply int_of_str_literal in Hliteral. discriminate Hliteral.
  - cbn [CoreStateAtBranchEventAnalyzer.int_or]. split; [|apply int_of_str_raises].
    intros n. rewrite int_of_str_literal. split.
    + intros Hliteral. now right.
    + intros [[Hempty _]|Hliteral]; [discriminate|exact Hliteral].
Qed.

(** X13. [setup] raises nothing but [ValueError], and it raises it exactly
    when the window field or the period field is neither empty nor an
    integer literal: white space, an optional sign, groups of digits with
    single underscores between them, white space, at most 4300 digits.
    In every other case it succeeds with the numbers that the fields
    denote, negative ones included, and with the default for an empty
    field. *)
Theorem setup_raises_only_for_malformed_numbers
        (sim : Sim) (window_text period_text : string) :
  no_colon window_text = true ->
  no_colon period_text = true ->
  let args := Some (window_text ++ ":" ++ period_text)%string in
  (forall e,
      CoreStateAtBranchEventAnalyzer.setup sim args = Py.Raise e ->
      e = Py.ValueError)
  /\ (forall window period,
         field_value window_text 100 window ->
         field_value period_text 1 period ->
         exists self,
           CoreStateAtBranchEventAnalyzer.setup sim args = Py.Ok self
           /\ CoreStateAtBranchEventAnalyzer.observation_window self = window
           /\ CoreStateAtBranchEventAnalyzer.sampling_period self = period)
  /\ (forall self,
         CoreStateAtBranchEventAnalyzer.setup sim args = Py.Ok self ->
         field_value window_text 100
                     (CoreStateAtBranchEventAnalyzer.observation_window self)
         /\ field_value period_text 1
                        (CoreStateAtBranchEventAnalyzer.sampling_period self)).
Proof.
  intros Hw Hp args. subst args. unfold no_colon in Hw, Hp.
  unfold CoreStateAtBranchEventAnalyzer.setup.
  rewrite (split_field window_text period_text),
    (split_last_field period_text) by assumption.
  change (Py.get (Py.enumerate [window_text; period_text]) 0)
    with (Some window_text).
  change (Py.get (Py.enumerate [window_text; period_text]) 1)
    with (Some period_text).
  destruct (int_or_field window_text 100) as [Hwindow Hwindow_raises].
  destruct (int_or_field period_text 1) as [Hperiod Hperiod_raises].
  destruct (CoreStateAtBranchEventAnalyzer.int_or (Some window_text) 100)
    as [window|ew]; cbn [Py.bind].
  - destruct (CoreStateAtBranchEventAnalyzer.int_or (Some period_text) 1)
      as [period|ep]; cbn [Py.bind].
    + split; [discriminate|]. split.
      * intros window' period' Hw' Hp'.
        apply Hwindow in Hw'. apply Hperiod in Hp'.
        inversion Hw'. inversion Hp'. subst. eexists.
        split; [reflexivity|]. split; reflexivity.
      * intros self Hself. inversion Hself. subst self.
        cbn [CoreStateAtBranchEventAnalyzer.observation_window
               CoreStateAtBranchEventAnalyzer.sampling_period].
        split; [now apply Hwindow|now apply Hperiod].
    + split; [intros e He; inversion He; subst; now apply Hperiod_raises|].
      split; [|discriminate].
      intros window' period' _ Hp'. apply Hperiod in Hp'. discriminate Hp'.
  - split; [intros e He; inversion He; subst; now apply Hwindow_raises|].
    split; [|discriminate].
    intros window' period' Hw' _. apply Hwindow in Hw'. discriminate Hw'.
Qed.

Lemma setup_raises_only_for_malformed_numbers_witness :
  no_colon " -5" = true
  /\ no_colon "1_0 " = true
  /\ exists self,
      CoreStateAtBranchEventAnalyzer.setup example_sim (Some " -5:1_0 "%string)
      = Py.Ok self
      /\ CoreStateAtBranchEventAnalyzer.observation_window self = -5
      /\ CoreStateAtBranchEventAnalyzer.sampling_period self = 10.
Proof.
  assert (Hw : no_colon " -5" = true) by reflexivity.
  assert (Hp : no_colon "1_0 " = true) by reflexivity.
  split; [exact Hw|]. split; [exact Hp|].
  apply (proj1 (proj2 (setup_raises_only_for_malformed_numbers
                         example_sim " -5" "1_0 " Hw Hp))).
  - right. exists " "%string, "-"%string, ["5"%string], EmptyString.
    repeat split; try reflexivity.
    + right. now right.
    + discriminate.
    + now repeat constructor.
    + discriminate.
  - right. exists EmptyString, EmptyString, ["1"; "0"]%string, " "%string.
    repeat split; try reflexivity.
    + now left.
    + discriminate.
    + now repeat constructor.
    + discriminate.
Defined.

(** ** The order and the totals of the summary *)

Lemma contains_existsb {V : Type} (d : Py.dict string V) (key : string) :
  Py.contains d key = existsb (String.eqb key) (Py.keys d).
Proof.
  unfold Py.contains. induction d as [|[k v] d IH]; simpl; [reflexivity|].
  rewrite (String.eqb_sym key k). destruct (String.eqb k key); simpl;
    [reflexivity|exact IH].
Qed.

Lemma keys_count_record (pattern_stats : Py.dict string PatternStats.t)
      (record : BranchRecord.t) :
  Py.keys (CoreStateAtBranchEventAnalyzer.count_record pattern_stats record)
  = if has_idle record
    then if existsb (String.eqb (Py.hex (BranchRecord.ip record)))
                    (Py.keys pattern_stats)
         then Py.keys pattern_stats
         else Py.keys pattern_stats ++ [Py.hex (BranchRecord.ip record)]
    else Py.keys pattern_stats.
Proof.
  rewrite has_idle_positions. unfold CoreStateAtBranchEventAnalyzer.count_record.
  destruct (CoreStateAtBranchEventAnalyzer.idle_positions_of record) as [|i l];
    [reflexivity|].
  rewrite <- contains_existsb.
  destruct (Py.get pattern_stats (Py.hex (BranchRecord.ip record))) eqn:Hget;
    rewrite keys_setitem; reflexivity.
Qed.

Lemma keys_fold_count_record (records : list BranchRecord.t) :
  forall pattern_stats : Py.dict string PatternStats.t,
    Py.keys (fold_left CoreStateAtBranchEventAnalyzer.count_record
                       records pattern_stats)
    = fold_left
        (fun seen x => if existsb (String.eqb x) seen then seen else seen ++ [x])
        (map (fun record => Py.hex (BranchRecord.ip record))
             (filter has_idle records))
        (Py.keys pattern_stats).
Proof.
  induction records as [|record records IH]; intros pattern_stats; simpl;
    [reflexivity|].
  rewrite IH, keys_count_record.
  destruct (has_idle record); reflexivity.
Qed.


Lemma summary_row_ip {F : Type} `{PyFloat.Ops F}
      (self : CoreStateAtBranchEventAnalyzer.t) (ip : string)
      (stats : PatternStats.t) (row : SummaryRow.t F) :
  CoreStateAtBranchEventAnalyzer.summary_row self ip stats = Py.Ok row ->
  SummaryRow.Branch_IP row = ip.
Proof.
  unfold CoreStateAtBranchEventAnalyzer.summary_row. intros Hrow.
  repeat match type of Hrow with
         | Py.bind ?m _ = _ =>
             destruct m; cbn [Py.bind] in Hrow; [|discriminate]
         end.
  inversion Hrow. reflexivity.
Qed.

Lemma write_rows_keys {F : Type} `{PyFloat.Ops F}
      (self : CoreStateAtBranchEventAnalyzer.t)
      (entries : list (string * PatternStats.t)) :
  exists rest,
    Py.keys entries
    = map SummaryRow.Branch_IP
          (fst (CoreStateAtBranchEventAnalyzer.write_rows self entries)) ++ rest
    /\ (snd (CoreStateAtBranchEventAnalyzer.write_rows self entries) = None ->
        rest = []).
Proof.
  induction entries as [|[ip stats] entries IH];
    cbn [CoreStateAtBranchEventAnalyzer.write_rows].
  - exists []. split; reflexivity.
  - destruct (CoreStateAtBranchEventAnalyzer.summary_row self ip stats)
      as [row|e] eqn:Hrow.
    + destruct IH as (rest & Hkeys & Hnone).
      destruct (CoreStateAtBranchEventAnalyzer.write_rows self entries)
        as [rows e].
      exists rest. cbn [fst snd map Py.keys] in *.
      rewrite (summary_row_ip self ip stats row Hrow).
      unfold Py.keys in Hkeys. rewrite Hkeys. split; [reflexivity|exact Hnone].
    + exists (Py.keys ((ip, stats) :: entries)). split; [reflexivity|].
      discriminate.
Qed.

(** X14. The rows of the summary come in the order in which their [ip]
    first occurs among the records that have an IDLE sample, whatever the
    window and the float arithmetic: the rows written are for the first
    of these [ip]s, one row each, and for all of them when the summary
    ends without an exception. *)
Theorem summary_rows_are_in_order_of_first_occurrence
        (F : Type) (ops : PyFloat.Ops F)
        (self : CoreStateAtBranchEventAnalyzer.t)
        (all_records : list BranchRecord.t) :
  let summary :=
    CoreStateAtBranchEventAnalyzer.generate_analysis_summary self all_records in
  exists rest,
    first_seen (map (fun record => Py.hex (BranchRecord.ip record))
                    (filter has_idle all_records))
    = map SummaryRow.Branch_IP (fst summary) ++ rest
    /\ (snd summary = None -> rest = []).
Proof.
  intros summary. subst summary.
  unfold CoreStateAtBranchEventAnalyzer.generate_analysis_summary, Py.items.
  destruct (write_rows_keys
              self (CoreStateAtBranchEventAnalyzer.pattern_stats_of all_records))
    as (rest & Hkeys & Hnone).
  exists rest. split; [|exact Hnone]. rewrite <- Hkeys.
  unfold CoreStateAtBranchEventAnalyzer.pattern_stats_of. symmetry.
  exact (keys_fold_count_record all_records []).
Qed.

Lemma sum_app (l l' : list Z) : Py.sum (l ++ l') = Py.sum l + Py.sum l'.
Proof.
  induction l as [|x l IH]; simpl; [reflexivity|].
  rewrite !sum_cons, IH. lia.
Qed.

Lemma total_setitem (m : PatternStats.t -> Z)
      (d : Py.dict string PatternStats.t) (key : string) (stats : PatternStats.t) :
  Py.sum (map m (Py.values (Py.setitem d key stats)))
  = Py.sum (map m (Py.values d)) + m stats
    - match Py.get d key with
      | Some old => m old
      | None => 0
      end.
Proof.
  unfold Py.values. induction d as [|[k v] d IH]; simpl.
  - rewrite sum_cons. unfold Py.sum. simpl. lia.
  - destruct (String.eqb k key); simpl; rewrite !sum_cons; [lia|].
    rewrite IH. lia.
Qed.

Lemma count_record_total (m : PatternStats.t -> Z) (g : list Z -> bool -> Z)
      (d : Py.dict string PatternStats.t) (record : BranchRecord.t) :
  (forall positions (taken : bool),
      m {| PatternStats.count := 1;
           PatternStats.idle_positions := positions;
           PatternStats.branch_taken_count := if taken then 1 else 0 |}
      = g positions taken) ->
  (forall stats positions (taken : bool),
      m {| PatternStats.count := PatternStats.count stats + 1;
           PatternStats.idle_positions :=
             PatternStats.idle_positions stats ++ positions;
           PatternStats.branch_taken_count :=
             if taken then PatternStats.branch_taken_count stats + 1
             else PatternStats.branch_taken_count stats |}
      = m stats + g positions taken) ->
  Py.sum (map m (Py.values
                   (CoreStateAtBranchEventAnalyzer.count_record d record)))
  = Py.sum (map m (Py.values d))
    + if has_idle record
      then g (CoreStateAtBranchEventAnalyzer.idle_positions_of record)
             (BranchRecord.branch_taken record)
      else 0.
Proof.
  intros Hnew Hupdate. rewrite has_idle_positions.
  unfold CoreStateAtBranchEventAnalyzer.count_record.
  destruct (CoreStateAtBranchEventAnalyzer.idle_positions_of record) as [|i l];
    [lia|].
  destruct (Py.get d (Py.hex (BranchRecord.ip record))) as [stats|] eqn:Hget;
    rewrite total_setitem, Hget.
  - rewrite Hupdate. lia.
  - rewrite Hnew. lia.
Qed.

Lemma positions_from_len {A : Type} (p : A -> bool) (xs : list A) (i : Z) :
  Py.len (Py.positions_from p i xs) = Py.len (filter p xs).
Proof.
  unfold Py.len. f_equal. revert i.
  induction xs as [|x xs IH]; intros i; simpl; [reflexivity|].
  destruct (p x); simpl; now rewrite (IH (i + 1)).
Qed.

Lemma idle_positions_len (record : BranchRecord.t) :
  Py.len (CoreStateAtBranchEventAnalyzer.idle_positions_of record)
  = idle_samples record.
Proof.
  unfold CoreStateAtBranchEventAnalyzer.idle_positions_of, idle_samples.
  rewrite positions_from_len. unfold Py.len. f_equal.
  induction (BranchRecord.states record) as [|[e s] l IH]; simpl; [reflexivity|].
  unfold IDLE in *. destruct (s =? 5); simpl; now rewrite IH.
Qed.

Lemma len_cons {A : Type} (x : A) (l : list A) : Py.len (x :: l) = 1 + Py.len l.
Proof. unfold Py.len. cbn [List.length]. lia. Qed.

Lemma sum_indicator {A : Type} (p : A -> bool) (l : list A) :
  Py.sum (map (fun x => if p x then 1 else 0) l) = Py.len (filter p l).
Proof.
  induction l as [|x l IH]; [reflexivity|]. cbn [map filter].
  rewrite sum_cons, IH. destruct (p x); [rewrite len_cons|]; lia.
Qed.

(** X15. Nothing is counted twice and nothing is lost in the summary:
    the [count]s of all entries of [pattern_stats] add up to the number of
    records that have an IDLE sample, the lengths of their
    [idle_positions] add up to the number of IDLE samples of all records,
    and their [branch_taken_count]s add up to the number of taken
    branches among the records that have an IDLE sample. *)
Theorem summary_totals (all_records : list BranchRecord.t) :
  let entries :=
    Py.values (CoreStateAtBranchEventAnalyzer.pattern_stats_of all_records) in
  Py.sum (map PatternStats.count entries)
  = Py.len (filter has_idle all_records)
  /\ Py.sum (map (fun stats => Py.len (PatternStats.idle_positions stats)) entries)
     = Py.sum (map idle_samples all_records)
  /\ Py.sum (map PatternStats.branch_taken_count entries)
     = Py.len (filter (fun record =>
                         has_idle record && BranchRecord.branch_taken record)
                      all_records).
Proof.
  assert (Hfold : forall (m : PatternStats.t -> Z) (g : list Z -> bool -> Z),
             (forall positions (taken : bool),
                 m {| PatternStats.count := 1;
                      PatternStats.idle_positions := positions;
                      PatternStats.branch_taken_count := if taken then 1 else 0 |}
                 = g positions taken) ->
             (forall stats positions (taken : bool),
                 m {| PatternStats.count := PatternStats.count stats + 1;
                      PatternStats.idle_positions :=
                        PatternStats.idle_positions stats ++ positions;
                      PatternStats.branch_taken_count :=
                        if taken then PatternStats.branch_taken_count stats + 1
                        else PatternStats.branch_taken_count stats |}
                 = m stats + g positions taken) ->
             forall records d,
               Py.sum (map m (Py.values
                                (fold_left CoreStateAtBranchEventAnalyzer.count_record
                                           records d)))
               = Py.sum (map m (Py.values d))
                 + Py.sum (map (fun record =>
                                  if has_idle record
                                  then g (CoreStateAtBranchEventAnalyzer.idle_positions_of
                                            record)
                                         (BranchRecord.branch_taken record)
                                  else 0) records)).
  { intros m g Hnew Hupdate.
    induction records as [|record records IH]; intros d; simpl.
    - unfold Py.sum at 3. simpl. lia.
    - rewrite IH, (count_record_total m g) by assumption. rewrite sum_cons. lia. }
  intros entries. subst entries.
  unfold CoreStateAtBranchEventAnalyzer.pattern_stats_of.
  split; [|split].
  - rewrite (Hfold PatternStats.count (fun _ _ => 1)).
    + cbn [fold_left map Py.values]. change (Py.sum []) with 0.
      now rewrite (sum_indicator has_idle).
    + reflexivity.
    + reflexivity.
  - rewrite (Hfold (fun stats => Py.len (PatternStats.idle_positions stats))
                   (fun positions _ => Py.len positions)).
    + cbn [fold_left map Py.values]. change (Py.sum []) with 0.
      cbn [Z.add]. f_equal. apply map_ext. intros r.
      rewrite idle_positions_len. destruct (has_idle r) eqn:Hidle; [reflexivity|].
      rewrite <- idle_positions_len.
      rewrite has_idle_positions in Hidle.
      destruct (CoreStateAtBranchEventAnalyzer.idle_positions_of r);
        [reflexivity|discriminate].
    + reflexivity.
    + intros stats positions taken. simpl. apply len_app.
  - rewrite (Hfold PatternStats.branch_taken_count
                   (fun _ taken => if taken then 1 else 0)).
    + cbn [fold_left map Py.values]. change (Py.sum []) with 0.
      rewrite <- (sum_indicator
                    (fun record => has_idle record && BranchRecord.branch_taken record)).
      cbn [Z.add]. f_equal. apply map_ext. intros r.
      now destruct (has_idle r), (BranchRecord.branch_taken r).
    + reflexivity.
    + intros stats positions taken. simpl. destruct taken; lia.
Qed.

(** ** Runs that a Python process can hold *)

Lemma idle_indices_bound (record : BranchRecord.t) :
  Forall (fun i => 0 <= i < Py.len (BranchRecord.states record))
         (idle_indices record)
  /\ Py.len (idle_indices record) <= Py.len (BranchRecord.states record).
Proof.
  unfold idle_indices, Py.len. split.
  - apply Forall_forall. intros i Hi. apply in_map_iff in Hi.
    destruct Hi as (k & <- & Hk). apply filter_In in Hk. destruct Hk as [Hk _].
    apply in_seq in Hk. lia.
  - rewrite length_map.
    pose proof (List.filter_length_le
                  (fun i =>
                     match nth_error (BranchRecord.states record) i with
                     | Some sample => snd sample =? IDLE
                     | None => false
                     end)
                  (seq 0 (List.length (BranchRecord.states record)))) as H.
    rewrite length_seq in H. lia.
Qed.

Lemma sum_bound (l : list Z) (b : Z) :
  Forall (fun i => 0 <= i < b) l -> 0 <= Py.sum l <= b * Py.len l.
Proof.
  induction 1 as [|x l Hx _ IH]; [unfold Py.sum, Py.len; simpl; lia|].
  rewrite sum_cons, len_cons. nia.
Qed.

Lemma positions_bound (records : list BranchRecord.t) (b : Z) :
  Forall (fun record => Py.len (BranchRecord.states record) < b) records ->
  Py.len (flat_map idle_indices records) <= b * Py.len records
  /\ 0 <= Py.sum (flat_map idle_indices records) <= b * b * Py.len records.
Proof.
  induction 1 as [|record records Hrecord _ IH].
  - unfold Py.sum, Py.len. simpl. lia.
  - cbn [flat_map]. rewrite len_app, sum_app, len_cons.
    destruct (idle_indices_bound record) as [Hin Hlen].
    pose proof (sum_bound _ _ Hin) as Hsum.
    assert (0 <= Py.len (idle_indices record)) by (unfold Py.len; lia).
    assert (0 <= Py.len records) by (unfold Py.len; lia).
    split; nia.
Qed.

Lemma not_too_large (n bound : Z) :
  Z.abs n <= bound -> bound < 2 ^ 1024 - 2 ^ 970 -> PyFloat.too_large n = false.
Proof. intros Hn Hbound. unfold PyFloat.too_large. apply Z.leb_gt. lia. Qed.

Lemma magnitude_bounds (R P S T window B W : Z) :
  0 <= R < B -> 0 <= P <= B * R -> 0 <= S <= B * B * R -> 0 <= T <= R ->
  Z.abs window <= W ->
  Z.abs S <= B * B * B
  /\ Z.abs P <= B * B * B
  /\ Z.abs (R * window) <= B * W
  /\ Z.abs T <= B * B * B
  /\ Z.abs R <= B * B * B.
Proof.
  intros HR HP HS HT HW. rewrite Z.abs_mul.
  rewrite (Z.abs_eq S), (Z.abs_eq P), (Z.abs_eq T), (Z.abs_eq R) by lia.
  assert (0 <= Z.abs window) by apply Z.abs_nonneg.
  repeat split; nia.
Qed.

(** X16. A Python list holds fewer than [2^63] items.  For records and
    samples within that limit and a window other than 0 of at most
    [2^960] in magnitude, every integer of the summary has a double: the
    summary raises nothing and writes one row for every [ip] that has a
    record with an IDLE sample. *)
Theorem summary_never_raises_in_practice
        (self : CoreStateAtBranchEventAnalyzer.t) (all_records : list BranchRecord.t) :
  CoreStateAtBranchEventAnalyzer.observation_window self <> 0 ->
  Z.abs (CoreStateAtBranchEventAnalyzer.observation_window self) <= 2 ^ 960 ->
  Py.len all_records < 2 ^ 63 ->
  (forall record,
      In record all_records -> Py.len (BranchRecord.states record) < 2 ^ 63) ->
  (forall ip,
      converts self (expected_stats (idle_records ip all_records)) = true)
  /\ snd (CoreStateAtBranchEventAnalyzer.generate_analysis_summary
            (F := float) self all_records) = None
  /\ map SummaryRow.Branch_IP
         (fst (CoreStateAtBranchEventAnalyzer.generate_analysis_summary
                 (F := float) self all_records))
     = first_seen (map (fun record => Py.hex (BranchRecord.ip record))
                       (filter has_idle all_records)).
Proof.
  intros Hwindow Hsize Hrecords Hsamples.
  assert (Hfit : forall ip,
             converts self (expected_stats (idle_records ip all_records)) = true).
  { intros ip. set (records := idle_records ip all_records).
    assert (Hsub : Forall (fun record => Py.len (BranchRecord.states record) < 2 ^ 63)
                          records).
    { apply Forall_forall. intros record Hin. apply Hsamples.
      unfold records, idle_records in Hin. now apply filter_In in Hin. }
    assert (Hcount : 0 <= Py.len records < 2 ^ 63).
    { unfold records, idle_records, Py.len in *. split; [lia|].
      pose proof (List.filter_length_le
                    (fun record => (BranchRecord.ip record =? ip) && has_idle record)
                    all_records). lia. }
    assert (Htaken : 0 <= Py.len (filter BranchRecord.branch_taken records)
                     <= Py.len records).
    { unfold Py.len. split; [lia|].
      pose proof (List.filter_length_le BranchRecord.branch_taken records). lia. }
    destruct (positions_bound records (2 ^ 63) Hsub) as [Hlen Hsum].
    assert (Hlen0 : 0 <= Py.len (flat_map idle_indices records))
      by (unfold Py.len; lia).
    assert (H189 : 2 ^ 63 * 2 ^ 63 * 2 ^ 63 < 2 ^ 1024 - 2 ^ 970) by reflexivity.
    assert (H1023 : 2 ^ 63 * 2 ^ 960 < 2 ^ 1024 - 2 ^ 970) by reflexivity.
    destruct (magnitude_bounds
                (Py.len records) (Py.len (flat_map idle_indices records))
                (Py.sum (flat_map idle_indices records))
                (Py.len (filter BranchRecord.branch_taken records))
                (CoreStateAtBranchEventAnalyzer.observation_window self)
                (2 ^ 63) (2 ^ 960) Hcount (conj Hlen0 Hlen) Hsum Htaken Hsize)
      as (B1 & B2 & B3 & B4 & B5).
    unfold converts, expected_stats.
    cbn [PatternStats.count PatternStats.idle_positions
           PatternStats.branch_taken_count].
    fold records.
    rewrite (not_too_large _ _ B1 H189), (not_too_large _ _ B2 H189),
      (not_too_large _ _ B3 H1023), (not_too_large _ _ B4 H189),
      (not_too_large _ _ B5 H189).
    reflexivity. }
  split; [exact Hfit|].
  pose proof (generate_binary64 self all_records Hwindow) as Hgen.
  cbv zeta in Hgen. rewrite (entries_convert _ _ Hfit) in Hgen.
  rewrite convertible_prefix_all in Hgen by now apply entries_convert.
  rewrite Hgen. cbn [fst snd]. split; [reflexivity|].
  rewrite map_map. unfold CoreStateAtBranchEventAnalyzer.pattern_stats_of.
  exact (keys_fold_count_record all_records []).
Qed.

Lemma summary_never_raises_in_practice_witness :
  CoreStateAtBranchEventAnalyzer.observation_window example_analyzer <> 0
  /\ Z.abs (CoreStateAtBranchEventAnalyzer.observation_window example_analyzer)
     <= 2 ^ 960
  /\ Py.len example_records < 2 ^ 63
  /\ (forall record,
         In record example_records ->
         Py.len (BranchRecord.states record) < 2 ^ 63)
  /\ snd (CoreStateAtBranchEventAnalyzer.generate_analysis_summary
            (F := float) example_analyzer example_records) = None.
Proof.
  assert (Hwindow :
            CoreStateAtBranchEventAnalyzer.observation_window example_analyzer <> 0)
    by discriminate.
  assert (Hsize :
            Z.abs (CoreStateAtBranchEventAnalyzer.observation_window example_analyzer)
            <= 2 ^ 960)
    by (apply Z.leb_le; reflexivity).
  assert (Hrecords : Py.len example_records < 2 ^ 63) by reflexivity.
  assert (Hsamples : forall record,
             In record example_records ->
             Py.len (BranchRecord.states record) < 2 ^ 63).
  { intros record [<-|[<-|[<-|[]]]]; reflexivity. }
  split; [exact Hwindow|]. split; [exact Hsize|]. split; [exact Hrecords|].
  split; [exact Hsamples|].
  exact (proj1 (proj2 (summary_never_raises_in_practice
                         example_analyzer example_records
                         Hwindow Hsize Hrecords Hsamples))).
Defined.
